(** * The analytics assistant of 06-smartway: intent routing and route data

    A shallow embedding of

    - the LangGraph analytics agent (Python): [intent_analyzer],
      [conditional_router], [get_graph_data], [select_edge], [get_bus_data],
      [chart_type_selector], [generate_analytic], [fallback_response],
      [build_analytics_graph] and the FastAPI endpoint [analyze];
    - the route-visualization frontend (TypeScript): [handleSend] of
      RightPanel.tsx, [sendMessage] of analytics-api.ts and
      [calculateCurrentPassengers], [validateNodeEdges], [loadRouteData] of
      dataTransform.ts, the nodes and edges that route-flow.tsx hands to
      React Flow with the highlight of an edge, and the blocks that
      RightPanel.tsx draws a message with.

    Strings are byte strings holding UTF-8.  The hosted model, the data files
    and the standard JSON decoder are outside the repository: what they
    return at each call site is an input of the model (record [World]). *)

From Stdlib Require Import ZArith QArith DecimalString DecimalPos Ascii Sorted.
From stdpp Require Import gmap strings list.

Set Warnings "-register-all".
Open Scope Z_scope.

(** ** Text: bytes, UTF-8, white space *)

Module Text.

Definition bytes (l : list N) : string :=
  foldr (λ n s, String (ascii_of_N n) s) EmptyString l.

(** The double quote and the line feed, which a literal cannot hold. *)
Definition dq : string := bytes [34%N].
Definition lf : string := bytes [10%N].

(** UTF-8 encoding of one code point. *)
Definition utf8 (cp : N) : string :=
  (if cp <? 128 then bytes [cp]
   else if cp <? 2048 then bytes [192 + cp / 64; 128 + cp mod 64]
   else if cp <? 65536 then
     bytes [224 + cp / 4096; 128 + (cp / 64) mod 64; 128 + cp mod 64]
   else
     bytes [240 + cp / 262144; 128 + (cp / 4096) mod 64;
            128 + (cp / 64) mod 64; 128 + cp mod 64])%N.

Fixpoint string_rev_onto (s acc : string) : string :=
  match s with
  | EmptyString => acc
  | String a s' => string_rev_onto s' (String a acc)
  end.
Definition string_rev (s : string) : string := string_rev_onto s EmptyString.

(** [drop_prefix p s]: [s] without its prefix [p], when it has it. *)
Fixpoint drop_prefix (p s : string) : option string :=
  match p, s with
  | EmptyString, _ => Some s
  | String a p', String b s' =>
      if Ascii.eqb a b then drop_prefix p' s' else None
  | String _ _, EmptyString => None
  end.

Fixpoint drop_one (ws : list string) (s : string) : option string :=
  match ws with
  | [] => None
  | w :: ws' =>
      match drop_prefix w s with
      | Some s' => Some s'
      | None => drop_one ws' s
      end
  end.

Fixpoint lstrip_upto (n : nat) (ws : list string) (s : string) : string :=
  match n with
  | O => s
  | S n' =>
      match drop_one ws s with
      | Some s' => lstrip_upto n' ws s'
      | None => s
      end
  end.

(** Removal of leading, trailing and surrounding white space, for a set of
    white-space characters given by their encodings.  Every removal takes
    at least one byte, so the length of the string bounds the rounds. *)
Definition lstrip (ws : list string) (s : string) : string :=
  lstrip_upto (String.length s) ws s.
Definition rstrip (ws : list string) (s : string) : string :=
  string_rev (lstrip (string_rev <$> ws) (string_rev s)).
Definition strip (ws : list string) (s : string) : string :=
  rstrip ws (lstrip ws s).

Definition N_range (lo hi : N) : list N :=
  (λ i, lo + N.of_nat i)%N <$> seq 0 (N.to_nat (hi + 1 - lo)).

(** Python: the code points for which [str.isspace] holds; [str.strip()]
    without argument removes them. *)
Definition py_space_points : list N :=
  (N_range 9 13 ++ N_range 28 32 ++ [133; 160; 5760] ++ N_range 8192 8202
     ++ [8232; 8233; 8239; 8287; 12288])%N.
Definition py_strip : string → string := strip (utf8 <$> py_space_points).

(** JavaScript: WhiteSpace and LineTerminator of ECMA-262, which
    [String.prototype.trim] removes and [parseInt] skips. *)
Definition js_space_points : list N :=
  (N_range 9 13 ++ [32; 160; 5760] ++ N_range 8192 8202
     ++ [8232; 8233; 8239; 8287; 12288; 65279])%N.
Definition js_trim : string → string := strip (utf8 <$> js_space_points).
Definition js_trimStart : string → string :=
  lstrip (utf8 <$> js_space_points).

(** Decimal text of an integer, as Python's [str] and JavaScript's
    template literals print integers. *)
Definition show_Z (z : Z) : string := NilZero.string_of_int (Z.to_int z).

End Text.

(** ** Python values, exceptions and the operations the nodes use *)

Module Py.
Import Text.

(** What [json.loads] / [json.load] produce.  A [dict] keeps its keys in
    order; the decoder leaves each key once. *)
Inductive json : Type :=
| JNull
| JBool (b : bool)
| JInt (z : Z)
| JFloat (q : Q)
| JStr (s : string)
| JArr (l : list json)
| JObj (kv : list (string * json)).

Inductive exn_class : Type :=
| IndexError | KeyError | AttributeError | TypeError | ValueError
| OverflowError | JSONDecodeError | ValidationError | OSError | APIError
| GraphRecursionError.

(** An exception: its class and [str(e)]. *)
Record exn : Type := Exn { exn_cls : exn_class; exn_str : string }.

Inductive result (A : Type) : Type :=
| Ok (a : A)
| Raise (e : exn).
Arguments Ok {A} a.
Arguments Raise {A} e.

#[global] Instance result_ret : MRet result := λ A a, Ok a.
#[global] Instance result_bind : MBind result := λ A B f r,
  match r with
  | Ok a => f a
  | Raise e => Raise e
  end.

Fixpoint mapM_result {A B} (f : A → result B) (l : list A) : result (list B) :=
  match l with
  | [] => Ok []
  | a :: l' => b ← f a; bs ← mapM_result f l'; Ok (b :: bs)
  end.

Definition type_name (v : json) : string :=
  match v with
  | JNull => "NoneType"
  | JBool _ => "bool"
  | JInt _ => "int"
  | JFloat _ => "float"
  | JStr _ => "str"
  | JArr _ => "list"
  | JObj _ => "dict"
  end.

Fixpoint assoc (k : string) (kv : list (string * json)) : option json :=
  match kv with
  | [] => None
  | (k', v) :: kv' => if String.eqb k k' then Some v else assoc k kv'
  end.

(** [d.get(k, dflt)] *)
Definition dict_get (d : json) (k : string) (dflt : json) : result json :=
  match d with
  | JObj kv => Ok (default dflt (assoc k kv))
  | _ => Raise (Exn AttributeError
                  ("'" +:+ type_name d +:+ "' object has no attribute 'get'"))
  end.

(** [d[k]] for a string [k] *)
Definition subscript (d : json) (k : string) : result json :=
  match d with
  | JObj kv =>
      match assoc k kv with
      | Some v => Ok v
      | None => Raise (Exn KeyError ("'" +:+ k +:+ "'"))
      end
  | JArr _ =>
      Raise (Exn TypeError "list indices must be integers or slices, not str")
  | JStr _ =>
      Raise (Exn TypeError "string indices must be integers, not 'str'")
  | _ => Raise (Exn TypeError
                  ("'" +:+ type_name d +:+ "' object is not subscriptable"))
  end.

Fixpoint chars (s : string) : list json :=
  match s with
  | EmptyString => []
  | String a s' => JStr (String a EmptyString) :: chars s'
  end.

(** [for x in v]: a list gives its items, a dict its keys, a string its
    characters (for text outside ASCII this model gives bytes; nothing
    below depends on them beyond their being strings). *)
Definition iterate (v : json) : result (list json) :=
  match v with
  | JArr l => Ok l
  | JObj kv => Ok ((λ p, JStr p.1) <$> kv)
  | JStr s => Ok (chars s)
  | _ => Raise (Exn TypeError
                  ("'" +:+ type_name v +:+ "' object is not iterable"))
  end.

(** The integers that [float(n)] accepts: those that round to a double,
    the largest of which is [2^1024 - 2^971]; from half a unit beyond it an
    [int] is too large. *)
Definition float_range : Z := 2 ^ 1024 - 2 ^ 970.

(** [f"{v:.2f}"]: only the failure matters, the text goes to the console.
    An [int] is converted to a [float] before it is printed. *)
Definition format_2f (v : json) : result unit :=
  match v with
  | JBool _ | JFloat _ => Ok tt
  | JInt z =>
      if Z.abs z <? float_range then Ok tt
      else Raise (Exn OverflowError "int too large to convert to float")
  | JStr _ =>
      Raise (Exn ValueError "Unknown format code 'f' for object of type 'str'")
  | _ => Raise (Exn TypeError
                  ("unsupported format string passed to " +:+ type_name v
                     +:+ ".__format__"))
  end.

(** Lookup in a [dict] with string keys of a key that is any value:
    containers cannot be hashed, everything but a string misses. *)
Definition strdict_get (m : gmap string string) (k : json) (dflt : string)
  : result string :=
  match k with
  | JStr s => Ok (default dflt (m !! s))
  | JArr _ | JObj _ =>
      Raise (Exn TypeError ("unhashable type: '" +:+ type_name k +:+ "'"))
  | _ => Ok dflt
  end.

End Py.

(** ** The analytics agent (backend/analytics, backend/api/routes) *)

Module Agent.
Import Text Py.

(** *** The world outside the repository *)

(** What [json.loads] makes of a text: a value, or [JSONDecodeError] with
    its message. *)
Inductive decode : Type :=
| NotJSON (msg : string)
| Decoded (v : json).

(** One call of [llm.invoke]: the reply's [content], or the exception of the
    client (timeout, refused connection, status other than 2xx). *)
Definition llm_reply : Type := result string.

Record World : Type := {
  llm_intent : llm_reply;      (* the call of intent_analyzer *)
  llm_edge : llm_reply;        (* the call of select_edge *)
  llm_chart : llm_reply;       (* the call of chart_type_selector *)
  llm_analytic : llm_reply;    (* the call of generate_analytic *)
  json_loads : string → decode;
  graph_file : result json;     (* data/reactflow_graph_route_stop.json *)
  transport_file : result json; (* data/승하차정보.json *)
  commute_file : result json    (* data/통근수당.json *)
}.

(** A decoder given by a finite table, for concrete runs. *)
Fixpoint loads_table (t : list (string * json)) (s : string) : decode :=
  match t with
  | [] => NotJSON "Expecting value: line 1 column 1 (char 0)"
  | (s', v) :: t' => if String.eqb s s' then Decoded v else loads_table t' s
  end.

(** *** Computations: exceptions and the log of calls of the hosted model *)

Record M (A : Type) : Type := MkM { runM : list string → result A * list string }.
Arguments MkM {A} runM.
Arguments runM {A} m log.

#[global] Instance M_ret : MRet M := λ A a, MkM (λ log, (Ok a, log)).
#[global] Instance M_bind : MBind M := λ A B f m,
  MkM (λ log,
    match runM m log with
    | (Ok a, log') => runM (f a) log'
    | (Raise e, log') => (Raise e, log')
    end).

Definition lift {A} (r : result A) : M A := MkM (λ log, (r, log)).

(** [llm.invoke(...)] from the node [site]. *)
Definition llm_invoke (site : string) (reply : llm_reply) : M string :=
  MkM (λ log, (reply, log ++ [site])).

Definition loads (w : World) (text : string) : result json :=
  match json_loads w text with
  | Decoded v => Ok v
  | NotJSON msg => Raise (Exn JSONDecodeError msg)
  end.

(** *** state_types.py *)

Inductive Role : Type := Human | AI | System.
Record Message : Type := { msg_id : nat; msg_role : Role; content : string }.

(** [AnalyticsState].  [None] is a key the dict does not have.
    [transport_data] and [commute_allowance_data] are held by the source as
    the text [json.dumps] prints; the model keeps the value printed. *)
Record AnalyticsState : Type := {
  messages : list Message;
  intent_type : option json;
  graph_data : option json;
  highlight_edge : option json;
  transport_data : option json;
  commute_allowance_data : option json;
  chart_type : option string;
  chart_data : option json;
  analysis_result : option json
}.

(** The dict a node returns has the same keys; this one has none. *)
Definition no_update : AnalyticsState :=
  {| messages := []; intent_type := None; graph_data := None;
     highlight_edge := None; transport_data := None;
     commute_allowance_data := None; chart_type := None;
     chart_data := None; analysis_result := None |}.

(** The reducer [add_messages] of LangGraph: a message whose id the list
    has replaces that one, any other is appended.  (LangGraph gives ids to
    messages that come without; the model numbers them.) *)
Fixpoint replace_message (m : Message) (l : list Message) : option (list Message) :=
  match l with
  | [] => None
  | m' :: l' =>
      if Nat.eqb (msg_id m') (msg_id m) then Some (m :: l')
      else cons m' <$> replace_message m l'
  end.
Definition add_messages (left right : list Message) : list Message :=
  foldl (λ acc m, default (acc ++ [m]) (replace_message m acc)) left right.

Definition or_else {A} (new old : option A) : option A :=
  match new with Some _ => new | None => old end.

(** How LangGraph writes the dict a node returns into the state. *)
Definition apply_update (st u : AnalyticsState) : AnalyticsState :=
  {| messages := add_messages (messages st) (messages u);
     intent_type := or_else (intent_type u) (intent_type st);
     graph_data := or_else (graph_data u) (graph_data st);
     highlight_edge := or_else (highlight_edge u) (highlight_edge st);
     transport_data := or_else (transport_data u) (transport_data st);
     commute_allowance_data :=
       or_else (commute_allowance_data u) (commute_allowance_data st);
     chart_type := or_else (chart_type u) (chart_type st);
     chart_data := or_else (chart_data u) (chart_data st);
     analysis_result := or_else (analysis_result u) (analysis_result st) |}.

(** [state["messages"][-1]] and [state["messages"][0]] *)
Definition last_message (st : AnalyticsState) : result Message :=
  match last (messages st) with
  | Some m => Ok m
  | None => Raise (Exn IndexError "list index out of range")
  end.
Definition first_message (st : AnalyticsState) : result Message :=
  match messages st with
  | m :: _ => Ok m
  | [] => Raise (Exn IndexError "list index out of range")
  end.

(** The reply of the model as a message of the conversation. *)
Definition response_message (st : AnalyticsState) (text : string) : Message :=
  {| msg_id := S (foldr (λ m n, Nat.max (msg_id m) n) O (messages st));
     msg_role := AI; content := text |}.

(** [try: body except Exception as e: handler(e)] *)
Definition try_except {A} (body : result A) (handler : exn → result A) : result A :=
  match body with
  | Ok a => Ok a
  | Raise e => handler e
  end.

(** *** nodes/router.py *)

Definition intent_analyzer (w : World) (st : AnalyticsState) : M AnalyticsState :=
  user_message ← lift (last_message st);
  response ← llm_invoke "intent_analyzer" (llm_intent w);
  intent ← lift
    match json_loads w (py_strip response) with
    | Decoded result =>
        intent ← dict_get result "intent" (JStr "fallback");
        confidence ← dict_get result "confidence" (JFloat 0);
        reason ← dict_get result "reason" (JStr EmptyString);
        _ ← format_2f confidence;
        Ok intent
    | NotJSON _ => Ok (JStr "fallback")
    end;
  mret {| messages := []; intent_type := Some intent; graph_data := None;
          highlight_edge := None; transport_data := None;
          commute_allowance_data := None; chart_type := None;
          chart_data := None; analysis_result := None |}.

Definition route_map : gmap string string :=
  <["find_highlight" := "get_graph_data"]>
    (<["analysis" := "get_bus_data"]>
       (<["fallback" := "fallback_response"]> ∅)).

Definition conditional_router (st : AnalyticsState) : result string :=
  let intent := default (JStr "fallback") (intent_type st) in
  next_node ← strdict_get route_map intent "fallback_response";
  Ok next_node.

(** *** nodes/find_highlight.py *)

Definition graph_node (node : json) : result json :=
  id ← subscript node "id";
  type ← subscript node "type";
  data ← dict_get node "data" (JObj []);
  label ← dict_get data "label" (JStr EmptyString);
  Ok (JObj [("id", id); ("type", type); ("label", label)]).

Definition graph_edge (edge : json) : result json :=
  id ← subscript edge "id";
  source ← subscript edge "source";
  target ← subscript edge "target";
  label ← dict_get edge "label" (JStr EmptyString);
  Ok (JObj [("id", id); ("source", source); ("target", target);
            ("label", label)]).

Definition with_graph_data (v : json) : AnalyticsState :=
  {| messages := []; intent_type := None; graph_data := Some v;
     highlight_edge := None; transport_data := None;
     commute_allowance_data := None; chart_type := None;
     chart_data := None; analysis_result := None |}.

Definition get_graph_data (w : World) (st : AnalyticsState) : M AnalyticsState :=
  lift (try_except
    (raw_data ← graph_file w;
     raw_nodes ← dict_get raw_data "nodes" (JArr []);
     raw_nodes ← iterate raw_nodes;
     nodes ← mapM_result graph_node raw_nodes;
     raw_edges ← dict_get raw_data "edges" (JArr []);
     raw_edges ← iterate raw_edges;
     edges ← mapM_result graph_edge raw_edges;
     let summary :=
       JObj [("total_nodes", JInt (Z.of_nat (length nodes)));
             ("total_edges", JInt (Z.of_nat (length edges)));
             ("description",
              JStr "버스 노선과 정류장 정보를 담은 ReactFlow 그래프")] in
     Ok (with_graph_data
           (JObj [("nodes", JArr nodes); ("edges", JArr edges);
                  ("summary", summary)])))
    (λ e, Ok (with_graph_data (JObj [("error", JStr (exn_str e))])))).

Definition select_edge (w : World) (st : AnalyticsState) : M AnalyticsState :=
  user_message ← lift (last_message st);
  let graph_data := default (JObj []) (graph_data st) in
  (* the edges go into the prompt, as json.dumps prints them *)
  edges ← lift (dict_get graph_data "edges" (JArr []));
  response ← llm_invoke "select_edge" (llm_edge w);
  result ← lift (loads w response);
  highlight ← lift (subscript result "highlight");
  reason ← lift (subscript result "reason");
  mret {| messages := [response_message st response]; intent_type := None;
          graph_data := None; highlight_edge := Some highlight;
          transport_data := None; commute_allowance_data := None;
          chart_type := None; chart_data := None;
          analysis_result := Some reason |}.

(** *** nodes/analysis.py *)

Definition with_bus_data (transport commute : json) : AnalyticsState :=
  {| messages := []; intent_type := None; graph_data := None;
     highlight_edge := None; transport_data := Some transport;
     commute_allowance_data := Some commute; chart_type := None;
     chart_data := None; analysis_result := None |}.

Definition get_bus_data (w : World) (st : AnalyticsState) : M AnalyticsState :=
  lift (try_except
    (transport_data ← transport_file w;
     commute_data ← commute_file w;
     Ok (with_bus_data transport_data commute_data))
    (λ e, Ok (with_bus_data (JArr []) (JArr [])))).

Definition chart_type_selector (w : World) (st : AnalyticsState) : M AnalyticsState :=
  user_message ← lift (last_message st);
  response ← llm_invoke "chart_type_selector" (llm_chart w);
  let chart_type := py_strip response in
  mret {| messages := messages st ++ [response_message st response];
          intent_type := None; graph_data := None; highlight_edge := None;
          transport_data := None; commute_allowance_data := None;
          chart_type := Some chart_type; chart_data := None;
          analysis_result := None |}.

(** The keys of [output_formats]; the values are prompt text. *)
Definition output_formats : list string :=
  ["line_chart"; "bar_chart"; "table"; "text_summary"].

(** [output_formats[chart_type]].  The text of the [KeyError] is the
    [repr] of the key: the key between single quotes, for a key without
    quotes, backslashes and unprintable characters. *)
Definition output_format (chart_type : string) : result string :=
  if bool_decide (chart_type ∈ output_formats) then Ok chart_type
  else Raise (Exn KeyError ("'" +:+ chart_type +:+ "'")).

Definition generate_analytic (w : World) (st : AnalyticsState) : M AnalyticsState :=
  user_message ← lift (first_message st);
  let chart_type := default "text_summary" (chart_type st) in
  let transport_data := default (JStr EmptyString) (transport_data st) in
  let commute_data := default (JStr EmptyString) (commute_allowance_data st) in
  format ← lift (output_format chart_type);
  response ← llm_invoke "generate_analytic" (llm_analytic w);
  result ← lift (loads w response);
  chart_data ← lift (subscript result "chart_data");
  reason ← lift (subscript result "reason");
  mret {| messages := messages st ++ [response_message st response];
          intent_type := None; graph_data := None; highlight_edge := None;
          transport_data := None; commute_allowance_data := None;
          chart_type := None; chart_data := Some chart_data;
          analysis_result := Some reason |}.

(** *** nodes/fallback.py *)

Definition fallback_message : string :=
  lf +:+ "죄송합니다. 질문을 이해하지 못했습니다." +:+ lf
     +:+ lf
     +:+ "다음과 같은 질문을 시도해보세요:" +:+ lf
     +:+ "- " +:+ dq +:+ "가장 포화가 많은 노선은?" +:+ dq
     +:+ " (Find/Highlight)" +:+ lf
     +:+ "- " +:+ dq +:+ "월별 운행 단가 추이를 보여줘" +:+ dq
     +:+ " (Analysis)" +:+ lf
     +:+ "- " +:+ dq +:+ "노선별 수익률 비교해줘" +:+ dq +:+ " (Analysis)" +:+ lf
     +:+ "    ".

Definition fallback_response (w : World) (st : AnalyticsState) : M AnalyticsState :=
  let response := response_message st (py_strip fallback_message) in
  mret {| messages := [response]; intent_type := None; graph_data := None;
          highlight_edge := None; transport_data := None;
          commute_allowance_data := None; chart_type := None;
          chart_data := None;
          analysis_result := Some (JStr (py_strip fallback_message)) |}.

(** *** graph/analytics_graph.py *)

Definition node_fn : Type := World → AnalyticsState → M AnalyticsState.

(** What the calls on a [StateGraph] record. *)
Record StateGraph : Type := {
  nodes : list (string * node_fn);
  entry_point : string;
  edges : list (string * string);
  branches : list (string * ((AnalyticsState → result string)
                              * list (string * string)))
}.

Definition END : string := "__end__".

Definition new_graph : StateGraph :=
  {| nodes := []; entry_point := EmptyString; edges := []; branches := [] |}.
Definition add_node (name : string) (f : node_fn) (g : StateGraph) : StateGraph :=
  {| nodes := nodes g ++ [(name, f)]; entry_point := entry_point g;
     edges := edges g; branches := branches g |}.
Definition set_entry_point (name : string) (g : StateGraph) : StateGraph :=
  {| nodes := nodes g; entry_point := name; edges := edges g;
     branches := branches g |}.
Definition add_edge (src dst : string) (g : StateGraph) : StateGraph :=
  {| nodes := nodes g; entry_point := entry_point g;
     edges := edges g ++ [(src, dst)]; branches := branches g |}.
Definition add_conditional_edges (src : string)
    (path : AnalyticsState → result string)
    (path_map : list (string * string)) (g : StateGraph) : StateGraph :=
  {| nodes := nodes g; entry_point := entry_point g; edges := edges g;
     branches := branches g ++ [(src, (path, path_map))] |}.

Definition build_analytics_graph : StateGraph :=
  let workflow := new_graph in
  let workflow := add_node "intent_analyzer" intent_analyzer workflow in
  let workflow := add_node "get_graph_data" get_graph_data workflow in
  let workflow := add_node "select_edge" select_edge workflow in
  let workflow := add_node "get_bus_data" get_bus_data workflow in
  let workflow := add_node "chart_type_selector" chart_type_selector workflow in
  let workflow := add_node "generate_analytic" generate_analytic workflow in
  let workflow := add_node "fallback_response" fallback_response workflow in
  let workflow := set_entry_point "intent_analyzer" workflow in
  let workflow :=
    add_conditional_edges "intent_analyzer" conditional_router
      [("get_graph_data", "get_graph_data");
       ("get_bus_data", "get_bus_data");
       ("fallback_response", "fallback_response")] workflow in
  let workflow := add_edge "get_graph_data" "select_edge" workflow in
  let workflow := add_edge "select_edge" END workflow in
  let workflow := add_edge "get_bus_data" "chart_type_selector" workflow in
  let workflow := add_edge "chart_type_selector" "generate_analytic" workflow in
  let workflow := add_edge "generate_analytic" END workflow in
  let workflow := add_edge "fallback_response" END workflow in
  workflow.

(** The module keeps one compiled graph and hands it out. *)
Definition get_analytics_graph : StateGraph := build_analytics_graph.

Fixpoint lookup_name {A} (k : string) (l : list (string * A)) : option A :=
  match l with
  | [] => None
  | (k', a) :: l' => if String.eqb k k' then Some a else lookup_name k l'
  end.

(** Where the graph goes after [node], in state [st]. *)
Definition next_of (g : StateGraph) (node : string) (st : AnalyticsState)
  : result string :=
  match lookup_name node (branches g) with
  | Some (path, path_map) =>
      r ← path st;
      match lookup_name r path_map with
      | Some dst => Ok dst
      | None => Raise (Exn KeyError ("'" +:+ r +:+ "'"))
      end
  | None => Ok (default END (lookup_name node (edges g)))
  end.

(** The run of the compiled graph.  Every node of this graph has one
    successor, so a step of the library runs one node; a run takes at most
    [steps] of them (the recursion limit of the library, 25 where the
    caller gives none, as [analyze] does). *)
Fixpoint run (g : StateGraph) (w : World) (steps : nat) (node : string)
    (st : AnalyticsState) : M AnalyticsState :=
  match steps with
  | O => lift (Raise (Exn GraphRecursionError "Recursion limit reached"))
  | S steps' =>
      match lookup_name node (nodes g) with
      | None => lift (Raise (Exn KeyError ("'" +:+ node +:+ "'")))
      | Some f =>
          update ← f w st;
          let st' := apply_update st update in
          next ← lift (next_of g node st');
          if String.eqb next END then mret st' else run g w steps' next st'
      end
  end.

Definition recursion_limit : nat := 25.

Definition invoke (g : StateGraph) (w : World) (input : AnalyticsState)
  : M AnalyticsState :=
  run g w recursion_limit (entry_point g) (apply_update no_update input).

End Agent.

(** ** The endpoint (backend/api/routes/analytics.py) *)

Module Api.
Import Text Py.

Record QuestionRequest : Type := { question : string }.

Record AnalyticsResponse : Type := {
  intent_type : string;
  highlight_edge : option (list (string * json));
  chart_data : option (list (string * json));
  analysis_result : option string;
  chart_type : option string
}.

(** The checks pydantic makes when the response is built: [str] takes a
    string, [Optional[...]] also [None], [Dict[str, Any]] a dict. *)
Definition invalid {A} : result A :=
  Raise (Exn ValidationError "validation error for AnalyticsResponse").
Definition as_str (v : json) : result string :=
  match v with JStr s => Ok s | _ => invalid end.
Definition as_optional_str (v : option json) : result (option string) :=
  match v with
  | None | Some JNull => Ok None
  | Some (JStr s) => Ok (Some s)
  | Some _ => invalid
  end.
Definition as_optional_dict (v : option json)
  : result (option (list (string * json))) :=
  match v with
  | None | Some JNull => Ok None
  | Some (JObj kv) => Ok (Some kv)
  | Some _ => invalid
  end.

(** What a call of [analyze] ends with. *)
Inductive outcome : Type :=
| Returns (response_data : AnalyticsResponse)
| HTTPException (status_code : Z) (detail : string).

Definition HumanMessage (text : string) : Agent.Message :=
  {| Agent.msg_id := O; Agent.msg_role := Agent.Human; Agent.content := text |}.

(** [AnalyticsResponse(intent_type=result.get("intent_type", "fallback"), ...)] *)
Definition respond (final : Agent.AnalyticsState) : result AnalyticsResponse :=
  intent_type ← as_str (default (JStr "fallback") (Agent.intent_type final));
  highlight_edge ← as_optional_dict (Agent.highlight_edge final);
  chart_data ← as_optional_dict (Agent.chart_data final);
  analysis_result ← as_optional_str (Agent.analysis_result final);
  Ok {| intent_type := intent_type; highlight_edge := highlight_edge;
        chart_data := chart_data; analysis_result := analysis_result;
        chart_type := Agent.chart_type final |}.

(** [analyze]: the outcome, and the calls of the hosted model it made. *)
Definition analyze (w : Agent.World) (request : QuestionRequest)
  : outcome * list string :=
  let body : Agent.M AnalyticsResponse :=
    let analytics_graph := Agent.get_analytics_graph in
    let initial_state :=
      {| Agent.messages := [HumanMessage (question request)];
         Agent.intent_type := None; Agent.graph_data := None;
         Agent.highlight_edge := None; Agent.transport_data := None;
         Agent.commute_allowance_data := None; Agent.chart_type := None;
         Agent.chart_data := None; Agent.analysis_result := None |} in
    final ← Agent.invoke analytics_graph w initial_state;
    Agent.lift (respond final) in
  match Agent.runM body [] with
  | (Ok response_data, log) => (Returns response_data, log)
  | (Raise e, log) => (HTTPException 500 (exn_str e), log)
  end.

End Api.

(** ** The route-visualization frontend (frontend/app/route-visualization) *)

Module Frontend.
Import Text.

(** A promise that settled: its value, or the message of the error. *)
Inductive settled (A : Type) : Type :=
| Resolved (a : A)
| Rejected (message : string).
Arguments Resolved {A} a.
Arguments Rejected {A} message.

(** The [Response] of [fetch], with what [response.json()] gives. *)
Record Response (A : Type) : Type := {
  ok : bool;
  status : Z;
  statusText : string;
  json : settled A
}.
Arguments ok {A} r.
Arguments status {A} r.
Arguments statusText {A} r.
Arguments json {A} r.

(** [a || b] on a string that may be undefined or null. *)
Definition or_string (a : option string) (b : string) : string :=
  match a with
  | Some (String c s) => String c s
  | Some EmptyString | None => b
  end.
Definition truthy (a : option string) : bool :=
  match a with
  | Some (String _ _) => true
  | Some EmptyString | None => false
  end.

(** *** Numbers

    A JavaScript number is a double.  The model follows the integers that
    doubles hold, add and subtract exactly, those of magnitude at most
    2^53: [Safe z] is the double equal to [z].  [Other] stands for every
    other double (a fraction, a larger number, an infinity, NaN), and for
    the result of arithmetic that leaves the range, which a double rounds:
    their value, order and text are the engine's, and the model does not
    follow them.  (Negative zero prints, adds and compares as zero.) *)
Inductive number : Type :=
| Safe (z : Z)
| Other.

Definition safe (z : Z) : bool := (- 2 ^ 53 <=? z) && (z <=? 2 ^ 53).
Definition number_of (z : Z) : number := if safe z then Safe z else Other.

(** The integer of a number the model follows. *)
Definition known (n : number) : option Z :=
  match n with
  | Safe z => if safe z then Some z else None
  | Other => None
  end.

(** [a + b] and [a - b] *)
Definition plus (a b : number) : number :=
  match known a, known b with
  | Some x, Some y => number_of (x + y)
  | _, _ => Other
  end.
Definition minus (a b : number) : number :=
  match known a, known b with
  | Some x, Some y => number_of (x - y)
  | _, _ => Other
  end.

(** [`${n}`]: an integer prints in decimal. *)
Definition number_text (n : number) : option string := show_Z <$> known n.

(** *** types/route.types.ts *)

Module StopNodeData.
Record t : Type := {
  label : string; route : string; stopName : string; action : string;
  count : number; departTime : string; busNo : string; category : string
}.
End StopNodeData.

Inductive NodeData : Type :=
| Stop (d : StopNodeData.t)
| Group (label : string).

Module RouteNode.
Record t : Type := {
  id : string;
  type : option string;
  data : NodeData;
  position : Q * Q;
  parentNode : option string
}.
End RouteNode.

Module RouteEdge.
Record t : Type := {
  id : string;
  source : string;
  target : string;
  label : option string;
  data : option (string * Z);
  type : option string;
  animated : option bool;
  markerEnd : option string
}.
End RouteEdge.

Module RouteGraphData.
Record t : Type := { nodes : list RouteNode.t; edges : list RouteEdge.t }.
End RouteGraphData.

(** [EnrichedEdge extends RouteEdge].  [edge] holds the fields spread from
    the input edge, of which [label] is overwritten: the label of an
    enriched edge is [label], its text where the model follows the number
    it prints, and [None] where it does not. *)
Module EnrichedEdge.
Record t : Type := {
  edge : RouteEdge.t;
  currentPassengers : number;
  label : option string
}.
End EnrichedEdge.

(** *** utils/dataTransform.ts *)

Definition loadRouteData (response : settled (Response RouteGraphData.t))
  : settled RouteGraphData.t :=
  match response with
  | Rejected message => Rejected message
  | Resolved response =>
      if negb (ok response)
      then Rejected ("Failed to fetch route data: " +:+ show_Z (status response))
      else json response
  end.

(** [s.split(sep)] for a separator that is not empty: [skip] counts the
    bytes of a separator still to pass, [cur] holds the piece being read,
    last byte first. *)
Fixpoint split_go (sep : string) (skip : nat) (cur : string) (s : string)
  : list string :=
  match s with
  | EmptyString => [string_rev cur]
  | String a s' =>
      match skip with
      | S k => split_go sep k cur s'
      | O =>
          match drop_prefix sep s with
          | Some _ =>
              string_rev cur
                :: split_go sep (String.length sep - 1) EmptyString s'
          | None => split_go sep O (String a cur) s'
          end
      end
  end.
Definition split (sep s : string) : list string := split_go sep O EmptyString s.

Definition digit_value (a : ascii) : option N :=
  let n := N_of_ascii a in
  (if (48 <=? n) && (n <=? 57) then Some (n - 48)
   else if (97 <=? n) && (n <=? 122) then Some (n - 87)
   else if (65 <=? n) && (n <=? 90) then Some (n - 55)
   else None)%N.

(** The value of the longest run of digits of [radix] at the head of [s],
    continuing [acc]; [None] when there is no digit. *)
Fixpoint digits (radix : N) (acc : option N) (s : string) : option N :=
  match s with
  | EmptyString => acc
  | String a s' =>
      match digit_value a with
      | Some d =>
          if (d <? radix)%N
          then digits radix (Some (radix * default 0 acc + d)%N) s'
          else acc
      | None => acc
      end
  end.

(** [parseInt(s)] without radix.  Without a digit it is NaN; an integer
    beyond 2^53 is rounded to a double, and from the twenty-first digit on
    read as the engine chooses: both are [Other]. *)
Definition parseInt (s : string) : number :=
  let s := js_trimStart s in
  let '(sign, s) :=
    match s with
    | String "-" r => (-1, r)
    | String "+" r => (1, r)
    | _ => (1, s)
    end in
  let '(radix, s) :=
    match s with
    | String "0" (String "x" r) | String "0" (String "X" r) => (16%N, r)
    | _ => (10%N, s)
    end in
  match digits radix None s with
  | Some n => number_of (sign * Z.of_N n)
  | None => Other
  end.

(** The number after [::] in the id of a stop. *)
Definition stop_number (n : RouteNode.t) : number :=
  parseInt (or_string (split "::" (RouteNode.id n) !! 1%nat) "0").

(** The comparator of the sort: [aNum - bNum]. *)
Definition compare_stops (a b : RouteNode.t) : number :=
  minus (stop_number a) (stop_number b).

(** [routeNodes.sort(compare)] is the engine's [Array.prototype.sort]: the
    array it leaves is an input of the model.  ECMA-262 has it keep the
    items, and, where the comparator orders them consistently, sort them
    by it and keep the order of those it holds equal (a stable sort; every
    stable sort gives the same array then, and [sort_by] is one, by
    insertion).  The comparator here is consistent where every stop has a
    number the model follows; where a number is NaN it is not, and the
    order is the engine's choice. *)
Definition Sort : Type := list RouteNode.t → list RouteNode.t.

Fixpoint insert_by {A} (cmp : A → A → Z) (x : A) (l : list A) : list A :=
  match l with
  | [] => [x]
  | y :: l' => if cmp x y <=? 0 then x :: l else y :: insert_by cmp x l'
  end.
Definition sort_by {A} (cmp : A → A → Z) (l : list A) : list A :=
  foldr (insert_by cmp) [] l.

Definition stop_key (n : RouteNode.t) : Z := default 0 (known (stop_number n)).
Definition key_order (a b : RouteNode.t) : Z := stop_key a - stop_key b.


(** [routeGroups]: a [Map], which keeps its keys in the order they came. *)
Fixpoint push_to (route : string) (node : RouteNode.t)
    (groups : list (string * list RouteNode.t))
  : list (string * list RouteNode.t) :=
  match groups with
  | [] => [(route, [node])]
  | (r, ns) :: rest =>
      if String.eqb r route then (r, ns ++ [node]) :: rest
      else (r, ns) :: push_to route node rest
  end.
Definition routeGroups (nodes : list RouteNode.t)
  : list (string * list RouteNode.t) :=
  foldl (λ groups node,
           if truthy (RouteNode.parentNode node)
           then push_to (default EmptyString (RouteNode.parentNode node))
                  node groups
           else groups) [] nodes.

(** Boarding adds to the passengers on board, alighting takes away. *)
Definition after_stop (currentPassengers : number) (node : RouteNode.t)
  : number :=
  match RouteNode.data node with
  | Stop nodeData =>
      if String.eqb (StopNodeData.action nodeData) "승차"
      then plus currentPassengers (StopNodeData.count nodeData)
      else if String.eqb (StopNodeData.action nodeData) "하차"
      then minus currentPassengers (StopNodeData.count nodeData)
      else currentPassengers
  | Group _ => currentPassengers
  end.

(** [{...edge, currentPassengers, label: `${currentPassengers}명`}] *)
Definition enrich (edge : RouteEdge.t) (currentPassengers : number)
  : EnrichedEdge.t :=
  {| EnrichedEdge.edge := edge;
     EnrichedEdge.currentPassengers := currentPassengers;
     EnrichedEdge.label :=
       (λ text, text +:+ "명") <$> number_text currentPassengers |}.

Definition connects (a b : RouteNode.t) (e : RouteEdge.t) : bool :=
  String.eqb (RouteEdge.source e) (RouteNode.id a)
  && String.eqb (RouteEdge.target e) (RouteNode.id b).

(** The body of [sortedNodes.forEach((node, index) => ...)], on the
    running count and the edges pushed so far. *)
Definition visit (edges : list RouteEdge.t) (sortedNodes : list RouteNode.t)
    (acc : number * list EnrichedEdge.t) (index : nat) (node : RouteNode.t)
  : number * list EnrichedEdge.t :=
  let '(currentPassengers, enrichedEdges) := acc in
  let currentPassengers := after_stop currentPassengers node in
  if (index <? length sortedNodes - 1)%nat
  then
    match sortedNodes !! (index + 1)%nat with
    | Some nextNode =>
        match find (connects node nextNode) edges with
        | Some edge =>
            (currentPassengers,
             enrichedEdges ++ [enrich edge currentPassengers])
        | None => (currentPassengers, enrichedEdges)
        end
    | None => (currentPassengers, enrichedEdges)
    end
  else (currentPassengers, enrichedEdges).

Fixpoint forEach_from {A St} (f : St → nat → A → St) (index : nat) (s : St)
    (l : list A) : St :=
  match l with
  | [] => s
  | a :: l' => forEach_from f (S index) (f s index a) l'
  end.

Definition calculateCurrentPassengers (sort : Sort) (nodes : list RouteNode.t)
    (edges : list RouteEdge.t) : list EnrichedEdge.t :=
  foldl (λ enrichedEdges group,
           let sortedNodes := sort group.2 in
           (forEach_from (visit edges sortedNodes) O (Safe 0, enrichedEdges)
              sortedNodes).2)
    [] (routeGroups nodes).

(** [validateNodeEdges]; the edge at fault goes to the console. *)
Fixpoint all_edges_known (nodeIds : gset string) (edges : list RouteEdge.t) : bool :=
  match edges with
  | [] => true
  | edge :: rest =>
      if negb (bool_decide (RouteEdge.source edge ∈ nodeIds))
         || negb (bool_decide (RouteEdge.target edge ∈ nodeIds))
      then false
      else all_edges_known nodeIds rest
  end.
Definition validateNodeEdges (data : RouteGraphData.t) : bool :=
  let nodeIds : gset string :=
    list_to_set (RouteNode.id <$> RouteGraphData.nodes data) in
  all_edges_known nodeIds (RouteGraphData.edges data).

(** *** utils/analytics-api.ts *)

(** The server behind [fetch]: for a question, the response and the calls
    of the hosted model made on the way. *)
Definition server : Type :=
  string → settled (Response Api.AnalyticsResponse) * list string.

Definition sendMessage (fetch : server) (question : string)
  : settled Api.AnalyticsResponse * list string :=
  match fetch question with
  | (Rejected message, calls) => (Rejected message, calls)
  | (Resolved response, calls) =>
      if negb (ok response)
      then (Rejected ("Analytics API error: " +:+ statusText response), calls)
      else (json response, calls)
  end.

(** The endpoint as FastAPI serves it: the model returned is the body of
    a 200, an [HTTPException] a response that is not ok. *)
Definition backend (w : Agent.World) : server := λ question,
  match Api.analyze w {| Api.question := question |} with
  | (Api.Returns response_data, calls) =>
      (Resolved {| ok := true; status := 200; statusText := "OK";
                   json := Resolved response_data |}, calls)
  | (Api.HTTPException status_code detail, calls) =>
      (Resolved {| ok := false; status := status_code;
                   statusText := "Internal Server Error";
                   json := Rejected detail |}, calls)
  end.

(** *** components/RightPanel.tsx *)

Module Message.
Record t : Type := {
  id : string;
  role : string;
  content : string;
  chart_type : option string;
  chart_data : option (list (string * Py.json));
  highlight_edge : option (list (string * Py.json));
  intent_type : option string;
  insights : option (list string)
}.
End Message.

(** The state of the panel: [messages], [input], [loading]. *)
Record Panel : Type := {
  messages : list Message.t;
  input : string;
  loading : bool
}.

(** What a call of [handleSend] did outside the panel: the questions it
    sent, the calls of the hosted model they caused, the edges it handed
    to [onHighlightEdge]. *)
Record Effects : Type := {
  sent : list string;
  model_calls : list string;
  highlighted : list (list (string * Py.json))
}.

Definition text_message (id role content : string) : Message.t :=
  {| Message.id := id; Message.role := role; Message.content := content;
     Message.chart_type := None; Message.chart_data := None;
     Message.highlight_edge := None; Message.intent_type := None;
     Message.insights := None |}.

(** [handleSend]; [onHighlightEdge] tells whether the callback was given,
    [now] and [later] are the readings of [Date.now()] at the send and at
    the answer. *)
Definition handleSend (fetch : server) (onHighlightEdge : bool)
    (now later : Z) (p : Panel) : Panel * Effects :=
  if negb (truthy (Some (js_trim (input p)))) || loading p
  then (p, {| sent := []; model_calls := []; highlighted := [] |})
  else
    let userMessage := text_message (show_Z now) "user" (input p) in
    let messages := messages p ++ [userMessage] in
    match sendMessage fetch (input p) with
    | (Resolved response, calls) =>
        let highlighted :=
          match Api.highlight_edge response with
          | Some edge =>
              if String.eqb (Api.intent_type response) "find_highlight"
                 && onHighlightEdge
              then [edge] else []
          | None => []
          end in
        let assistantMessage :=
          {| Message.id := show_Z (later + 1);
             Message.role := "assistant";
             Message.content :=
               or_string (Api.analysis_result response) "분석 완료";
             Message.chart_type :=
               if truthy (Api.chart_type response)
               then Api.chart_type response else None;
             Message.chart_data := Api.chart_data response;
             Message.highlight_edge := Api.highlight_edge response;
             Message.intent_type := Some (Api.intent_type response);
             Message.insights := None |} in
        ({| messages := messages ++ [assistantMessage];
            input := EmptyString; loading := false |},
         {| sent := [input p]; model_calls := calls;
            highlighted := highlighted |})
    | (Rejected _, calls) =>
        ({| messages :=
              messages
                ++ [text_message (show_Z later) "assistant"
                      "오류가 발생했습니다. 백엔드 서버가 실행 중인지 확인해주세요."];
            input := EmptyString; loading := false |},
         {| sent := [input p]; model_calls := calls; highlighted := [] |})
    end.

End Frontend.

(** ** What the specification says, and the inputs of the examples *)

Module Spec.
Import Text Py Agent.

(** The processor nodes the dispatcher may name. *)
Definition known_nodes : list string :=
  ["get_graph_data"; "get_bus_data"; "fallback_response"].

(** The values an intent label takes: [AnalyticsState] declares
    [Optional[Literal[...]]], a string or [None]; numbers and booleans
    behave like [None].  A list or a dict is no label (and cannot be
    hashed). *)
Definition is_label (v : json) : Prop :=
  match v with
  | JArr _ | JObj _ => False
  | _ => True
  end.

(** The node the mapping table gives for a label of the state. *)
Definition mapped_node (label : option json) : string :=
  match label with
  | Some (JStr s) =>
      if decide (s = "find_highlight") then "get_graph_data"
      else if decide (s = "analysis") then "get_bus_data"
      else "fallback_response"
  | _ => "fallback_response"
  end.

(** The labels the classifier is to choose from. *)
Definition intent_labels : list string :=
  ["find_highlight"; "analysis"; "fallback"].

(** A state that holds one question, as [analyze] starts the graph. *)
Definition asking (text : string) : AnalyticsState :=
  {| messages := [Api.HumanMessage text]; intent_type := None;
     graph_data := None; highlight_edge := None; transport_data := None;
     commute_allowance_data := None; chart_type := None;
     chart_data := None; analysis_result := None |}.

(** The dict [{"intent_type": v}]. *)
Definition with_intent (v : json) : AnalyticsState :=
  {| messages := []; intent_type := Some v; graph_data := None;
     highlight_edge := None; transport_data := None;
     commute_allowance_data := None; chart_type := None;
     chart_data := None; analysis_result := None |}.

(** A world in which nothing outside answers. *)
Definition unreachable : exn := Exn APIError "Connection error.".
Definition no_file : exn := Exn OSError "[Errno 2] No such file or directory".
Definition silent : World :=
  {| llm_intent := Raise unreachable; llm_edge := Raise unreachable;
     llm_chart := Raise unreachable; llm_analytic := Raise unreachable;
     json_loads := loads_table [];
     graph_file := Raise no_file; transport_file := Raise no_file;
     commute_file := Raise no_file |}.

(** The text of a JSON object with string values, and what the decoder
    makes of it. *)
Definition quoted (s : string) : string := dq +:+ s +:+ dq.
Fixpoint object_text_items (kv : list (string * string)) : string :=
  match kv with
  | [] => EmptyString
  | [(k, v)] => quoted k +:+ ": " +:+ quoted v
  | (k, v) :: kv' =>
      quoted k +:+ ": " +:+ quoted v +:+ ", " +:+ object_text_items kv'
  end.
Definition object_text (kv : list (string * string)) : string :=
  "{" +:+ object_text_items kv +:+ "}".
Definition object_items (kv : list (string * string)) : list (string * json) :=
  (λ p, (p.1, JStr p.2)) <$> kv.
Definition object_value (kv : list (string * string)) : json :=
  JObj (object_items kv).

(** *** The classifier, in the words of the specification *)

(** The [intent] field of a decoded reply. *)
Definition intent_field (v : json) : option json :=
  match v with
  | JObj kv => assoc "intent" kv
  | _ => None
  end.

(** The reply is not valid JSON, or its [intent] is no recognized label. *)
Definition unparseable (w : World) (text : string) : Prop :=
  match json_loads w (py_strip text) with
  | NotJSON _ => True
  | Decoded v => ∀ l, l ∈ intent_labels → intent_field v ≠ Some (JStr l)
  end.

(** "If the response is not valid JSON or [intent] is not a recognized
    label, the decision degrades to the label [fallback]." *)
Definition degrades_to_fallback (w : World) (st : AnalyticsState) : Prop :=
  ∀ text, llm_intent w = Ok text → unparseable w text →
    ∃ u log, runM (intent_analyzer w st) [] = (Ok u, log)
             ∧ intent_type u = Some (JStr "fallback").

(** The classifier answers in prose. *)
Definition prose_world : World :=
  {| llm_intent := Ok "안녕하세요! 무엇을 도와드릴까요?";
     llm_edge := Raise unreachable; llm_chart := Raise unreachable;
     llm_analytic := Raise unreachable; json_loads := loads_table [];
     graph_file := Raise no_file; transport_file := Raise no_file;
     commute_file := Raise no_file |}.

(** The classifier answers with an intent nobody listed. *)
Definition greeting_reply : list (string * string) :=
  [("intent", "greeting"); ("reason", "인사말")].
Definition greeting_world : World :=
  {| llm_intent := Ok (object_text greeting_reply);
     llm_edge := Raise unreachable; llm_chart := Raise unreachable;
     llm_analytic := Raise unreachable;
     json_loads :=
       loads_table [(object_text greeting_reply, object_value greeting_reply)];
     graph_file := Raise no_file; transport_file := Raise no_file;
     commute_file := Raise no_file |}.

(** *** The dispatcher, in the words of the specification *)

(** "[dispatch] returns a valid, known [PathId] - never null, undefined
    or throw." *)
Definition dispatch_total (st : AnalyticsState) : Prop :=
  ∃ node, conditional_router st = Ok node ∧ node ∈ known_nodes.

(** The same of every label that is read from the state in a run: the
    state is the one the classifier leaves behind. *)
Definition dispatches (w : World) (question : string) : Prop :=
  ∀ u log,
    runM (intent_analyzer w (asking question)) [] = (Ok u, log) →
    dispatch_total (apply_update (asking question) u).

(** The classifier answers with a list of intents. *)
Definition two_intents_text : string :=
  "{" +:+ quoted "intent" +:+ ": [" +:+ quoted "find_highlight" +:+ ", "
      +:+ quoted "analysis" +:+ "]}".
Definition two_intents_items : list (string * json) :=
  [("intent", JArr [JStr "find_highlight"; JStr "analysis"])].
Definition two_intents_world : World :=
  {| llm_intent := Ok two_intents_text;
     llm_edge := Raise unreachable; llm_chart := Raise unreachable;
     llm_analytic := Raise unreachable;
     json_loads := loads_table [(two_intents_text, JObj two_intents_items)];
     graph_file := Raise no_file; transport_file := Raise no_file;
     commute_file := Raise no_file |}.

(** The confidence the log line can print: none given, a boolean, a
    float, or an integer that a float can hold. *)
Definition printable_confidence (kv : list (string * json)) : Prop :=
  match assoc "confidence" kv with
  | None | Some (JBool _) | Some (JFloat _) => True
  | Some (JInt z) => Z.abs z < float_range
  | Some _ => False
  end.

(** *** The endpoint, in the words of the specification *)

(** "The system always returns some envelope rather than raise." *)
Definition always_an_envelope (w : World) (request : Api.QuestionRequest) : Prop :=
  ∃ env, (Api.analyze w request).1 = Api.Returns env.

(** The classifier call runs into its timeout. *)
Definition timeout_world : World :=
  {| llm_intent := Raise (Exn APIError "Request timed out.");
     llm_edge := Raise unreachable; llm_chart := Raise unreachable;
     llm_analytic := Raise unreachable; json_loads := loads_table [];
     graph_file := Raise no_file; transport_file := Raise no_file;
     commute_file := Raise no_file |}.

(** The envelope of the fallback path for the label [intent]. *)
Definition fallback_envelope (intent : string) : Api.AnalyticsResponse :=
  {| Api.intent_type := intent; Api.highlight_edge := None;
     Api.chart_data := None;
     Api.analysis_result := Some (py_strip fallback_message);
     Api.chart_type := None |}.

(** "Fields are mutually exclusive by [intent_type]." *)
Definition fields_by_intent (env : Api.AnalyticsResponse) : Prop :=
  (Api.intent_type env = "find_highlight" →
     is_Some (Api.highlight_edge env) ∧ is_Some (Api.analysis_result env)
     ∧ Api.chart_data env = None ∧ Api.chart_type env = None)
  ∧ (Api.intent_type env = "analysis" →
       is_Some (Api.chart_data env) ∧ is_Some (Api.chart_type env)
       ∧ is_Some (Api.analysis_result env) ∧ Api.highlight_edge env = None)
  ∧ (Api.intent_type env = "fallback" →
       is_Some (Api.analysis_result env) ∧ Api.highlight_edge env = None
       ∧ Api.chart_data env = None ∧ Api.chart_type env = None).
Definition envelope_by_intent (w : World) (request : Api.QuestionRequest) : Prop :=
  ∀ env, (Api.analyze w request).1 = Api.Returns env → fields_by_intent env.

(** A request for a summary: the classifier says [analysis], the selector
    [text_summary], and the generator answers in the format its prompt
    gives for that type, with [chart_data] null. *)
Definition summary_text : string :=
  "{" +:+ quoted "chart_data" +:+ ": null, " +:+ quoted "reason" +:+ ": "
      +:+ quoted "야간 수당은 노선마다 같습니다." +:+ "}".
Definition summary_value : json :=
  JObj [("chart_data", JNull);
        ("reason", JStr "야간 수당은 노선마다 같습니다.")].
Definition summary_world : World :=
  {| llm_intent := Ok (object_text [("intent", "analysis")]);
     llm_edge := Raise unreachable;
     llm_chart := Ok "text_summary";
     llm_analytic := Ok summary_text;
     json_loads :=
       loads_table [(object_text [("intent", "analysis")],
                     object_value [("intent", "analysis")]);
                    (summary_text, summary_value)];
     graph_file := Raise no_file;
     transport_file := Ok (JArr []); commute_file := Ok (JArr []) |}.

Definition summary_request : Api.QuestionRequest :=
  {| Api.question := "야간 수당 분석 결과 요약해줘" |}.
Definition summary_envelope : Api.AnalyticsResponse :=
  {| Api.intent_type := "analysis"; Api.highlight_edge := None;
     Api.chart_data := None;
     Api.analysis_result := Some "야간 수당은 노선마다 같습니다.";
     Api.chart_type := Some "text_summary" |}.

(** A request for an edge that the selector answers with no edge: the
    classifier says [find_highlight], and the reply of the selector has
    [null] for [highlight]. *)
Definition no_edge_text : string :=
  "{" +:+ quoted "highlight" +:+ ": null, " +:+ quoted "reason" +:+ ": "
      +:+ quoted "조건에 맞는 구간이 없습니다." +:+ "}".
Definition no_edge_value : json :=
  JObj [("highlight", JNull);
        ("reason", JStr "조건에 맞는 구간이 없습니다.")].
Definition no_edge_world : World :=
  {| llm_intent := Ok (object_text [("intent", "find_highlight")]);
     llm_edge := Ok no_edge_text;
     llm_chart := Raise unreachable; llm_analytic := Raise unreachable;
     json_loads :=
       loads_table [(object_text [("intent", "find_highlight")],
                     object_value [("intent", "find_highlight")]);
                    (no_edge_text, no_edge_value)];
     graph_file := Raise no_file;
     transport_file := Raise no_file; commute_file := Raise no_file |}.
Definition no_edge_request : Api.QuestionRequest :=
  {| Api.question := "승객이 천 명을 넘는 구간은?" |}.
Definition no_edge_envelope : Api.AnalyticsResponse :=
  {| Api.intent_type := "find_highlight"; Api.highlight_edge := None;
     Api.chart_data := None;
     Api.analysis_result := Some "조건에 맞는 구간이 없습니다.";
     Api.chart_type := None |}.

(** *** The path processors, in the words of the specification *)

(** The ids of the edges that [graph_data] holds. *)
Definition id_of (v : json) : option json :=
  match v with
  | JObj kv => assoc "id" kv
  | _ => None
  end.
Definition edge_ids (graph_data : json) : list json :=
  match graph_data with
  | JObj kv =>
      match assoc "edges" kv with
      | Some (JArr edges) => omap id_of edges
      | _ => []
      end
  | _ => []
  end.

(** "[resolveHighlight] never returns a highlight whose edge id is absent
    from the edges of the input dataset." *)
Definition highlight_exists (w : World) (st : AnalyticsState) : Prop :=
  ∀ u log h, runM (select_edge w st) [] = (Ok u, log) →
    highlight_edge u = Some h →
    ∃ id, id_of h = Some id
          ∧ id ∈ edge_ids (default (JObj []) (graph_data st)).

(** A graph of two stops and the edge between them, as [get_graph_data]
    leaves it in the state; and a model that names an edge the graph does
    not have. *)
Definition one_edge_graph : json :=
  JObj [("nodes",
         JArr [JObj [("id", JStr "출근1호::1"); ("type", JStr "stop");
                     ("label", JStr "한국대 동문")];
               JObj [("id", JStr "출근1호::2"); ("type", JStr "stop");
                     ("label", JStr "BYC 사거리")]]);
        ("edges",
         JArr [JObj [("id", JStr "e1"); ("source", JStr "출근1호::1");
                     ("target", JStr "출근1호::2"); ("label", JStr "1명")]]);
        ("summary",
         JObj [("total_nodes", JInt 2); ("total_edges", JInt 1);
               ("description",
                JStr "버스 노선과 정류장 정보를 담은 ReactFlow 그래프")])].
Definition one_edge_state : AnalyticsState :=
  {| messages := [Api.HumanMessage "가장 포화가 많은 노선은?"];
     intent_type := Some (JStr "find_highlight");
     graph_data := Some one_edge_graph; highlight_edge := None;
     transport_data := None; commute_allowance_data := None;
     chart_type := None; chart_data := None; analysis_result := None |}.
Definition phantom_edge : list (string * string) :=
  [("id", "e999"); ("source", "출근9호::1"); ("target", "출근9호::2");
   ("label", "99명")].
Definition phantom_text : string :=
  "{" +:+ quoted "highlight" +:+ ": " +:+ object_text phantom_edge +:+ ", "
      +:+ quoted "reason" +:+ ": " +:+ quoted "가장 붐비는 구간입니다." +:+ "}".
Definition phantom_value : list (string * json) :=
  [("highlight", object_value phantom_edge);
   ("reason", JStr "가장 붐비는 구간입니다.")].
Definition phantom_world : World :=
  {| llm_intent := Raise unreachable; llm_edge := Ok phantom_text;
     llm_chart := Raise unreachable; llm_analytic := Raise unreachable;
     json_loads := loads_table [(phantom_text, JObj phantom_value)];
     graph_file := Raise no_file; transport_file := Raise no_file;
     commute_file := Raise no_file |}.

(** The dict [select_edge] returns for a highlight and a reason. *)
Definition with_highlight (response : Message) (highlight reason : json)
  : AnalyticsState :=
  {| messages := [response]; intent_type := None; graph_data := None;
     highlight_edge := Some highlight; transport_data := None;
     commute_allowance_data := None; chart_type := None;
     chart_data := None; analysis_result := Some reason |}.




(** "[fallback] returns an [AnalysisResult] with [chartType = text] and a
    narrative." *)
Definition fallback_is_text (w : World) (st : AnalyticsState) : Prop :=
  ∃ u log, runM (fallback_response w st) [] = (Ok u, log)
           ∧ chart_type u = Some "text_summary"
           ∧ ∃ narrative, analysis_result u = Some (JStr narrative)
                          ∧ narrative ≠ EmptyString.

(** The dict [fallback_response] returns. *)
Definition with_apology (st : AnalyticsState) : AnalyticsState :=
  {| messages := [response_message st (py_strip fallback_message)];
     intent_type := None; graph_data := None; highlight_edge := None;
     transport_data := None; commute_allowance_data := None;
     chart_type := None; chart_data := None;
     analysis_result := Some (JStr (py_strip fallback_message)) |}.

(** *** The graph dataset, in the words of the specification *)

(** "Every edge's source and target must reference an existing node id." *)
Definition intact (data : Frontend.RouteGraphData.t) : Prop :=
  ∀ e, e ∈ Frontend.RouteGraphData.edges data →
    (∃ n, n ∈ Frontend.RouteGraphData.nodes data
          ∧ Frontend.RouteNode.id n = Frontend.RouteEdge.source e)
    ∧ (∃ n, n ∈ Frontend.RouteGraphData.nodes data
            ∧ Frontend.RouteNode.id n = Frontend.RouteEdge.target e).

(** The graph document of a dataset: nodes [{id, type, data: {label},
    position: {x, y}, parentNode?}], edges [{id, source, target, label?}]. *)
Definition node_label (n : Frontend.RouteNode.t) : string :=
  match Frontend.RouteNode.data n with
  | Frontend.Stop d => Frontend.StopNodeData.label d
  | Frontend.Group label => label
  end.
Definition optional_item (k : string) (v : option string) : list (string * json) :=
  match v with
  | Some s => [(k, JStr s)]
  | None => []
  end.
Definition node_json (n : Frontend.RouteNode.t) : json :=
  JObj ([("id", JStr (Frontend.RouteNode.id n))]
          ++ optional_item "type" (Frontend.RouteNode.type n)
          ++ [("data", JObj [("label", JStr (node_label n))]);
              ("position",
               JObj [("x", JFloat (Frontend.RouteNode.position n).1);
                     ("y", JFloat (Frontend.RouteNode.position n).2)])]
          ++ optional_item "parentNode" (Frontend.RouteNode.parentNode n)).
Definition edge_json (e : Frontend.RouteEdge.t) : json :=
  JObj ([("id", JStr (Frontend.RouteEdge.id e));
         ("source", JStr (Frontend.RouteEdge.source e));
         ("target", JStr (Frontend.RouteEdge.target e))]
          ++ optional_item "label" (Frontend.RouteEdge.label e)).
Definition document (data : Frontend.RouteGraphData.t) : json :=
  JObj [("nodes", JArr (node_json <$> Frontend.RouteGraphData.nodes data));
        ("edges", JArr (edge_json <$> Frontend.RouteGraphData.edges data))].

(** What [get_graph_data] keeps of a node and of an edge. *)
Definition node_summary (n : Frontend.RouteNode.t) : json :=
  JObj [("id", JStr (Frontend.RouteNode.id n));
        ("type", JStr (default EmptyString (Frontend.RouteNode.type n)));
        ("label", JStr (node_label n))].
Definition edge_summary (e : Frontend.RouteEdge.t) : json :=
  JObj [("id", JStr (Frontend.RouteEdge.id e));
        ("source", JStr (Frontend.RouteEdge.source e));
        ("target", JStr (Frontend.RouteEdge.target e));
        ("label", JStr (default EmptyString (Frontend.RouteEdge.label e)))].
Definition graph_summary (data : Frontend.RouteGraphData.t) : json :=
  JObj [("nodes", JArr (node_summary <$> Frontend.RouteGraphData.nodes data));
        ("edges", JArr (edge_summary <$> Frontend.RouteGraphData.edges data));
        ("summary",
         JObj [("total_nodes",
                JInt (Z.of_nat (length (Frontend.RouteGraphData.nodes data))));
               ("total_edges",
                JInt (Z.of_nat (length (Frontend.RouteGraphData.edges data))));
               ("description",
                JStr "버스 노선과 정류장 정보를 담은 ReactFlow 그래프")])].

(** The world whose graph file holds a dataset. *)
Definition world_of (data : Frontend.RouteGraphData.t) : World :=
  {| llm_intent := Raise unreachable; llm_edge := Raise unreachable;
     llm_chart := Raise unreachable; llm_analytic := Raise unreachable;
     json_loads := loads_table [];
     graph_file := Ok (document data); transport_file := Raise no_file;
     commute_file := Raise no_file |}.

(** "A dataset violating this must cause the fetch to fail with
    [DataIntegrityError]." *)
Definition rejects_dangling (data : Frontend.RouteGraphData.t) : Prop :=
  ¬ intact data →
  ∃ e log, runM (get_graph_data (world_of data) (asking "가장 포화가 많은 노선은?")) []
           = (Raise e, log).

(** One stop and an edge from it to a stop that is not there. *)
Definition stop (id route action : string) (count : Z) : Frontend.RouteNode.t :=
  {| Frontend.RouteNode.id := id;
     Frontend.RouteNode.type := Some "stop";
     Frontend.RouteNode.data :=
       Frontend.Stop
         {| Frontend.StopNodeData.label := id;
            Frontend.StopNodeData.route := route;
            Frontend.StopNodeData.stopName := id;
            Frontend.StopNodeData.action := action;
            Frontend.StopNodeData.count := Frontend.Safe count;
            Frontend.StopNodeData.departTime := "07:00";
            Frontend.StopNodeData.busNo := "경기12어1234";
            Frontend.StopNodeData.category := "업스테이지 출근" |};
     Frontend.RouteNode.position := (0%Q, 0%Q);
     Frontend.RouteNode.parentNode := Some route |}.
Definition link (id source target : string) : Frontend.RouteEdge.t :=
  {| Frontend.RouteEdge.id := id; Frontend.RouteEdge.source := source;
     Frontend.RouteEdge.target := target; Frontend.RouteEdge.label := None;
     Frontend.RouteEdge.data := None; Frontend.RouteEdge.type := None;
     Frontend.RouteEdge.animated := None;
     Frontend.RouteEdge.markerEnd := None |}.
Definition dangling_data : Frontend.RouteGraphData.t :=
  {| Frontend.RouteGraphData.nodes := [stop "출근1호::1" "출근1호" "승차" 1];
     Frontend.RouteGraphData.edges := [link "e1" "출근1호::1" "출근1호::2"] |}.

(** The same, and a node of which the document gives no type. *)
Definition untyped (id : string) : Frontend.RouteNode.t :=
  {| Frontend.RouteNode.id := id; Frontend.RouteNode.type := None;
     Frontend.RouteNode.data := Frontend.Group id;
     Frontend.RouteNode.position := (0%Q, 0%Q);
     Frontend.RouteNode.parentNode := None |}.
Definition untyped_data : Frontend.RouteGraphData.t :=
  {| Frontend.RouteGraphData.nodes :=
       [stop "출근1호::1" "출근1호" "승차" 1; untyped "출근1호::2"];
     Frontend.RouteGraphData.edges := [link "e1" "출근1호::1" "출근1호::2"] |}.

(** *** The empty request, in the words of the specification *)

(** "Empty input is rejected before any classifier call." *)
Definition rejects_empty (w : World) (request : Api.QuestionRequest) : Prop :=
  js_trim (Api.question request) = EmptyString →
  ∃ status_code detail,
    Api.analyze w request = (Api.HTTPException status_code detail, []).

(** A panel with nothing said yet and [text] typed in. *)
Definition typed (text : string) : Frontend.Panel :=
  {| Frontend.messages := []; Frontend.input := text;
     Frontend.loading := false |}.
Definition nothing_done : Frontend.Effects :=
  {| Frontend.sent := []; Frontend.model_calls := [];
     Frontend.highlighted := [] |}.

(** A log that only grows. *)
Definition extends (log log' : list string) : Prop := ∃ more, log' = log ++ more.

(** *** The passengers on board, in the words of the claim *)

(** The whole number a count stands for. *)
Definition heads (count : Frontend.number) : Z :=
  default 0 (Frontend.known count).

(** Who boards and who alights at a stop. *)
Definition boarding (n : Frontend.RouteNode.t) : Z :=
  match Frontend.RouteNode.data n with
  | Frontend.Stop d =>
      if String.eqb (Frontend.StopNodeData.action d) "승차"
      then heads (Frontend.StopNodeData.count d) else 0
  | Frontend.Group _ => 0
  end.
Definition alighting (n : Frontend.RouteNode.t) : Z :=
  match Frontend.RouteNode.data n with
  | Frontend.Stop d =>
      if String.eqb (Frontend.StopNodeData.action d) "하차"
      then heads (Frontend.StopNodeData.count d) else 0
  | Frontend.Group _ => 0
  end.

(** The sums of the boarding and of the alighting counts over stops, and
    the passengers on board after them: boarded less alighted. *)
Definition boarded (stops : list Frontend.RouteNode.t) : Z :=
  foldr (λ n acc, boarding n + acc) 0 stops.
Definition alighted (stops : list Frontend.RouteNode.t) : Z :=
  foldr (λ n acc, alighting n + acc) 0 stops.
Definition on_board (stops : list Frontend.RouteNode.t) : Z :=
  boarded stops - alighted stops.

(** The count the loop holds after it has passed [stops]. *)
Definition running (stops : list Frontend.RouteNode.t) : Frontend.number :=
  foldl Frontend.after_stop (Frontend.Safe 0) stops.

(** Head counts: where passengers board or alight the count is a whole
    number, and so few people move at the stops that no sum of them
    leaves the integers that a double adds exactly. *)
Definition whole (n : Frontend.RouteNode.t) : Prop :=
  match Frontend.RouteNode.data n with
  | Frontend.Stop d =>
      Frontend.StopNodeData.action d = "승차"
      ∨ Frontend.StopNodeData.action d = "하차" →
      is_Some (Frontend.known (Frontend.StopNodeData.count d))
  | Frontend.Group _ => True
  end.
Definition crowd (stops : list Frontend.RouteNode.t) : Z :=
  foldr (λ n acc, Z.abs (boarding n) + Z.abs (alighting n) + acc) 0 stops.
Definition head_counts (stops : list Frontend.RouteNode.t) : Prop :=
  Forall whole stops ∧ crowd stops ≤ 2 ^ 53.

(** The stops of a route group, in the order of the data. *)
Definition stops_of (route : string) (nodes : list Frontend.RouteNode.t)
  : list Frontend.RouteNode.t :=
  filter (λ n, Frontend.RouteNode.parentNode n = Some route) nodes.

(** [enriched] is an input edge from a stop of [sortedNodes] to the stop
    next after it.  Where the stops up to its source have head counts, it
    carries the passengers on board after its source as
    [currentPassengers], and its label is that number in decimal, which
    reads back as the number, followed by 명. *)
Definition rides (edges : list Frontend.RouteEdge.t)
    (sortedNodes : list Frontend.RouteNode.t)
    (enriched : Frontend.EnrichedEdge.t) : Prop :=
  ∃ index stop nextStop edge,
    sortedNodes !! index = Some stop
    ∧ sortedNodes !! S index = Some nextStop
    ∧ edge ∈ edges
    ∧ Frontend.RouteEdge.source edge = Frontend.RouteNode.id stop
    ∧ Frontend.RouteEdge.target edge = Frontend.RouteNode.id nextStop
    ∧ Frontend.EnrichedEdge.edge enriched = edge
    ∧ (head_counts (take (S index) sortedNodes) →
       ∃ text,
         Frontend.EnrichedEdge.currentPassengers enriched
         = Frontend.Safe (on_board (take (S index) sortedNodes))
         ∧ Frontend.EnrichedEdge.label enriched = Some (text +:+ "명")
         ∧ text = show_Z (on_board (take (S index) sortedNodes))
         ∧ Frontend.parseInt (text +:+ "명")
           = Frontend.Safe (on_board (take (S index) sortedNodes))).

(** Two routes: three stops of one, given out of order, and two of the
    other; and the edges between them. *)
Definition commute_nodes : list Frontend.RouteNode.t :=
  [stop "출근1호::2" "출근1호" "승차" 3;
   stop "출근1호::1" "출근1호" "승차" 5;
   stop "퇴근1호::1" "퇴근1호" "승차" 1;
   stop "출근1호::3" "출근1호" "하차" 8;
   stop "퇴근1호::2" "퇴근1호" "하차" 1].
Definition commute_edges : list Frontend.RouteEdge.t :=
  [link "e1" "출근1호::1" "출근1호::2";
   link "e2" "출근1호::2" "출근1호::3";
   link "e3" "퇴근1호::1" "퇴근1호::2"].

End Spec.

(** ** The route flow (ocel-demo/route-flow.tsx) *)

Module Flow.
Import Text Frontend.

(** The nodes and edges handed to React Flow. *)
Inductive FlowData : Type :=
| RouteName (routeName : string)
| StopData (data : NodeData).

Module Node.
Record t : Type := {
  id : string;
  type : string;
  data : FlowData;
  position : Q * Q
}.
End Node.

Module Style.
Record t : Type := {
  stroke : string;
  strokeWidth : Z;
  strokeDasharray : string;
  animation : string
}.
End Style.

Module Edge.
Record t : Type := {
  id : string;
  source : string;
  target : string;
  type : string;
  animated : bool;
  currentPassengers : number;
  isStartEdge : bool;
  style : option Style.t;
  className : option string
}.
End Edge.

(** [(node.data as any).label] *)
Definition label_of (node : RouteNode.t) : string :=
  match RouteNode.data node with
  | Stop d => StopNodeData.label d
  | Group label => label
  end.

Definition is_group (node : RouteNode.t) : bool :=
  bool_decide (RouteNode.type node = Some "group").

Definition stopNodes (routeData : RouteGraphData.t) : list RouteNode.t :=
  List.filter (λ node, negb (is_group node)) (RouteGraphData.nodes routeData).
Definition groupNodes (routeData : RouteGraphData.t) : list RouteNode.t :=
  List.filter is_group (RouteGraphData.nodes routeData).

(** [map.set(k, v)] on a [Map<string, string>]: a key the map has keeps its
    place and takes the value, a new key goes last. *)
Fixpoint map_set (k v : string) (m : list (string * string)) : list (string * string) :=
  match m with
  | [] => [(k, v)]
  | (k', v') :: m' =>
      if String.eqb k' k then (k, v) :: m' else (k', v') :: map_set k v m'
  end.

Definition routeNameMap (routeData : RouteGraphData.t) : list (string * string) :=
  foldl (λ m node, map_set (RouteNode.id node) (label_of node) m) []
    (groupNodes routeData).

Definition startNodes (routeData : RouteGraphData.t) : list Node.t :=
  (λ entry : string * string,
     {| Node.id := "start-" +:+ entry.1; Node.type := "routeStart";
        Node.data := RouteName entry.2; Node.position := (0%Q, 0%Q) |})
    <$> routeNameMap routeData.
Definition endNodes (routeData : RouteGraphData.t) : list Node.t :=
  (λ entry : string * string,
     {| Node.id := "end-" +:+ entry.1; Node.type := "routeEnd";
        Node.data := RouteName entry.2; Node.position := (0%Q, 0%Q) |})
    <$> routeNameMap routeData.

Definition stopNodesTransformed (routeData : RouteGraphData.t) : list Node.t :=
  (λ node, {| Node.id := RouteNode.id node; Node.type := "routeStop";
              Node.data := StopData (RouteNode.data node);
              Node.position := (0%Q, 0%Q) |}) <$> stopNodes routeData.

Definition initialNodes (routeData : RouteGraphData.t) : list Node.t :=
  startNodes routeData ++ stopNodesTransformed routeData ++ endNodes routeData.

(** [node.parentNode === routeId] *)
Definition on_route (routeId : string) (node : RouteNode.t) : bool :=
  bool_decide (RouteNode.parentNode node = Some routeId).

(** The edge between a terminal and a stop; both kinds are built with
    [currentPassengers: 0] and [isStartEdge: true]. *)
Definition terminal_edge (id source target : string) : Edge.t :=
  {| Edge.id := id; Edge.source := source; Edge.target := target;
     Edge.type := "routeEdge"; Edge.animated := false;
     Edge.currentPassengers := Safe 0; Edge.isStartEdge := true;
     Edge.style := None; Edge.className := None |}.

(** [.map(routeId => ...).filter(Boolean)]: a route without stops gives no
    edge. *)
Definition startEdges (routeData : RouteGraphData.t) : list Edge.t :=
  omap (λ entry : string * string,
          let routeId := entry.1 in
          firstStop ← find (on_route routeId) (stopNodes routeData);
          Some (terminal_edge ("edge-start-" +:+ routeId)
                  ("start-" +:+ routeId) (RouteNode.id firstStop)))
    (routeNameMap routeData).

Definition stopEdges (enrichedEdges : list EnrichedEdge.t) : list Edge.t :=
  (λ edge,
     {| Edge.id := RouteEdge.id (EnrichedEdge.edge edge);
        Edge.source := RouteEdge.source (EnrichedEdge.edge edge);
        Edge.target := RouteEdge.target (EnrichedEdge.edge edge);
        Edge.type := "routeEdge"; Edge.animated := true;
        Edge.currentPassengers := EnrichedEdge.currentPassengers edge;
        Edge.isStartEdge := false;
        Edge.style := None; Edge.className := None |}) <$> enrichedEdges.

Definition endEdges (sort : Sort) (routeData : RouteGraphData.t) : list Edge.t :=
  omap (λ entry : string * string,
          let routeId := entry.1 in
          let routeStops := List.filter (on_route routeId) (stopNodes routeData) in
          if (length routeStops =? 0)%nat then None
          else
            let sortedStops := sort routeStops in
            lastStop ← last sortedStops;
            Some (terminal_edge ("edge-end-" +:+ routeId)
                    (RouteNode.id lastStop) ("end-" +:+ routeId)))
    (routeNameMap routeData).

Definition initialEdges (sort : Sort) (routeData : RouteGraphData.t)
    (enrichedEdges : list EnrichedEdge.t) : list Edge.t :=
  startEdges routeData ++ stopEdges enrichedEdges ++ endEdges sort routeData.

(** *** The highlight of an edge *)

(** Whether JavaScript takes a value of the response for true. *)
Definition js_truthy (v : Py.json) : bool :=
  match v with
  | Py.JNull => false
  | Py.JBool b => b
  | Py.JInt z => negb (z =? 0)
  | Py.JFloat q => negb (Qeq_bool q 0)
  | Py.JStr s => truthy (Some s)
  | Py.JArr _ | Py.JObj _ => true
  end.

(** [edge.id === highlightedEdge.id] *)
Definition is_hit (id : Py.json) (edge : Edge.t) : bool :=
  match id with
  | Py.JStr s => String.eqb (Edge.id edge) s
  | _ => false
  end.

Definition highlight_style : Style.t :=
  {| Style.stroke := "#22c55e"; Style.strokeWidth := 4;
     Style.strokeDasharray := "5,5";
     Style.animation := "dashdraw 0.5s linear infinite" |}.

(** The update of the edges in the effect on [highlightedEdge]: nothing
    without an edge or without an id; else every edge is rebuilt. *)
Definition highlight (highlightedEdge : option (list (string * Py.json)))
    (eds : list Edge.t) : list Edge.t :=
  match highlightedEdge with
  | None => eds
  | Some h =>
      match Py.assoc "id" h with
      | None => eds
      | Some id =>
          if negb (js_truthy id) then eds
          else
            (λ edge,
               {| Edge.id := Edge.id edge; Edge.source := Edge.source edge;
                  Edge.target := Edge.target edge; Edge.type := Edge.type edge;
                  Edge.animated :=
                    if is_hit id edge then true else Edge.animated edge;
                  Edge.currentPassengers := Edge.currentPassengers edge;
                  Edge.isStartEdge := Edge.isStartEdge edge;
                  Edge.style :=
                    if is_hit id edge then Some highlight_style
                    else Edge.style edge;
                  Edge.className :=
                    if is_hit id edge then Some "highlighted-edge" else None |})
              <$> eds
      end
  end.

End Flow.

(** ** The messages on screen (components/RightPanel.tsx,
    components/AnalyticsOutputRenderer.tsx) *)

Module Screen.
Import Text Frontend.

Inductive Renderer : Type :=
| TextWithLineChartRenderer
| TextWithBarChartRenderer
| TextWithTableRenderer
| DetailTextRenderer.

(** The [switch] of [AnalyticsOutputRenderer]. *)
Definition AnalyticsOutputRenderer (chartType : string) : Renderer :=
  if String.eqb chartType "line_chart" then TextWithLineChartRenderer
  else if String.eqb chartType "bar_chart" then TextWithBarChartRenderer
  else if String.eqb chartType "table" then TextWithTableRenderer
  else DetailTextRenderer.

(** The pieces a message is drawn with. *)
Inductive Block : Type :=
| UserBubble
| HighlightBox
| Chart (renderer : Renderer)
| PlainText.

Definition when (condition : bool) (block : Block) : list Block :=
  if condition then [block] else [].

(** The body of [messages.map((msg) => ...)]: each block stands behind its
    own condition. *)
Definition blocks (msg : Message.t) : list Block :=
  when (String.eqb (Message.role msg) "user") UserBubble
  ++ (if String.eqb (Message.role msg) "assistant"
      then
        when (bool_decide (Message.intent_type msg = Some "find_highlight")
              && bool_decide (is_Some (Message.highlight_edge msg)))
          HighlightBox
        ++ when (bool_decide (Message.intent_type msg = Some "analysis")
                 && truthy (Message.chart_type msg))
             (Chart (AnalyticsOutputRenderer
                       (default EmptyString (Message.chart_type msg))))
        ++ when (negb (truthy (Message.chart_type msg))
                 && negb (bool_decide (is_Some (Message.highlight_edge msg))))
             PlainText
      else []).

(** [handleKeyDown]: Enter sends, unless an answer is awaited. *)
Definition handleKeyDown (fetch : server) (onHighlightEdge : bool)
    (now later : Z) (key : string) (p : Panel) : Panel * Effects :=
  if String.eqb key "Enter" && negb (loading p)
  then handleSend fetch onHighlightEdge now later p
  else (p, {| sent := []; model_calls := []; highlighted := [] |}).

End Screen.

(** ** Further cases: values, envelopes and worlds *)

Module Facts.
Import Text Py Agent Spec.

Definition items (raw : json) (key : string) : result (list json) :=
  v ← dict_get raw key (JArr []); iterate v.
Definition summary_of (nodes edges : list json) : json :=
  JObj [("nodes", JArr nodes); ("edges", JArr edges);
        ("summary",
         JObj [("total_nodes", JInt (Z.of_nat (length nodes)));
               ("total_edges", JInt (Z.of_nat (length edges)));
               ("description",
                JStr "버스 노선과 정류장 정보를 담은 ReactFlow 그래프")])].
Definition error_record (e : exn) : json := JObj [("error", JStr (exn_str e))].

(** Every item of [l] converts, to the items of [bs]; and: the items of
    [l] convert up to one, the first that fails, which raises [e]. *)
Definition converts {A B} (f : A → result B) (l : list A) (bs : list B) : Prop :=
  Forall2 (λ a b, f a = Ok b) l bs.
Definition first_failure {A B} (f : A → result B) (l : list A) (e : exn) : Prop :=
  ∃ before a after bs,
    l = before ++ a :: after ∧ converts f before bs ∧ f a = Raise e.

(** The run of the graph written out: the classifier, the dispatcher and
    the nodes of the path it names, one after the other, with no count of
    steps. *)
Definition path_of (w : World) (next : string) (st : AnalyticsState)
  : M AnalyticsState :=
  if decide (next = "get_graph_data") then
    u ← get_graph_data w st;
    let st := apply_update st u in
    u ← select_edge w st;
    mret (apply_update st u)
  else if decide (next = "get_bus_data") then
    u ← get_bus_data w st;
    let st := apply_update st u in
    u ← chart_type_selector w st;
    let st := apply_update st u in
    u ← generate_analytic w st;
    mret (apply_update st u)
  else
    u ← fallback_response w st;
    mret (apply_update st u).
Definition walk (w : World) (st : AnalyticsState) : M AnalyticsState :=
  u ← intent_analyzer w st;
  let st := apply_update st u in
  next ← lift (conditional_router st);
  path_of w next st.
Definition not_an_object (v : json) : Prop :=
  match v with JObj _ => False | _ => True end.

Definition highlight_envelope (h : list (string * json)) (r : string)
  : Api.AnalyticsResponse :=
  {| Api.intent_type := "find_highlight"; Api.highlight_edge := Some h;
     Api.chart_data := None; Api.analysis_result := Some r;
     Api.chart_type := None |}.
Definition analysis_envelope (t : string) (d : option (list (string * json)))
    (r : string) : Api.AnalyticsResponse :=
  {| Api.intent_type := "analysis"; Api.highlight_edge := None;
     Api.chart_data := d; Api.analysis_result := Some r;
     Api.chart_type := Some t |}.
(** The classifier answers with a JSON object that names [intent]. *)
Definition names_intent (w : World) (intent : json) : Prop :=
  ∃ text kv, llm_intent w = Ok text
             ∧ json_loads w (py_strip text) = Decoded (JObj kv)
             ∧ assoc "intent" kv = Some intent.

(** The same, with a confidence that the log line can print. *)
Definition classified (w : World) (intent : json) : Prop :=
  ∃ text kv, llm_intent w = Ok text
             ∧ json_loads w (py_strip text) = Decoded (JObj kv)
             ∧ printable_confidence kv
             ∧ assoc "intent" kv = Some intent.

(** Worlds in which one call site is answered with [text], which decodes
    to [v]; nothing else answers. *)
Definition classifier_world (text : string) (v : json) : World :=
  {| llm_intent := Ok text; llm_edge := Raise unreachable;
     llm_chart := Raise unreachable; llm_analytic := Raise unreachable;
     json_loads := loads_table [(text, v)];
     graph_file := Raise no_file; transport_file := Raise no_file;
     commute_file := Raise no_file |}.
Definition selector_world (text : string) (v : json) : World :=
  {| llm_intent := Raise unreachable; llm_edge := Ok text;
     llm_chart := Raise unreachable; llm_analytic := Raise unreachable;
     json_loads := loads_table [(text, v)];
     graph_file := Raise no_file; transport_file := Raise no_file;
     commute_file := Raise no_file |}.

(** A classifier sure of itself in words, and one that names no intent. *)
Definition worded_text : string :=
  "{" +:+ quoted "intent" +:+ ": " +:+ quoted "analysis" +:+ ", "
      +:+ quoted "confidence" +:+ ": " +:+ quoted "high" +:+ "}".
Definition worded_items : list (string * json) :=
  [("intent", JStr "analysis"); ("confidence", JStr "high")].
Definition null_intent_text : string :=
  "{" +:+ quoted "intent" +:+ ": null}".
Definition null_intent_items : list (string * json) := [("intent", JNull)].

(** A selector that gives a reason and no edge. *)
Definition reason_only_text : string :=
  "{" +:+ quoted "reason" +:+ ": " +:+ quoted "가장 붐비는 구간입니다." +:+ "}".
Definition reason_only_items : list (string * json) :=
  [("reason", JStr "가장 붐비는 구간입니다.")].

(** The question for an edge, answered all the way, while the graph file
    is missing. *)
Definition highlight_world : World :=
  {| llm_intent := Ok (object_text [("intent", "find_highlight")]);
     llm_edge := Ok phantom_text;
     llm_chart := Raise unreachable; llm_analytic := Raise unreachable;
     json_loads :=
       loads_table [(object_text [("intent", "find_highlight")],
                     object_value [("intent", "find_highlight")]);
                    (phantom_text, JObj phantom_value)];
     graph_file := Raise no_file; transport_file := Raise no_file;
     commute_file := Raise no_file |}.

End Facts.

(** ** The panel after a send *)

Module PanelFacts.
Import Text Frontend.

(** The message of the user and the message shown when the request
    failed. *)
Definition user_message (now : Z) (p : Panel) : Message.t :=
  text_message (show_Z now) "user" (input p).
Definition failure_message (later : Z) : Message.t :=
  text_message (show_Z later) "assistant"
    "오류가 발생했습니다. 백엔드 서버가 실행 중인지 확인해주세요.".

(** The input can be sent: it is not blank and no answer is awaited. *)
Definition ready (p : Panel) : Prop :=
  js_trim (input p) ≠ EmptyString ∧ loading p = false.

(** The message built from an envelope that arrived. *)
Definition answer_message (later : Z) (response : Api.AnalyticsResponse)
  : Message.t :=
  {| Message.id := show_Z (later + 1);
     Message.role := "assistant";
     Message.content := or_string (Api.analysis_result response) "분석 완료";
     Message.chart_type :=
       if truthy (Api.chart_type response) then Api.chart_type response
       else None;
     Message.chart_data := Api.chart_data response;
     Message.highlight_edge := Api.highlight_edge response;
     Message.intent_type := Some (Api.intent_type response);
     Message.insights := None |}.

(** The panel after a round trip that added [answer]. *)
Definition answered (now : Z) (p : Panel) (answer : Message.t) : Panel :=
  {| messages := messages p ++ [user_message now p; answer];
     input := EmptyString; loading := false |}.

End PanelFacts.

(** ** The data of the route flow *)

Module FlowFacts.
Import Text Frontend Flow.

(** The nodes of the data that stand for a route. *)
Definition group_ids (routeData : RouteGraphData.t) : list string :=
  RouteNode.id <$> groupNodes routeData.

(** No stop of the data is itself a route group. *)
Definition stops_are_no_groups (nodes : list RouteNode.t) : Prop :=
  ∀ n, n ∈ nodes → truthy (RouteNode.parentNode n) = true → is_group n = false.

(** The ids of the nodes handed to React Flow. *)
Definition node_ids (routeData : RouteGraphData.t) : list string :=
  Node.id <$> initialNodes routeData.

(** A route group of the data. *)
Definition route_group (id label : string) : RouteNode.t :=
  {| RouteNode.id := id; RouteNode.type := Some "group";
     RouteNode.data := Group label; RouteNode.position := (0%Q, 0%Q);
     RouteNode.parentNode := None |}.

Definition commute_data : RouteGraphData.t :=
  {| RouteGraphData.nodes :=
       route_group "출근1호" "출근 1호차" :: route_group "퇴근1호" "퇴근 1호차"
         :: Spec.commute_nodes;
     RouteGraphData.edges := Spec.commute_edges |}.

End FlowFacts.

(** ** The ids of the stops *)

Module StopIds.
Import Text Frontend.

(** The id of the stop [number] of [route], as the data writes it. *)
Definition stop_id (route : string) (number : Z) : string :=
  route +:+ "::" +:+ show_Z number.

(** No colon in a string; only decimal digits in a string. *)
Fixpoint colon_free (s : string) : bool :=
  match s with
  | EmptyString => true
  | String a s' => negb (Ascii.eqb a ":") && colon_free s'
  end.
Definition is_digit (a : ascii) : bool :=
  let n := N_of_ascii a in ((48 <=? n) && (n <=? 57))%N.
Fixpoint all_digits (s : string) : bool :=
  match s with
  | EmptyString => true
  | String a s' => is_digit a && all_digits s'
  end.

(** A text at whose head no number goes on: it is empty, or its first
    byte is neither a digit nor a letter. *)
Definition ends_number (t : string) : Prop :=
  match t with
  | EmptyString => True
  | String c _ => digit_value c = None
  end.

(** A stop with an id of that form. *)
Definition numbered_stop (node : RouteNode.t) (number : Z) : Prop :=
  ∃ route, colon_free route = true
           ∧ RouteNode.id node = stop_id route number.

End StopIds.

(** ** The path dispatcher *)

Section Dispatcher.
Import Text Py Agent Spec.

Lemma route_map_lookup (s : string) :
  route_map !! s =
    if decide (s = "find_highlight") then Some "get_graph_data"
    else if decide (s = "analysis") then Some "get_bus_data"
    else if decide (s = "fallback") then Some "fallback_response"
    else None.
Proof.
  unfold route_map.
  repeat (rewrite lookup_insert; case_decide; subst;
          [ repeat case_decide; try done | ]).
  rewrite lookup_empty. repeat case_decide; congruence.
Qed.

Lemma mapped_node_known (label : option json) : mapped_node label ∈ known_nodes.
Proof.
  unfold mapped_node, known_nodes.
  destruct label as [[]|]; repeat case_decide;
    rewrite !elem_of_cons; tauto.
Qed.

Lemma conditional_router_label (st : AnalyticsState) :
  (∀ v, intent_type st = Some v → is_label v) →
  conditional_router st = Ok (mapped_node (intent_type st)).
Proof.
  intros Hlabel. unfold conditional_router.
  destruct (intent_type st) as [v|] eqn:Hv; cbn.
  - specialize (Hlabel v eq_refl).
    destruct v; cbn in *; try done.
    rewrite route_map_lookup.
    repeat case_decide; subst; cbn; done.
  - rewrite route_map_lookup. by repeat case_decide.
Qed.

(** C1, as the code has it.  For every label of the declared domain read
    from the state (any string, [None], or no label at all; numbers and
    booleans too) [conditional_router] returns, without raising, one of
    the three processor nodes: the one the mapping table gives for
    [find_highlight] and [analysis], and [fallback_response] for every
    other label, the label [fallback] included.  For a list or a dict,
    which the classifier stores as it stores any [intent] of the reply,
    the lookup raises [TypeError]. *)
Theorem conditional_router_total (st : AnalyticsState) :
  ((∀ v, intent_type st = Some v → is_label v) →
   ∃ node, conditional_router st = Ok node
           ∧ node ∈ known_nodes
           ∧ (intent_type st = Some (JStr "find_highlight") →
              node = "get_graph_data")
           ∧ (intent_type st = Some (JStr "analysis") → node = "get_bus_data")
           ∧ (intent_type st ≠ Some (JStr "find_highlight") →
              intent_type st ≠ Some (JStr "analysis") →
              node = "fallback_response"))
  ∧ (∀ v, intent_type st = Some v → ¬ is_label v →
       conditional_router st
       = Raise (Exn TypeError ("unhashable type: '" +:+ type_name v +:+ "'"))).
Proof.
  split.
  - intros Hlabel. exists (mapped_node (intent_type st)).
    split; [by apply conditional_router_label|].
    split; [apply mapped_node_known|].
    unfold mapped_node.
    destruct (intent_type st) as [[]|]; repeat case_decide; subst;
      repeat split; intros; congruence.
  - intros v Hv Hnot. unfold conditional_router. rewrite Hv.
    destruct v; cbn in *; try (exfalso; by apply Hnot); reflexivity.
Qed.

(** C1, witness: a label nobody listed goes to the fallback node; a list
    of labels raises. *)
Lemma conditional_router_total_witness :
  (∃ node, conditional_router (with_intent (JStr "weather")) = Ok node
           ∧ node ∈ known_nodes
           ∧ (intent_type (with_intent (JStr "weather"))
              = Some (JStr "find_highlight") → node = "get_graph_data")
           ∧ (intent_type (with_intent (JStr "weather"))
              = Some (JStr "analysis") → node = "get_bus_data")
           ∧ (intent_type (with_intent (JStr "weather"))
              ≠ Some (JStr "find_highlight") →
              intent_type (with_intent (JStr "weather"))
              ≠ Some (JStr "analysis") →
              node = "fallback_response"))
  ∧ conditional_router
      (with_intent (JArr [JStr "find_highlight"; JStr "analysis"]))
    = Raise (Exn TypeError "unhashable type: 'list'").
Proof.
  split.
  - apply (proj1 (conditional_router_total (with_intent (JStr "weather")))).
    intros v Hv. injection Hv as <-. exact I.
  - apply (proj2 (conditional_router_total
                    (with_intent (JArr [JStr "find_highlight"; JStr "analysis"])))
             (JArr [JStr "find_highlight"; JStr "analysis"]));
      [reflexivity|]. intros Hlabel. exact Hlabel.
Defined.

(** C1, counterexample: the classifier answers with a list of intents;
    the state it leaves makes the dispatcher raise. *)
Lemma conditional_router_raises_on_list :
  ¬ dispatches two_intents_world "가장 포화가 많은 노선과 그 추이는?".
Proof.
  intros Hclaim.
  destruct (Hclaim (with_intent (JArr [JStr "find_highlight"; JStr "analysis"]))
              ["intent_analyzer"]) as (node & Hnode & _).
  - vm_compute. reflexivity.
  - vm_compute in Hnode. discriminate Hnode.
Qed.

End Dispatcher.

(** ** The intent classifier *)

Section Classifier.
Import Text Py Agent Spec.

Lemma last_message_Ok (st : AnalyticsState) :
  messages st ≠ [] → ∃ m, last_message st = Ok m.
Proof.
  intros Hne. unfold last_message.
  destruct (last (messages st)) as [m|] eqn:Hlast; [by eexists|].
  by apply last_None in Hlast.
Qed.

(** Whatever [intent_analyzer] returns is a dict with the one key
    [intent_type], and it has called the model once. *)
Lemma intent_analyzer_returns w st log u log' :
  runM (intent_analyzer w st) log = (Ok u, log') →
  ∃ intent, u = with_intent intent ∧ log' = log ++ ["intent_analyzer"].
Proof.
  unfold intent_analyzer. cbn.
  destruct (last_message st); cbn; [|done].
  destruct (llm_intent w); cbn; [|done].
  destruct (json_loads w _); cbn.
  - intros [= <- <-]. by eexists.
  - destruct (dict_get v "intent" _); cbn; [|done].
    destruct (dict_get v "confidence" _); cbn; [|done].
    destruct (dict_get v "reason" _); cbn; [|done].
    destruct (format_2f _); cbn; [|done].
    intros [= <- <-]. by eexists.
Qed.

Lemma intent_analyzer_not_json w st text msg log :
  messages st ≠ [] →
  llm_intent w = Ok text →
  json_loads w (py_strip text) = NotJSON msg →
  runM (intent_analyzer w st) log
  = (Ok (with_intent (JStr "fallback")), log ++ ["intent_analyzer"]).
Proof.
  intros Hne Hreply Hjson.
  destruct (last_message_Ok st Hne) as [m Hm].
  unfold intent_analyzer. cbn.
  rewrite Hm. cbn. rewrite Hreply. cbn. by rewrite Hjson.
Qed.

Lemma intent_analyzer_object w st text kv log :
  messages st ≠ [] →
  llm_intent w = Ok text →
  json_loads w (py_strip text) = Decoded (JObj kv) →
  printable_confidence kv →
  runM (intent_analyzer w st) log
  = (Ok (with_intent (default (JStr "fallback") (assoc "intent" kv))),
     log ++ ["intent_analyzer"]).
Proof.
  intros Hne Hreply Hjson Hconf.
  destruct (last_message_Ok st Hne) as [m Hm].
  unfold intent_analyzer. cbn.
  rewrite Hm. cbn. rewrite Hreply. cbn. rewrite Hjson. cbn.
  unfold printable_confidence in Hconf.
  destruct (assoc "confidence" kv) as [[| |z| | | |]|]; cbn; try done.
  by rewrite (proj2 (Z.ltb_lt _ _) Hconf).
Qed.

Lemma intent_analyzer_raises w st e log :
  messages st ≠ [] →
  llm_intent w = Raise e →
  runM (intent_analyzer w st) log = (Raise e, log ++ ["intent_analyzer"]).
Proof.
  intros Hne Hreply.
  destruct (last_message_Ok st Hne) as [m Hm].
  unfold intent_analyzer. cbn.
  rewrite Hm. cbn. by rewrite Hreply.
Qed.

(** C3: the classifier is answered with the intent [greeting], a label
    that is none of the three it documents.  [intent_analyzer] returns
    [greeting] as the decision: the label is not replaced by [fallback],
    against the claim and against the docstring of the function, which
    gives [find_highlight], [analysis] and [fallback] as the values it
    returns. *)
Theorem intent_analyzer_returns_greeting :
  runM (intent_analyzer greeting_world (asking "안녕하세요")) []
  = (Ok (with_intent (JStr "greeting")), ["intent_analyzer"])
  ∧ ("greeting" ∉ intent_labels)
  ∧ ¬ degrades_to_fallback greeting_world (asking "안녕하세요").
Proof.
  assert ("greeting" ∉ intent_labels) as Hnew.
  { unfold intent_labels. rewrite !elem_of_cons, elem_of_nil.
    intros [Hl|[Hl|[Hl|[]]]]; discriminate Hl. }
  split; [vm_compute; reflexivity|]. split; [exact Hnew|].
  intros Hclaim.
  destruct (Hclaim (object_text greeting_reply) eq_refl) as (u & log & Hrun & Hu).
  - unfold unparseable. vm_compute json_loads.
    intros l Hl Heq. vm_compute in Heq. injection Heq as <-. by apply Hnew.
  - vm_compute in Hrun. injection Hrun as <- <-. discriminate Hu.
Qed.

End Classifier.

(** ** The run of the graph *)

Section Graph.
Import Text Py Agent Spec.

Lemma runM_bind {A B} (m : M A) (f : A → M B) log :
  runM (m ≫= f) log =
    match runM m log with
    | (Ok a, log') => runM (f a) log'
    | (Raise e, log') => (Raise e, log')
    end.
Proof. reflexivity. Qed.

Lemma subscript_Ok d k v :
  subscript d k = Ok v → ∃ kv, d = JObj kv ∧ assoc k kv = Some v.
Proof.
  destruct d; cbn; try done.
  destruct (assoc k kv) eqn:Hk; [|done]. intros Hv. injection Hv as <-.
  by eexists.
Qed.

Lemma loads_Ok w text v : loads w text = Ok v → json_loads w text = Decoded v.
Proof.
  unfold loads. destruct (json_loads w text); [done|].
  intros Hv. by injection Hv as <-.
Qed.

(** [get_graph_data] and [get_bus_data] keep every failure to
    themselves. *)
Lemma get_graph_data_returns w st log :
  ∃ v, runM (get_graph_data w st) log = (Ok (with_graph_data v), log).
Proof.
  unfold get_graph_data, lift. cbn.
  destruct (graph_file w) as [raw|]; cbn; [|by eexists].
  destruct (dict_get raw "nodes" _) as [ns|]; cbn; [|by eexists].
  destruct (iterate ns) as [ns'|]; cbn; [|by eexists].
  destruct (mapM_result graph_node ns'); cbn; [|by eexists].
  destruct (dict_get raw "edges" _) as [es|]; cbn; [|by eexists].
  destruct (iterate es) as [es'|]; cbn; [|by eexists].
  destruct (mapM_result graph_edge es'); cbn; by eexists.
Qed.

Lemma get_bus_data_returns w st log :
  ∃ t c, runM (get_bus_data w st) log = (Ok (with_bus_data t c), log).
Proof.
  unfold get_bus_data, lift. cbn.
  destruct (transport_file w); cbn; [|by eexists _, _].
  destruct (commute_file w); cbn; by eexists _, _.
Qed.

Local Opaque conditional_router py_strip fallback_message intent_analyzer
  get_graph_data get_bus_data.

(** The first step: the classifier, then the dispatcher. *)
Lemma run_intent_analyzer w st n log :
  runM (run get_analytics_graph w (S n) "intent_analyzer" st) log =
    match runM (intent_analyzer w st) log with
    | (Raise e, log') => (Raise e, log')
    | (Ok u, log') =>
        match conditional_router (apply_update st u) with
        | Raise e => (Raise e, log')
        | Ok next =>
            if bool_decide (next ∈ known_nodes)
            then runM (run get_analytics_graph w n next (apply_update st u)) log'
            else (Raise (Exn KeyError ("'" +:+ next +:+ "'")), log')
        end
    end.
Proof.
  cbn [run]. cbn. rewrite runM_bind.
  destruct (runM (intent_analyzer w st) log) as [[u|e] log']; [|done].
  cbn.
  destruct (conditional_router _) as [next|e]; [|done]. cbn.
  destruct (String.eqb next "get_graph_data") eqn:E1.
  { apply String.eqb_eq in E1. by subst. }
  destruct (String.eqb next "get_bus_data") eqn:E2.
  { apply String.eqb_eq in E2. by subst. }
  destruct (String.eqb next "fallback_response") eqn:E3.
  { apply String.eqb_eq in E3. by subst. }
  apply String.eqb_neq in E1, E2, E3.
  rewrite bool_decide_eq_false_2; [done|].
  unfold known_nodes. rewrite !elem_of_cons, elem_of_nil. tauto.
Qed.

Lemma run_fallback_response w st n log :
  runM (run get_analytics_graph w (S n) "fallback_response" st) log =
    runM (u ← fallback_response w st; mret (apply_update st u)) log.
Proof. reflexivity. Qed.

(** What a run of the highlight path that ends well leaves in the state. *)
Lemma highlight_path_returns w st n log final log' :
  runM (run get_analytics_graph w (S (S n)) "get_graph_data" st) log
  = (Ok final, log') →
  intent_type final = intent_type st
  ∧ chart_type final = chart_type st
  ∧ chart_data final = chart_data st
  ∧ log' = log ++ ["select_edge"]
  ∧ ∃ text kv h r,
      llm_edge w = Ok text
      ∧ json_loads w text = Decoded (JObj kv)
      ∧ assoc "highlight" kv = Some h
      ∧ assoc "reason" kv = Some r
      ∧ highlight_edge final = Some h
      ∧ analysis_result final = Some r.
Proof.
  cbn [run]. cbn. rewrite runM_bind.
  destruct (get_graph_data_returns w st log) as [g ->]. cbn.
  destruct (last_message _); cbn; [|done].
  destruct (dict_get _ _ _); cbn; [|done].
  destruct (llm_edge w) as [text|]; cbn; [|done].
  destruct (loads w text) as [v|] eqn:Hv; cbn; [|done].
  destruct (subscript v "highlight") as [h|] eqn:Hh; cbn; [|done].
  destruct (subscript v "reason") as [r|] eqn:Hr; cbn; [|done].
  intros Hrun. injection Hrun as <- <-. cbn.
  apply loads_Ok in Hv.
  destruct (subscript_Ok _ _ _ Hh) as (kv & -> & Hh').
  destruct (subscript_Ok _ _ _ Hr) as (kv' & Hkv' & Hr').
  injection Hkv' as <-.
  repeat split; try done.
  by exists text, kv, h, r.
Qed.

(** The same for the analysis path. *)
Lemma analysis_path_returns w st n log final log' :
  runM (run get_analytics_graph w (S (S (S n))) "get_bus_data" st) log
  = (Ok final, log') →
  intent_type final = intent_type st
  ∧ highlight_edge final = highlight_edge st
  ∧ log' = log ++ ["chart_type_selector"; "generate_analytic"]
  ∧ ∃ reply text kv c r,
      llm_chart w = Ok reply
      ∧ chart_type final = Some (py_strip reply)
      ∧ py_strip reply ∈ output_formats
      ∧ llm_analytic w = Ok text
      ∧ json_loads w text = Decoded (JObj kv)
      ∧ assoc "chart_data" kv = Some c
      ∧ assoc "reason" kv = Some r
      ∧ chart_data final = Some c
      ∧ analysis_result final = Some r.
Proof.
  cbn [run]. cbn. rewrite runM_bind.
  destruct (get_bus_data_returns w st log) as (t & c0 & ->). cbn.
  destruct (last_message _); cbn; [|done].
  destruct (llm_chart w) as [reply|]; cbn; [|done].
  destruct (first_message _); cbn; [|done].
  unfold output_format.
  case_bool_decide as Hin; cbn; [|done].
  destruct (llm_analytic w) as [text|]; cbn; [|done].
  destruct (loads w text) as [v|] eqn:Hv; cbn; [|done].
  destruct (subscript v "chart_data") as [c|] eqn:Hc; cbn; [|done].
  destruct (subscript v "reason") as [r|] eqn:Hr; cbn; [|done].
  intros Hrun. injection Hrun as <- <-. cbn.
  apply loads_Ok in Hv.
  destruct (subscript_Ok _ _ _ Hc) as (kv & -> & Hc').
  destruct (subscript_Ok _ _ _ Hr) as (kv' & Hkv' & Hr').
  injection Hkv' as <-.
  repeat split; try done.
  { by rewrite <- app_assoc. }
  by exists reply, text, kv, c, r.
Qed.

(** [analyze], step by step: the classifier, the dispatcher, the path,
    the response model. *)
Lemma analyze_unfold w request :
  Api.analyze w request =
    match runM (intent_analyzer w (asking (Api.question request))) [] with
    | (Raise e, log) => (Api.HTTPException 500 (exn_str e), log)
    | (Ok u, log) =>
        let st := apply_update (asking (Api.question request)) u in
        match conditional_router st with
        | Raise e => (Api.HTTPException 500 (exn_str e), log)
        | Ok next =>
            if bool_decide (next ∈ known_nodes)
            then
              match runM (run get_analytics_graph w 24 next st) log with
              | (Raise e, log') => (Api.HTTPException 500 (exn_str e), log')
              | (Ok final, log') =>
                  match Api.respond final with
                  | Ok response_data => (Api.Returns response_data, log')
                  | Raise e => (Api.HTTPException 500 (exn_str e), log')
                  end
              end
            else (Api.HTTPException 500 ("'" +:+ next +:+ "'"), log)
        end
    end.
Proof.
  unfold Api.analyze. rewrite runM_bind.
  unfold invoke, recursion_limit.
  change (entry_point get_analytics_graph) with "intent_analyzer".
  change (apply_update no_update _) with (asking (Api.question request)).
  rewrite run_intent_analyzer.
  destruct (runM (intent_analyzer _ _) _) as [[u|e] log]; [|done].
  cbv zeta.
  destruct (conditional_router _) as [next|e]; [|done].
  case_bool_decide; [|done].
  destruct (runM (run _ _ _ _ _) _) as [[final|e] log']; [|done].
  cbn. by destruct (Api.respond final).
Qed.

End Graph.

(** ** The endpoint *)

Section Endpoint.
Import Text Py Agent Spec.

Lemma fallback_message_not_empty : py_strip fallback_message ≠ EmptyString.
Proof. vm_compute. discriminate. Qed.

(** C2, as the code has it: [analyze] ends by returning an envelope or by
    raising [HTTPException] with status 500, and nothing else escapes.  A
    reply of the classifier that is not valid JSON is taken in: the
    envelope says [fallback] and carries the fallback narrative, which is
    not empty.  A classifier call that raises (a timeout) is not: it
    comes out as the error of status 500, not as an envelope. *)
Theorem analyze_outcomes w request :
  (∃ calls, (∃ env, Api.analyze w request = (Api.Returns env, calls))
            ∨ (∃ detail,
                 Api.analyze w request = (Api.HTTPException 500 detail, calls)))
  ∧ (∀ text msg,
       llm_intent w = Ok text →
       json_loads w (py_strip text) = NotJSON msg →
       Api.analyze w request
       = (Api.Returns (fallback_envelope "fallback"), ["intent_analyzer"]))
  ∧ py_strip fallback_message ≠ EmptyString
  ∧ (∀ e, llm_intent w = Raise e →
       Api.analyze w request
       = (Api.HTTPException 500 (exn_str e), ["intent_analyzer"])).
Proof.
  split; [|split; [|split]].
  - unfold Api.analyze.
    destruct (runM _ []) as [[env|e] calls]; exists calls; eauto.
  - intros text msg Hreply Hjson. rewrite analyze_unfold.
    erewrite intent_analyzer_not_json; [|done..].
    cbv zeta. rewrite conditional_router_label; [|by intros ? [= <-]].
    cbn. reflexivity.
  - apply fallback_message_not_empty.
  - intros e Hreply. rewrite analyze_unfold.
    by erewrite intent_analyzer_raises.
Qed.

(** C2, witness: the two kinds of failure of the classifier, on a
    question of the documentation. *)
Lemma analyze_outcomes_witness :
  Api.analyze prose_world {| Api.question := "가장 포화가 많은 노선은?" |}
  = (Api.Returns (fallback_envelope "fallback"), ["intent_analyzer"])
  ∧ Api.analyze timeout_world {| Api.question := "가장 포화가 많은 노선은?" |}
    = (Api.HTTPException 500 "Request timed out.", ["intent_analyzer"]).
Proof.
  split.
  - destruct (analyze_outcomes prose_world
                {| Api.question := "가장 포화가 많은 노선은?" |})
      as (_ & Hprose & _).
    eapply Hprose; [reflexivity|]. vm_compute. reflexivity.
  - destruct (analyze_outcomes timeout_world
                {| Api.question := "가장 포화가 많은 노선은?" |})
      as (_ & _ & _ & Htimeout).
    exact (Htimeout _ eq_refl).
Defined.

(** C2, counterexample: the classifier call runs into its timeout and the
    caller gets the error of status 500, no envelope. *)
Lemma analyze_timeout_is_an_error :
  ¬ always_an_envelope timeout_world
      {| Api.question := "가장 포화가 많은 노선은?" |}.
Proof. intros [env Henv]. vm_compute in Henv. discriminate Henv. Qed.

Lemma conditional_router_Ok st next :
  conditional_router st = Ok next → next = mapped_node (intent_type st).
Proof.
  unfold conditional_router.
  destruct (intent_type st) as [v|] eqn:Hv; cbn.
  - destruct v; cbn; try (intros Hr; by injection Hr as <-); try done.
    rewrite route_map_lookup. intros Hr. injection Hr as <-.
    by repeat case_decide.
  - rewrite route_map_lookup. intros Hr. injection Hr as <-.
    by repeat case_decide.
Qed.

Lemma respond_Ok final env :
  Api.respond final = Ok env →
  Api.as_str (default (JStr "fallback") (intent_type final))
  = Ok (Api.intent_type env)
  ∧ Api.as_optional_dict (highlight_edge final) = Ok (Api.highlight_edge env)
  ∧ Api.as_optional_dict (chart_data final) = Ok (Api.chart_data env)
  ∧ Api.as_optional_str (analysis_result final) = Ok (Api.analysis_result env)
  ∧ chart_type final = Api.chart_type env.
Proof.
  unfold Api.respond. cbn.
  destruct (Api.as_str _); cbn; [|done].
  destruct (Api.as_optional_dict (highlight_edge final)); cbn; [|done].
  destruct (Api.as_optional_dict (chart_data final)); cbn; [|done].
  destruct (Api.as_optional_str _); cbn; [|done].
  intros Henv. by injection Henv as <-.
Qed.

(** C7, as the code has it.  In every envelope [analyze] returns:
    with [find_highlight], [chart_data] and [chart_type] are null, and
    [highlight_edge] and [analysis_result] are the [highlight] and the
    [reason] of the reply of the model (a null stays null here too, so
    [highlight_edge] can be null); with [analysis], [highlight_edge]
    is null, [chart_type] is one of the four chart types, and
    [chart_data] and [analysis_result] are the [chart_data] and the
    [reason] of the reply (a null stays null: that is the format of
    [text_summary]); with any other label, only [analysis_result] is set,
    to the fallback narrative. *)
Theorem envelope_fields w request env calls :
  Api.analyze w request = (Api.Returns env, calls) →
  (Api.intent_type env = "find_highlight" →
     Api.chart_data env = None ∧ Api.chart_type env = None
     ∧ ∃ text kv,
         llm_edge w = Ok text ∧ json_loads w text = Decoded (JObj kv)
         ∧ Api.as_optional_dict (assoc "highlight" kv)
           = Ok (Api.highlight_edge env)
         ∧ Api.as_optional_str (assoc "reason" kv)
           = Ok (Api.analysis_result env))
  ∧ (Api.intent_type env = "analysis" →
       Api.highlight_edge env = None
       ∧ (∃ t, Api.chart_type env = Some t ∧ t ∈ output_formats)
       ∧ ∃ text kv,
           llm_analytic w = Ok text ∧ json_loads w text = Decoded (JObj kv)
           ∧ Api.as_optional_dict (assoc "chart_data" kv)
             = Ok (Api.chart_data env)
           ∧ Api.as_optional_str (assoc "reason" kv)
             = Ok (Api.analysis_result env))
  ∧ (Api.intent_type env ≠ "find_highlight" →
     Api.intent_type env ≠ "analysis" →
     env = fallback_envelope (Api.intent_type env)).
Proof.
  rewrite analyze_unfold.
  destruct (runM (intent_analyzer _ _) _) as [[u|e] log] eqn:Hclassify; [|done].
  apply intent_analyzer_returns in Hclassify as (intent & -> & ->).
  cbv zeta.
  destruct (conditional_router _) as [next|e] eqn:Hroute; [|done].
  apply conditional_router_Ok in Hroute. cbn in Hroute.
  case_bool_decide as Hknown; [|done]. clear Hknown.
  destruct (runM (run _ _ _ _ _) _) as [[final|e] log'] eqn:Hrun; [|done].
  destruct (Api.respond final) as [env'|e] eqn:Henv; [|done].
  intros Hret. injection Hret as -> ->.
  apply respond_Ok in Henv as (Hintent & Hedge & Hdata & Hresult & Htype).
  destruct intent as [| | | |s| |];
    try (subst next; rewrite run_fallback_response in Hrun;
         injection Hrun as <- <-; cbn in Hintent; discriminate Hintent).
  repeat case_decide; subst.
  - (* find_highlight *)
    apply (highlight_path_returns _ _ 22) in Hrun
      as (Hi & Ht & Hd & _ & text & kv & h & r
          & Hreply & Hjson & Hkh & Hkr & Hh & Hr).
    rewrite Hi in Hintent. injection Hintent as Hintent.
    rewrite Hd in Hdata. injection Hdata as Hdata.
    rewrite Ht in Htype. cbn in Htype.
    split; [|split]; [|intros; congruence..].
    intros _. split; [done|]. split; [done|].
    exists text, kv. rewrite Hkh, Hkr, <- Hh, <- Hr. done.
  - (* analysis *)
    apply (analysis_path_returns _ _ 21) in Hrun
      as (Hi & He & _ & reply & text & kv & c & r
          & Hchart & Ht & Hin & Hreply & Hjson & Hkc & Hkr & Hc & Hr).
    rewrite Hi in Hintent. injection Hintent as Hintent.
    rewrite He in Hedge. injection Hedge as Hedge.
    split; [|split]; [intros; congruence| |intros; congruence].
    intros _. split; [done|]. split.
    { exists (py_strip reply). split; [congruence|done]. }
    exists text, kv. rewrite Hkc, Hkr, <- Hc, <- Hr. done.
  - (* any other label *)
    rewrite run_fallback_response in Hrun. injection Hrun as <- <-.
    cbn in *. injection Hintent as Hintent.
    injection Hedge as Hedge. injection Hdata as Hdata.
    injection Hresult as Hresult.
    split; [|split]; [intros; congruence..|].
    intros _ _. destruct env; cbn in *; by subst.
Qed.

(** C7, witness: the request for a summary. *)
Lemma envelope_fields_witness :
  Api.highlight_edge summary_envelope = None
  ∧ (∃ t, Api.chart_type summary_envelope = Some t ∧ t ∈ output_formats)
  ∧ ∃ text kv,
      llm_analytic summary_world = Ok text
      ∧ json_loads summary_world text = Decoded (JObj kv)
      ∧ Api.as_optional_dict (assoc "chart_data" kv)
        = Ok (Api.chart_data summary_envelope)
      ∧ Api.as_optional_str (assoc "reason" kv)
        = Ok (Api.analysis_result summary_envelope).
Proof.
  refine (proj1 (proj2 (envelope_fields summary_world summary_request
                          summary_envelope
                          ["intent_analyzer"; "chart_type_selector";
                           "generate_analytic"] _)) eq_refl).
  vm_compute. reflexivity.
Defined.

(** C7, counterexample: the selector answers a request for an edge with
    [null] for the edge; the envelope has the intent [find_highlight] and
    no [highlight_edge]. *)
Lemma find_highlight_without_edge :
  ¬ envelope_by_intent no_edge_world no_edge_request.
Proof.
  intros Hclaim.
  assert ((Api.analyze no_edge_world no_edge_request).1
          = Api.Returns no_edge_envelope) as Henv
    by (vm_compute; reflexivity).
  destruct (Hclaim _ Henv) as (Hfind & _).
  destruct (Hfind eq_refl) as ([edge Hedge] & _).
  discriminate Hedge.
Qed.

End Endpoint.


(** ** The path processors *)

Section Processors.
Import Text Py Agent Spec.

(** C4, as the code has it: [select_edge] returns as [highlight_edge] the
    [highlight] of the reply of the model, as it came, whatever edges
    [graph_data] holds: the edges go into the prompt and are not looked at
    again.  There is no [NotFoundError]; a reply that is not JSON raises
    [JSONDecodeError]. *)
Theorem select_edge_returns_reply w st text log :
  messages st ≠ [] →
  (∀ g, graph_data st = Some g → ∃ kv, g = JObj kv) →
  llm_edge w = Ok text →
  (∀ kv h r,
     json_loads w text = Decoded (JObj kv) →
     assoc "highlight" kv = Some h →
     assoc "reason" kv = Some r →
     runM (select_edge w st) log
     = (Ok (with_highlight (response_message st text) h r),
        log ++ ["select_edge"]))
  ∧ (∀ msg,
       json_loads w text = NotJSON msg →
       runM (select_edge w st) log
       = (Raise (Exn JSONDecodeError msg), log ++ ["select_edge"])).
Proof.
  intros Hne Hgraph Hreply.
  destruct (last_message_Ok st Hne) as [m Hm].
  assert (∃ edges, dict_get (default (JObj []) (graph_data st)) "edges" (JArr [])
                   = Ok edges) as [edges Hedges].
  { destruct (graph_data st) as [g|]; cbn; [|by eexists].
    destruct (Hgraph g eq_refl) as [kv ->]. by eexists. }
  split.
  - intros kv h r Hjson Hh Hr.
    unfold select_edge. cbn. rewrite Hm. cbn. rewrite Hedges. cbn.
    rewrite Hreply. cbn. unfold loads. rewrite Hjson. cbn.
    by rewrite Hh, Hr.
  - intros msg Hjson.
    unfold select_edge. cbn. rewrite Hm. cbn. rewrite Hedges. cbn.
    rewrite Hreply. cbn. unfold loads. by rewrite Hjson.
Qed.

(** C4, witness: the model names an edge that the graph does not have, and
    [select_edge] returns it. *)
Lemma select_edge_returns_reply_witness :
  runM (select_edge phantom_world one_edge_state) []
  = (Ok (with_highlight (response_message one_edge_state phantom_text)
           (object_value phantom_edge) (JStr "가장 붐비는 구간입니다.")),
     ["select_edge"]).
Proof.
  refine (proj1 (select_edge_returns_reply phantom_world one_edge_state
                   phantom_text [] _ _ eq_refl) phantom_value _ _ _ _ _).
  - discriminate.
  - intros g Hg. injection Hg as <-. by eexists.
  - vm_compute. reflexivity.
  - reflexivity.
  - reflexivity.
Defined.

(** C4, counterexample: the highlight returned has the id [e999]; the one
    edge of the graph is [e1]. *)
Lemma select_edge_returns_unknown_edge :
  ¬ highlight_exists phantom_world one_edge_state.
Proof.
  intros Hclaim.
  destruct (Hclaim (with_highlight (response_message one_edge_state phantom_text)
                      (object_value phantom_edge)
                      (JStr "가장 붐비는 구간입니다."))
              ["select_edge"] (object_value phantom_edge))
    as (id & Hid & Hin).
  - vm_compute. reflexivity.
  - reflexivity.
  - vm_compute in Hid. injection Hid as <-.
    vm_compute in Hin.
    apply list_elem_of_singleton in Hin. discriminate Hin.
Qed.





(** C9, as the code has it: [fallback_response] always succeeds, calls no
    model, and returns the same narrative of apology and help, which is not
    empty, whatever the request; it sets no chart type ([chart_type] stays
    unset, and null in the envelope) and no chart data. *)
Theorem fallback_response_static w st log :
  runM (fallback_response w st) log = (Ok (with_apology st), log)
  ∧ analysis_result (with_apology st) = Some (JStr (py_strip fallback_message))
  ∧ py_strip fallback_message ≠ EmptyString
  ∧ chart_type (with_apology st) = None
  ∧ chart_data (with_apology st) = None.
Proof.
  repeat split. vm_compute. discriminate.
Qed.

(** C9, counterexample: the dict returned has no chart type. *)
Lemma fallback_response_sets_no_chart_type :
  ¬ fallback_is_text silent (asking "안녕하세요").
Proof.
  intros (u & log & Hrun & Htype & _).
  vm_compute in Hrun. injection Hrun as <- <-. discriminate Htype.
Qed.

End Processors.


(** ** The graph dataset *)

Section Dataset.
Import Text Py Spec.

Lemma all_edges_known_true (nodeIds : gset string) edges :
  Frontend.all_edges_known nodeIds edges = true ↔
  ∀ e, e ∈ edges →
    Frontend.RouteEdge.source e ∈ nodeIds ∧ Frontend.RouteEdge.target e ∈ nodeIds.
Proof.
  induction edges as [|edge rest IH]; cbn.
  - split; [|done]. intros _ e He. by apply elem_of_nil in He.
  - destruct (decide (Frontend.RouteEdge.source edge ∈ nodeIds)) as [Hs|Hs];
      destruct (decide (Frontend.RouteEdge.target edge ∈ nodeIds)) as [Ht|Ht].
    + rewrite (bool_decide_eq_true_2 _ Hs), (bool_decide_eq_true_2 _ Ht). cbn.
      rewrite IH. split.
      * intros Hrest e He. apply elem_of_cons in He as [->|He]; auto.
      * intros Hall e He. apply Hall. by apply elem_of_cons; right.
    + rewrite (bool_decide_eq_false_2 _ Ht), orb_true_r.
      split; [done|]. intros Hall.
      destruct (Hall edge) as [_ ?]; [by apply elem_of_cons; left|done].
    + rewrite (bool_decide_eq_false_2 _ Hs). cbn.
      split; [done|]. intros Hall.
      destruct (Hall edge) as [? _]; [by apply elem_of_cons; left|done].
    + rewrite (bool_decide_eq_false_2 _ Hs). cbn.
      split; [done|]. intros Hall.
      destruct (Hall edge) as [? _]; [by apply elem_of_cons; left|done].
Qed.

Lemma elem_of_node_ids (nodes : list Frontend.RouteNode.t) (x : string) :
  x ∈ (list_to_set (Frontend.RouteNode.id <$> nodes) : gset string) ↔
  ∃ n, n ∈ nodes ∧ Frontend.RouteNode.id n = x.
Proof.
  rewrite elem_of_list_to_set, list_elem_of_fmap. split.
  - intros (n & -> & Hn). by exists n.
  - intros (n & Hn & <-). by exists n.
Qed.

Lemma validateNodeEdges_intact data :
  Frontend.validateNodeEdges data = true ↔ intact data.
Proof.
  unfold Frontend.validateNodeEdges, intact. cbv zeta.
  rewrite all_edges_known_true.
  split; intros Hall e He; specialize (Hall e He);
    by rewrite <- !elem_of_node_ids || rewrite !elem_of_node_ids.
Qed.

Lemma graph_node_json n t :
  Frontend.RouteNode.type n = Some t →
  Agent.graph_node (node_json n) = Ok (node_summary n).
Proof.
  intros Ht. unfold Agent.graph_node, node_json, node_summary.
  rewrite Ht. reflexivity.
Qed.

Lemma graph_edge_json e : Agent.graph_edge (edge_json e) = Ok (edge_summary e).
Proof.
  unfold Agent.graph_edge, edge_json, edge_summary.
  by destruct (Frontend.RouteEdge.label e).
Qed.

(** A node without [type] stops the conversion of the nodes, whatever the
    nodes before it and after it. *)
Lemma graph_node_untyped n :
  Frontend.RouteNode.type n = None →
  Agent.graph_node (node_json n) = Raise (Exn KeyError "'type'").
Proof.
  intros Ht. unfold Agent.graph_node, node_json. rewrite Ht.
  by destruct (Frontend.RouteNode.parentNode n).
Qed.

Lemma graph_nodes_untyped (nodes : list Frontend.RouteNode.t) :
  (∃ n, n ∈ nodes ∧ Frontend.RouteNode.type n = None) →
  mapM_result Agent.graph_node (node_json <$> nodes)
  = Raise (Exn KeyError "'type'").
Proof.
  induction nodes as [|a nodes IH]; intros (n & Hn & Ht).
  - by apply elem_of_nil in Hn.
  - rewrite fmap_cons. cbn [mapM_result].
    destruct (Frontend.RouteNode.type a) as [t|] eqn:Ha.
    + rewrite (graph_node_json a t Ha).
      apply elem_of_cons in Hn as [->|Hn]; [congruence|].
      rewrite IH; [done|]. by exists n.
    + by rewrite (graph_node_untyped a Ha).
Qed.

Lemma mapM_result_fmap {A} (f : json → result json) (g h : A → json) (l : list A) :
  (∀ a, a ∈ l → f (g a) = Ok (h a)) →
  mapM_result f (g <$> l) = Ok (h <$> l).
Proof.
  induction l as [|a l IH]; intros Hall; cbn; [done|].
  rewrite (Hall a) by (by apply elem_of_cons; left). cbn.
  rewrite IH; [done|]. intros b Hb. apply Hall. by apply elem_of_cons; right.
Qed.

(** C5, as the code has it: [validateNodeEdges] says [false] exactly for
    the datasets in which the source or the target of some edge is not the
    id of a node (it answers with a boolean, the edge goes to the console;
    there is no [DataIntegrityError]); and the operations that fetch the
    graph do not ask it: [loadRouteData] returns the dataset of the
    response as it is, and [get_graph_data] never raises.  From a document
    whose nodes all have a type it keeps every node and every edge,
    whether the ends of the edge exist or not; a node without a type makes
    it return the error of the missing key, and no edge at all. *)
Theorem dangling_edges_pass_the_fetch data :
  (Frontend.validateNodeEdges data = true ↔ intact data)
  ∧ (∀ status statusText,
       Frontend.loadRouteData
         (Frontend.Resolved
            {| Frontend.ok := true; Frontend.status := status;
               Frontend.statusText := statusText;
               Frontend.json := Frontend.Resolved data |})
       = Frontend.Resolved data)
  ∧ (∀ w st log, ∃ v,
       Agent.runM (Agent.get_graph_data w st) log
       = (Ok (Agent.with_graph_data v), log))
  ∧ (∀ st log,
       (∀ n, n ∈ Frontend.RouteGraphData.nodes data →
             is_Some (Frontend.RouteNode.type n)) →
       Agent.runM (Agent.get_graph_data (world_of data) st) log
       = (Ok (Agent.with_graph_data (graph_summary data)), log))
  ∧ (∀ st log,
       (∃ n, n ∈ Frontend.RouteGraphData.nodes data
             ∧ Frontend.RouteNode.type n = None) →
       Agent.runM (Agent.get_graph_data (world_of data) st) log
       = (Ok (Agent.with_graph_data (JObj [("error", JStr "'type'")])), log)).
Proof.
  split; [apply validateNodeEdges_intact|].
  split; [done|].
  split; [apply get_graph_data_returns|].
  split.
  - intros st log Htyped.
    unfold Agent.get_graph_data, Agent.lift, world_of, document. cbn.
    rewrite (mapM_result_fmap _ node_json node_summary).
    2:{ intros n Hn. destruct (Htyped n Hn) as [t Ht]. by eapply graph_node_json. }
    cbn.
    rewrite (mapM_result_fmap _ edge_json edge_summary).
    2:{ intros e _. apply graph_edge_json. }
    cbn. unfold graph_summary. by rewrite !length_fmap.
  - intros st log Huntyped.
    unfold Agent.get_graph_data, Agent.lift, world_of, document. cbn.
    by rewrite (graph_nodes_untyped _ Huntyped).
Qed.

(** C5, witness: the dataset with the dangling edge; and the same dataset
    with a node that has no type. *)
Lemma dangling_edges_pass_the_fetch_witness :
  Agent.runM (Agent.get_graph_data (world_of dangling_data)
                (asking "가장 포화가 많은 노선은?")) []
  = (Ok (Agent.with_graph_data (graph_summary dangling_data)), [])
  ∧ Agent.runM (Agent.get_graph_data (world_of untyped_data)
                  (asking "가장 포화가 많은 노선은?")) []
    = (Ok (Agent.with_graph_data (JObj [("error", JStr "'type'")])), []).
Proof.
  split.
  - refine (proj1 (proj2 (proj2 (proj2
              (dangling_edges_pass_the_fetch dangling_data)))) _ [] _).
    intros n Hn. apply list_elem_of_singleton in Hn. subst n. by eexists.
  - refine (proj2 (proj2 (proj2 (proj2
              (dangling_edges_pass_the_fetch untyped_data)))) _ [] _).
    exists (untyped "출근1호::2"). split; [|reflexivity].
    apply elem_of_cons. right. apply elem_of_cons. by left.
Defined.

(** C5, counterexample: an edge to a stop that is not there; the fetch
    succeeds. *)
Lemma dangling_edge_is_accepted : ¬ rejects_dangling dangling_data.
Proof.
  intros Hclaim. destruct Hclaim as (e & log & Hrun).
  - rewrite <- validateNodeEdges_intact.
    assert (Frontend.validateNodeEdges dangling_data = false) as ->
      by (vm_compute; reflexivity).
    discriminate.
  - vm_compute in Hrun. discriminate Hrun.
Qed.

End Dataset.


(** ** The chat panel *)

Section Panel.
Import Text Py Spec.

Lemma extends_refl log : extends log log.
Proof. exists []. by rewrite app_nil_r. Qed.

Lemma extends_one log a : extends log (log ++ [a]).
Proof. by exists [a]. Qed.

Lemma extends_two log a b : extends log ((log ++ [a]) ++ [b]).
Proof. exists [a; b]. by rewrite <- app_assoc. Qed.

Lemma intent_analyzer_calls w question :
  ∃ r, Agent.runM (Agent.intent_analyzer w (asking question)) []
       = (r, ["intent_analyzer"]).
Proof.
  unfold Agent.intent_analyzer. cbn.
  destruct (Agent.llm_intent w) as [text|]; cbn; [|by eexists].
  destruct (Agent.json_loads w _) as [|v]; cbn; [by eexists|].
  destruct (dict_get v "intent" _); cbn; [|by eexists].
  destruct (dict_get v "confidence" _); cbn; [|by eexists].
  destruct (dict_get v "reason" _); cbn; [|by eexists].
  destruct (format_2f _); cbn; by eexists.
Qed.

Local Opaque Agent.conditional_router py_strip Agent.fallback_message
  Agent.intent_analyzer Agent.get_graph_data Agent.get_bus_data.

(** Whatever path the dispatcher takes, the calls made before stay in the
    log. *)
Lemma path_extends w next st log :
  next ∈ known_nodes →
  extends log (Agent.runM (Agent.run Agent.get_analytics_graph w 24 next st) log).2.
Proof.
  unfold known_nodes. rewrite !elem_of_cons, elem_of_nil.
  intros [->|[->|[->|[]]]].
  - cbn [Agent.run]. cbn. rewrite runM_bind.
    destruct (get_graph_data_returns w st log) as [g ->]. cbn.
    destruct (Agent.last_message _); cbn; [|apply extends_refl].
    destruct (dict_get _ _ _); cbn; [|apply extends_refl].
    destruct (Agent.llm_edge w); cbn; [|apply extends_one].
    destruct (Agent.loads w _); cbn; [|apply extends_one].
    destruct (subscript _ "highlight"); cbn; [|apply extends_one].
    destruct (subscript _ "reason"); cbn; apply extends_one.
  - cbn [Agent.run]. cbn. rewrite runM_bind.
    destruct (get_bus_data_returns w st log) as (t & c & ->). cbn.
    destruct (Agent.last_message _); cbn; [|apply extends_refl].
    destruct (Agent.llm_chart w); cbn; [|apply extends_one].
    destruct (Agent.first_message _); cbn; [|apply extends_one].
    destruct (Agent.output_format _); cbn; [|apply extends_one].
    destruct (Agent.llm_analytic w); cbn; [|apply extends_two].
    destruct (Agent.loads w _); cbn; [|apply extends_two].
    destruct (subscript _ "chart_data"); cbn; [|apply extends_two].
    destruct (subscript _ "reason"); cbn; apply extends_two.
  - rewrite run_fallback_response. cbn. apply extends_refl.
Qed.


(** [analyze] makes no check of the question: the classifier is called. *)
Lemma analyze_calls_classifier w request :
  ∃ more, (Api.analyze w request).2 = "intent_analyzer" :: more.
Proof.
  rewrite analyze_unfold.
  destruct (intent_analyzer_calls w (Api.question request)) as [r ->].
  destruct r as [u|e]; [|by exists []].
  cbv zeta.
  destruct (Agent.conditional_router _) as [next|e]; [|by exists []].
  case_bool_decide as Hknown; [|by exists []].
  pose proof (path_extends w next
                (Agent.apply_update (asking (Api.question request)) u)
                ["intent_analyzer"] Hknown) as [more Hmore].
  destruct (Agent.runM (Agent.run _ _ _ _ _) _) as [[final|e] log'];
    cbn in Hmore; subst log'; [|by exists more].
  destruct (Api.respond final); by exists more.
Qed.

(** C6, as the code has it: for an input that is empty once trimmed,
    [handleSend] returns at once and leaves the panel as it was: nothing is
    sent, so the classifier is not called and no request goes to the hosted
    model.  The input is dropped in silence, with no [ValidationError]; and
    the check is the panel's alone: [analyze], asked directly, calls the
    classifier whatever the question. *)
Theorem handleSend_drops_blank_input fetch onHighlightEdge now later p :
  js_trim (Frontend.input p) = EmptyString →
  Frontend.handleSend fetch onHighlightEdge now later p = (p, nothing_done)
  ∧ ∀ w request, ∃ more, (Api.analyze w request).2 = "intent_analyzer" :: more.
Proof.
  intros Hblank. split; [|apply analyze_calls_classifier].
  unfold Frontend.handleSend. by rewrite Hblank.
Qed.

(** C6, witness: blanks and a line feed typed into the panel, in front of
    the backend. *)
Lemma handleSend_drops_blank_input_witness :
  Frontend.handleSend (Frontend.backend prose_world) true 0 1
    (typed ("  " +:+ lf))
  = (typed ("  " +:+ lf), nothing_done).
Proof.
  refine (proj1 (handleSend_drops_blank_input (Frontend.backend prose_world)
                   true 0 1 (typed ("  " +:+ lf)) _)).
  vm_compute. reflexivity.
Defined.

(** C6, counterexample: the endpoint, asked the empty question, calls the
    classifier and returns an envelope. *)
Lemma analyze_accepts_empty_question :
  ¬ rejects_empty prose_world {| Api.question := EmptyString |}.
Proof.
  intros Hclaim. destruct Hclaim as (status_code & detail & Hrun).
  - vm_compute. reflexivity.
  - vm_compute in Hrun. discriminate Hrun.
Qed.

End Panel.

(** ** The numbers of the stops *)

Section Numbers.
Import Text Frontend Spec StopIds.

Ltac digit_cases a H :=
  destruct a as [[] [] [] [] [] [] [] []]; try discriminate H.

Lemma safe_spec z :
  safe z = true ↔ - 9007199254740992 ≤ z ≤ 9007199254740992.
Proof.
  unfold safe. change (2 ^ 53) with 9007199254740992.
  rewrite andb_true_iff, !Z.leb_le. done.
Qed.

Lemma number_of_safe z :
  - 9007199254740992 ≤ z ≤ 9007199254740992 → number_of z = Safe z.
Proof. intros Hz. unfold number_of. by rewrite (proj2 (safe_spec z) Hz). Qed.

Lemma known_Safe z :
  - 9007199254740992 ≤ z ≤ 9007199254740992 → known (Safe z) = Some z.
Proof. intros Hz. cbn. by rewrite (proj2 (safe_spec z) Hz). Qed.

Lemma known_Some n z :
  known n = Some z → n = Safe z ∧ - 9007199254740992 ≤ z ≤ 9007199254740992.
Proof.
  destruct n as [x|]; cbn; [|done].
  destruct (safe x) eqn:Hx; [|done]. intros Hz. injection Hz as <-.
  split; [done|]. by apply safe_spec.
Qed.

Lemma append_cons a s t : String a s +:+ t = String a (s +:+ t).
Proof. reflexivity. Qed.

Lemma digit_colon_free a : is_digit a = true → Ascii.eqb a ":" = false.
Proof. intros H. digit_cases a H; reflexivity. Qed.

Lemma all_digits_colon_free s : all_digits s = true → colon_free s = true.
Proof.
  induction s as [|a s IH]; cbn; [done|].
  intros [Ha Hs]%andb_true_iff. by rewrite digit_colon_free, IH.
Qed.

Lemma string_of_uint_digits d : all_digits (NilEmpty.string_of_uint d) = true.
Proof. induction d; cbn; done. Qed.

Lemma digits_step a s acc d :
  digit_value a = Some d → (d <? 10)%N = true →
  digits 10 (Some acc) (String a s) = digits 10 (Some (10 * acc + d)%N) s.
Proof. intros Hd Hlt. cbn [digits]. by rewrite Hd, Hlt. Qed.

(** The digits of a decimal number, read with what has been read before
    them; the text [t] that follows is read on. *)
Lemma digits_of_uint_acc d t : ∀ p,
  digits 10 (Some (N.pos p)) (NilEmpty.string_of_uint d +:+ t)
  = digits 10 (Some (N.pos (Pos.of_uint_acc d p))) t.
Proof.
  induction d as [|d IH|d IH|d IH|d IH|d IH|d IH|d IH|d IH|d IH|d IH];
    intros p; [done|..];
    cbn [NilEmpty.string_of_uint Pos.of_uint_acc];
    rewrite append_cons;
    (erewrite digits_step; [|reflexivity..]);
    rewrite <- IH;
    match goal with
    | |- digits _ (Some ?x) _ = digits _ (Some ?y) _ =>
        replace x with y; [reflexivity|]
    end;
    match goal with
    | |- context [(N_of_ascii ?c - 48)%N] =>
        let v := eval vm_compute in (N_of_ascii c - 48)%N in
        change (N_of_ascii c - 48)%N with v
    end; lia.
Qed.

Lemma digits_of_uint d t :
  digits 10 (Some 0%N) (NilEmpty.string_of_uint d +:+ t)
  = digits 10 (Some (Pos.of_uint d)) t.
Proof.
  induction d as [|d IH|d IH|d IH|d IH|d IH|d IH|d IH|d IH|d IH|d IH];
    [done| |..];
    cbn [NilEmpty.string_of_uint Pos.of_uint]; rewrite append_cons;
    (erewrite digits_step; [|reflexivity..]);
    first [exact IH | rewrite <- digits_of_uint_acc; reflexivity].
Qed.

Lemma digits_None a s :
  is_digit a = true →
  digits 10 None (String a s) = digits 10 (Some 0%N) (String a s).
Proof. intros H. digit_cases a H; reflexivity. Qed.

Lemma digits_end acc t : ends_number t → digits 10 (Some acc) t = Some acc.
Proof. destruct t as [|c t]; cbn; [done|]. by intros ->. Qed.

Lemma to_uint_text p :
  ∃ a s, NilEmpty.string_of_uint (Pos.to_uint p) = String a s
         ∧ is_digit a = true ∧ all_digits s = true.
Proof.
  pose proof (string_of_uint_digits (Pos.to_uint p)) as Hdigits.
  pose proof (DecimalPos.Unsigned.of_to p) as Hp.
  destruct (Pos.to_uint p) eqn:Hu; try discriminate Hp;
    cbn in *; eexists _, _; (split; [reflexivity|]); by split.
Qed.

Lemma digits_to_uint p t :
  ends_number t →
  digits 10 None (NilEmpty.string_of_uint (Pos.to_uint p) +:+ t)
  = Some (N.pos p).
Proof.
  intros Ht. destruct (to_uint_text p) as (a & s & Htext & Ha & _).
  rewrite Htext, append_cons, digits_None, <- append_cons, <- Htext by done.
  by rewrite digits_of_uint, DecimalPos.Unsigned.of_to, digits_end.
Qed.

Lemma NilZero_to_uint p :
  NilZero.string_of_uint (Pos.to_uint p) = NilEmpty.string_of_uint (Pos.to_uint p).
Proof.
  pose proof (DecimalPos.Unsigned.of_to p) as Hp.
  by destruct (Pos.to_uint p).
Qed.

(** White space is not a digit and not a sign, so a number is not
    trimmed. *)
Lemma js_trimStart_digit a s :
  is_digit a = true → js_trimStart (String a s) = String a s.
Proof.
  intros H. unfold js_trimStart, lstrip. cbn [String.length lstrip_upto].
  assert (drop_one (utf8 <$> js_space_points) (String a s) = None) as ->; [|done].
  digit_cases a H; vm_compute; reflexivity.
Qed.

Lemma js_trimStart_minus s : js_trimStart (String "-" s) = String "-" s.
Proof.
  unfold js_trimStart, lstrip. cbn [String.length lstrip_upto].
  assert (drop_one (utf8 <$> js_space_points) (String "-" s) = None) as ->;
    [|done].
  vm_compute. reflexivity.
Qed.

(** The text after a first digit does not make the number hexadecimal. *)
Lemma not_hex s t c r :
  all_digits s = true → ends_number t → s +:+ t = String c r →
  c ≠ "x"%char ∧ c ≠ "X"%char.
Proof.
  intros Hs Ht Hc. destruct s as [|b s].
  - change (t = String c r) in Hc. subst t. cbn in Ht.
    split; intros ->; discriminate Ht.
  - rewrite append_cons in Hc. injection Hc as -> _.
    cbn in Hs. apply andb_true_iff in Hs as [Hb _].
    split; intros ->; discriminate Hb.
Qed.

(** What [parseInt] makes of the digits it has found, with their sign. *)
Lemma radix_ten a r (sign : Z) :
  is_digit a = true →
  (∀ c r', r = String c r' → c ≠ "x"%char ∧ c ≠ "X"%char) →
  (let '(radix, s0) :=
     match String a r with
     | String "0" (String "x" r') | String "0" (String "X" r') => (16%N, r')
     | _ => (10%N, String a r)
     end in
   match digits radix None s0 with
   | Some n => number_of (sign * Z.of_N n)
   | None => Other
   end)
  = match digits 10 None (String a r) with
    | Some n => number_of (sign * Z.of_N n)
    | None => Other
    end.
Proof.
  intros Ha Hr. destruct r as [|c r'].
  - digit_cases a Ha; reflexivity.
  - destruct (Hr c r' eq_refl) as [Hx HX].
    digit_cases a Ha; try reflexivity.
    destruct c as [[] [] [] [] [] [] [] []]; try reflexivity;
      exfalso; first [by apply Hx | by apply HX].
Qed.

(** A number in decimal reads back as it was written, whatever follows
    it that is no digit and no letter. *)
Lemma parseInt_show_Z k t :
  ends_number t → parseInt (show_Z k +:+ t) = number_of k.
Proof.
  intros Ht. unfold show_Z.
  destruct k as [|p|p]; cbn [Z.to_int NilZero.string_of_int].
  - change (NilZero.string_of_uint (Decimal.D0 Decimal.Nil) +:+ t)
      with (String "0" t).
    unfold parseInt. rewrite js_trimStart_digit by done. cbv iota beta.
    rewrite (radix_ten "0" t 1) by
      (try done; intros c r' ->; cbn in Ht; split; intros ->; discriminate Ht).
    erewrite digits_None, digits_step by reflexivity.
    by rewrite digits_end.
  - rewrite NilZero_to_uint.
    destruct (to_uint_text p) as (a & s & Htext & Ha & Hs).
    unfold parseInt. rewrite Htext, append_cons, js_trimStart_digit by done.
    assert (is_digit a = true → ∀ r, r = s +:+ t →
              (let '(sign, s0) :=
                 match String a r with
                 | String "-" r' => (-1, r')
                 | String "+" r' => (1, r')
                 | _ => (1, String a r)
                 end in
               let '(radix, s1) :=
                 match s0 with
                 | String "0" (String "x" r') | String "0" (String "X" r') =>
                     (16%N, r')
                 | _ => (10%N, s0)
                 end in
               match digits radix None s1 with
               | Some n => number_of (sign * Z.of_N n)
               | None => Other
               end)
              = match digits 10 None (String a r) with
                | Some n => number_of (1 * Z.of_N n)
                | None => Other
                end) as Hsign.
    { intros Ha' r Hr.
      pose proof (radix_ten a r 1 Ha') as Hten.
      assert (∀ c r', r = String c r' → c ≠ "x"%char ∧ c ≠ "X"%char) as Hhex.
      { intros c r' Hc. subst r. by eapply not_hex. }
      specialize (Hten Hhex).
      digit_cases a Ha'; exact Hten. }
    rewrite (Hsign Ha _ eq_refl), <- append_cons, <- Htext.
    by rewrite digits_to_uint.
  - rewrite NilZero_to_uint.
    destruct (to_uint_text p) as (a & s & Htext & Ha & Hs).
    unfold parseInt. rewrite append_cons, js_trimStart_minus. cbv iota beta.
    rewrite Htext, append_cons.
    rewrite (radix_ten a (s +:+ t) (-1) Ha)
      by (intros c r' Hc; by eapply not_hex).
    rewrite <- append_cons, <- Htext.
    by rewrite digits_to_uint.
Qed.

Lemma show_Z_text k :
  0 ≤ k → ∃ a s, show_Z k = String a s ∧ is_digit a = true ∧ all_digits s = true.
Proof.
  intros Hk. unfold show_Z. destruct k as [|p|p]; [| |lia].
  - by exists "0"%char, EmptyString.
  - cbn [Z.to_int NilZero.string_of_int]. rewrite NilZero_to_uint.
    apply to_uint_text.
Qed.

Lemma split_go_colon_free s : ∀ cur,
  colon_free s = true → split_go "::" O cur s = [string_rev_onto cur s].
Proof.
  induction s as [|a s IH]; intros cur; cbn [split_go drop_prefix colon_free];
    [done|].
  intros [Ha Hs]%andb_true_iff. apply negb_true_iff in Ha.
  rewrite Ascii.eqb_sym in Ha. rewrite Ha. by apply IH.
Qed.

Lemma split_go_stop_id route rest : ∀ cur,
  colon_free route = true → colon_free rest = true →
  split_go "::" O cur (route +:+ "::" +:+ rest)
  = [string_rev_onto cur route; rest].
Proof.
  induction route as [|a route IH]; intros cur Hroute Hrest.
  - change (EmptyString +:+ "::" +:+ rest) with (String ":" (String ":" rest)).
    cbn [split_go drop_prefix]. rewrite !Ascii.eqb_refl.
    cbn [String.length Nat.sub split_go]. by rewrite split_go_colon_free.
  - cbn in Hroute. apply andb_true_iff in Hroute as [Ha Hroute].
    apply negb_true_iff in Ha. rewrite Ascii.eqb_sym in Ha.
    change (String a route +:+ "::" +:+ rest)
      with (String a (route +:+ "::" +:+ rest)).
    cbn [split_go drop_prefix]. rewrite Ha. by apply IH.
Qed.

Lemma stop_number_numbered n k :
  numbered_stop n k → 0 ≤ k → stop_number n = number_of k.
Proof.
  intros (route & Hroute & Hid) Hk.
  destruct (show_Z_text k Hk) as (c & s & Htext & Hc & Hs).
  unfold stop_number, split. rewrite Hid. unfold stop_id.
  rewrite split_go_stop_id; [|done|].
  2:{ rewrite Htext. apply (all_digits_colon_free (String c s)).
      cbn. by rewrite Hc, Hs. }
  cbn [lookup list_lookup]. rewrite Htext. cbn [or_string].
  rewrite <- Htext.
  rewrite <- (parseInt_show_Z k EmptyString I).
  f_equal. clear. induction (show_Z k) as [|a s IH]; [done|].
  by rewrite append_cons, <- IH.
Qed.

(** X22.  The number of a stop is the number its id ends in.  For stops
    whose ids are a route name without a colon, then [::], then a number
    from 0 to 2^53 written in decimal, [stop_number] is that number, and
    the comparator of the sort is the difference of the two numbers: stops
    sort by number, ten after nine, not as text. *)
Theorem stop_number_of_id a b i j :
  numbered_stop a i → numbered_stop b j →
  0 ≤ i ≤ 2 ^ 53 → 0 ≤ j ≤ 2 ^ 53 →
  stop_number a = Safe i ∧ stop_number b = Safe j
  ∧ compare_stops a b = Safe (i - j).
Proof.
  change (2 ^ 53) with 9007199254740992.
  intros Ha Hb Hi Hj.
  assert (stop_number a = Safe i) as Hai.
  { rewrite (stop_number_numbered a i) by (done || lia).
    apply number_of_safe. lia. }
  assert (stop_number b = Safe j) as Hbj.
  { rewrite (stop_number_numbered b j) by (done || lia).
    apply number_of_safe. lia. }
  split; [done|]. split; [done|].
  unfold compare_stops, minus. rewrite Hai, Hbj.
  rewrite !known_Safe by lia. apply number_of_safe. lia.
Qed.

(** X22, witness: stop ten comes after stop nine. *)
Lemma stop_number_of_id_witness :
  stop_number (stop "출근1호::10" "출근1호" "승차" 2) = Safe 10
  ∧ stop_number (stop "출근1호::9" "출근1호" "승차" 1) = Safe 9
  ∧ compare_stops (stop "출근1호::10" "출근1호" "승차" 2)
      (stop "출근1호::9" "출근1호" "승차" 1) = Safe (10 - 9).
Proof.
  apply stop_number_of_id.
  - exists "출근1호". split; vm_compute; reflexivity.
  - exists "출근1호". split; vm_compute; reflexivity.
  - split; [lia|]. vm_compute. discriminate.
  - split; [lia|]. vm_compute. discriminate.
Defined.

End Numbers.
(** ** The passengers on board *)

Section Passengers.
Import Text Frontend Spec StopIds.

Lemma boarded_app l1 l2 : boarded (l1 ++ l2) = boarded l1 + boarded l2.
Proof. unfold boarded. induction l1 as [|a l1 IH]; cbn; [done|]. rewrite IH. lia. Qed.
Lemma alighted_app l1 l2 : alighted (l1 ++ l2) = alighted l1 + alighted l2.
Proof. unfold alighted. induction l1 as [|a l1 IH]; cbn; [done|]. rewrite IH. lia. Qed.
Lemma crowd_app l1 l2 : crowd (l1 ++ l2) = crowd l1 + crowd l2.
Proof. unfold crowd. induction l1 as [|a l1 IH]; cbn; [done|]. rewrite IH. lia. Qed.

Lemma crowd_bounds l : Z.abs (on_board l) ≤ crowd l.
Proof.
  unfold on_board, boarded, alighted, crowd.
  induction l as [|a l IH]; cbn; lia.
Qed.

Lemma head_counts_app l1 l2 : head_counts (l1 ++ l2) → head_counts l1.
Proof.
  intros [Hwhole Hcrowd]. apply Forall_app in Hwhole as [Hwhole _].
  split; [done|]. rewrite crowd_app in Hcrowd.
  pose proof (crowd_bounds l2). lia.
Qed.

Lemma running_snoc done node :
  running (done ++ [node]) = after_stop (running done) node.
Proof. unfold running. by rewrite foldl_app. Qed.

(** With head counts the loop holds the passengers on board: boarded less
    alighted. *)
Lemma running_on_board l : head_counts l → running l = Safe (on_board l).
Proof.
  induction l as [|node l IH] using rev_ind; intros Hl; [done|].
  pose proof (head_counts_app _ _ Hl) as Hl'.
  rewrite running_snoc, (IH Hl').
  destruct Hl as [Hwhole Hcrowd]. apply Forall_app in Hwhole as [_ Hnode].
  apply Forall_inv in Hnode.
  rewrite crowd_app in Hcrowd.
  pose proof (crowd_bounds l) as Hbound.
  change (2 ^ 53) with 9007199254740992 in Hcrowd.
  assert (on_board (l ++ [node]) = on_board l + boarding node - alighting node)
    as -> by (unfold on_board; rewrite boarded_app, alighted_app; cbn; lia).
  unfold crowd in Hcrowd at 2. cbn [foldr] in Hcrowd.
  unfold after_stop, whole, boarding, alighting in *.
  destruct (RouteNode.data node) as [d|g]; [|f_equal; lia].
  destruct (String.eqb (StopNodeData.action d) "승차") eqn:Hb.
  - assert (String.eqb (StopNodeData.action d) "하차" = false) as Ha.
    { apply String.eqb_eq in Hb. rewrite Hb. reflexivity. }
    rewrite Ha in *.
    assert (is_Some (known (StopNodeData.count d))) as [c Hc]
      by (apply Hnode; left; by apply String.eqb_eq).
    unfold heads in *. rewrite Hc in *. cbn in Hcrowd |- *.
    unfold plus. rewrite Hc, known_Safe by lia.
    rewrite number_of_safe by lia. f_equal. lia.
  - destruct (String.eqb (StopNodeData.action d) "하차") eqn:Ha.
    + assert (is_Some (known (StopNodeData.count d))) as [c Hc]
        by (apply Hnode; right; by apply String.eqb_eq).
      unfold heads in *. rewrite Hc in *. cbn in Hcrowd |- *.
      unfold minus. rewrite Hc, known_Safe by lia.
      rewrite number_of_safe by lia. f_equal. lia.
    + f_equal. lia.
Qed.

(** What an enriched edge carries and shows, with head counts. *)
Lemma enrich_head_counts edge l :
  head_counts l →
  ∃ text,
    EnrichedEdge.currentPassengers (enrich edge (running l))
    = Safe (on_board l)
    ∧ EnrichedEdge.label (enrich edge (running l)) = Some (text +:+ "명")
    ∧ text = show_Z (on_board l)
    ∧ parseInt (text +:+ "명") = Safe (on_board l).
Proof.
  intros Hl. rewrite (running_on_board l Hl).
  pose proof (crowd_bounds l) as Hbound. destruct Hl as [_ Hcrowd].
  change (2 ^ 53) with 9007199254740992 in Hcrowd.
  exists (show_Z (on_board l)). split; [done|]. split.
  - unfold enrich, number_text. cbn [EnrichedEdge.label].
    by rewrite known_Safe by lia.
  - split; [done|]. rewrite parseInt_show_Z by reflexivity.
    apply number_of_safe. lia.
Qed.

(* sort *)
Lemma insert_by_perm {A} (cmp : A → A → Z) x l : insert_by cmp x l ≡ₚ x :: l.
Proof.
  induction l as [|y l IH]; cbn; [done|].
  case_match; [done|]. rewrite IH. apply Permutation_swap.
Qed.
Lemma sort_by_perm {A} (cmp : A → A → Z) l : sort_by cmp l ≡ₚ l.
Proof.
  unfold sort_by. induction l as [|x l IH]; cbn; [done|].
  rewrite insert_by_perm. by rewrite IH.
Qed.




Lemma find_connects a b edges edge :
  find (connects a b) edges = Some edge →
  edge ∈ edges ∧ RouteEdge.source edge = RouteNode.id a
  ∧ RouteEdge.target edge = RouteNode.id b.
Proof.
  intros Hfind. apply find_some in Hfind as [Hin Hc].
  apply list_elem_of_In in Hin. unfold connects in Hc.
  apply andb_true_iff in Hc as [Hs Ht].
  by apply String.eqb_eq in Hs, Ht.
Qed.

Lemma forEach_rides edges s rest : ∀ done out,
  s = done ++ rest →
  ∃ new,
    (forEach_from (visit edges s) (length done) (running done, out) rest).2
    = out ++ new
    ∧ Forall (rides edges s) new.
Proof.
  induction rest as [|node rest IH]; intros done out Hs; cbn [forEach_from].
  - exists []. by rewrite app_nil_r.
  - assert (s = (done ++ [node]) ++ rest) as Hs' by (by rewrite <- app_assoc).
    assert (take (S (length done)) s = done ++ [node]) as Htake.
    { rewrite Hs'. rewrite take_app_length'; [done|]. rewrite length_app. cbn. lia. }
    assert (s !! length done = Some node) as Hnode.
    { rewrite Hs. by rewrite list_lookup_middle. }
    assert (∃ out', visit edges s (running done, out) (length done) node
                    = (running (done ++ [node]), out ++ out')
                    ∧ Forall (rides edges s) out') as (out' & -> & Hout').
    { unfold visit. rewrite <- running_snoc.
      destruct (length done <? length s - 1)%nat.
      2:{ exists []. by rewrite app_nil_r. }
      replace (length done + 1)%nat with (S (length done)) by lia.
      destruct (s !! S (length done)) as [nextNode|] eqn:Hnext.
      2:{ exists []. by rewrite app_nil_r. }
      destruct (find _ edges) as [edge|] eqn:Hfind.
      2:{ exists []. by rewrite app_nil_r. }
      apply find_connects in Hfind as (Hin & Hsrc & Htgt).
      eexists [_]. split; [done|]. constructor; [|done].
      exists (length done), node, nextNode, edge.
      rewrite Htake. repeat split; try done.
      apply enrich_head_counts. }
    destruct (IH (done ++ [node]) (out ++ out') Hs') as (new & Hnew & Hall).
    replace (length (done ++ [node])) with (S (length done)) in Hnew
      by (rewrite length_app; cbn; lia).
    exists (out' ++ new). rewrite Hnew, <- app_assoc. split; [done|].
    by apply Forall_app.
Qed.

Lemma push_to_keys route node groups k :
  k ∈ (fst <$> push_to route node groups) ↔ k = route ∨ k ∈ (fst <$> groups).
Proof.
  induction groups as [|[r ns] groups IH]; cbn.
  - rewrite list_elem_of_singleton, elem_of_nil. tauto.
  - destruct (String.eqb r route) eqn:Hr; cbn.
    + apply String.eqb_eq in Hr. subst r. rewrite !elem_of_cons. tauto.
    + rewrite !elem_of_cons, IH. tauto.
Qed.

Lemma push_to_NoDup route node groups :
  NoDup (fst <$> groups) → NoDup (fst <$> push_to route node groups).
Proof.
  induction groups as [|[r ns] groups IH]; cbn; intros Hnd.
  - apply NoDup_singleton.
  - apply NoDup_cons in Hnd as [Hr Hnd].
    destruct (String.eqb r route) eqn:Heq; cbn.
    + by apply NoDup_cons.
    + apply NoDup_cons. split; [|by apply IH].
      rewrite push_to_keys. apply String.eqb_neq in Heq.
      intros [->|?]; done.
Qed.

Lemma push_to_elem route node groups r ns :
  NoDup (fst <$> groups) →
  (r, ns) ∈ push_to route node groups →
  (r = route ∧ ((∃ old, (route, old) ∈ groups ∧ ns = old ++ [node])
                ∨ ((route ∉ fst <$> groups) ∧ ns = [node])))
  ∨ (r ≠ route ∧ (r, ns) ∈ groups).
Proof.
  induction groups as [|[r0 ns0] groups IH]; cbn; intros Hnd Hin.
  - apply list_elem_of_singleton in Hin. injection Hin as -> ->.
    left. split; [done|]. right. split; [apply not_elem_of_nil|done].
  - apply NoDup_cons in Hnd as [Hr0 Hnd].
    destruct (String.eqb r0 route) eqn:Heq.
    + apply String.eqb_eq in Heq. subst r0.
      apply elem_of_cons in Hin as [Hin|Hin].
      * injection Hin as -> ->. left. split; [done|]. left.
        exists ns0. split; [by apply elem_of_cons; left|done].
      * right. split.
        -- intros ->. apply Hr0. apply list_elem_of_fmap. by exists (route, ns).
        -- by apply elem_of_cons; right.
    + apply String.eqb_neq in Heq.
      apply elem_of_cons in Hin as [Hin|Hin].
      * injection Hin as -> ->. right. split; [done|by apply elem_of_cons; left].
      * destruct (IH Hnd Hin) as [[-> [(old & Hold & ->)|[Hnew ->]]]|[Hne Hold]].
        -- left. split; [done|]. left. exists old.
           split; [by apply elem_of_cons; right|done].
        -- left. split; [done|]. right. split; [|done].
           rewrite elem_of_cons. intros [?|?]; done.
        -- right. split; [done|by apply elem_of_cons; right].
Qed.

Lemma truthy_Some (parent : option string) :
  truthy parent = true → ∃ route, parent = Some route ∧ route ≠ EmptyString.
Proof. destruct parent as [[|c s]|]; cbn; try done. intros _. by eexists. Qed.

Lemma stops_of_snoc route nodes node :
  stops_of route (nodes ++ [node])
  = stops_of route nodes
      ++ (if decide (RouteNode.parentNode node = Some route) then [node] else []).
Proof.
  unfold stops_of. rewrite filter_app. by f_equal.
Qed.

(** The groups: one for every route that some stop names, in the order the
    routes come up, each with the stops of the route in the order of the
    data. *)
Lemma routeGroups_spec nodes :
  NoDup (fst <$> routeGroups nodes)
  ∧ (∀ r ns, (r, ns) ∈ routeGroups nodes → r ≠ EmptyString ∧ ns = stops_of r nodes)
  ∧ (∀ n r, n ∈ nodes → RouteNode.parentNode n = Some r → r ≠ EmptyString →
            r ∈ (fst <$> routeGroups nodes)).
Proof.
  unfold routeGroups.
  induction nodes as [|node nodes IH] using rev_ind; cbn.
  - split; [apply NoDup_nil_2|]. split.
    + intros r ns Hin. by apply elem_of_nil in Hin.
    + intros n r Hin. by apply elem_of_nil in Hin.
  - rewrite foldl_snoc.
    destruct IH as (Hnd & Hgroups & Hkeys).
    destruct (truthy (RouteNode.parentNode node)) eqn:Htruthy.
    + destruct (truthy_Some _ Htruthy) as (route & Hparent & Hroute).
      rewrite Hparent. change (default EmptyString (Some route)) with route.
      split; [by apply push_to_NoDup|]. split.
      * intros r ns Hin. rewrite stops_of_snoc.
        destruct (push_to_elem _ _ _ _ _ Hnd Hin)
          as [[-> [(old & Hold & ->)|[Hnew ->]]]|[Hne Hold]].
        -- split; [done|]. destruct (Hgroups _ _ Hold) as [_ ->].
           by rewrite decide_True.
        -- split; [done|]. rewrite decide_True by done.
           assert (stops_of route nodes = []) as ->; [|done].
           destruct (stops_of route nodes) as [|n l] eqn:Hstops; [done|].
           assert (n ∈ stops_of route nodes) as Hn
             by (rewrite Hstops; apply elem_of_cons; by left).
           apply list_elem_of_filter in Hn as [Hp Hn].
           exfalso. apply Hnew. by eapply Hkeys.
        -- destruct (Hgroups _ _ Hold) as [? ->]. split; [done|].
           rewrite decide_False; [by rewrite app_nil_r|].
           rewrite Hparent. intros [= ->]. done.
      * intros n r Hin Hn Hr. rewrite push_to_keys.
        apply elem_of_app in Hin as [Hin|Hin]; [right; by eapply Hkeys|].
        apply list_elem_of_singleton in Hin. subst n. left. congruence.
    + split; [done|]. split.
      * intros r ns Hin. destruct (Hgroups _ _ Hin) as [Hr ->]. split; [done|].
        rewrite stops_of_snoc, decide_False; [by rewrite app_nil_r|].
        intros Hparent. rewrite Hparent in Htruthy. by destruct r.
      * intros n r Hin Hn Hr.
        apply elem_of_app in Hin as [Hin|Hin]; [by eapply Hkeys|].
        apply list_elem_of_singleton in Hin. subst n.
        rewrite Hn in Htruthy. by destruct r.
Qed.

Lemma groups_ride (sort : Sort) edges groups : ∀ out,
  ∃ new,
    foldl (λ enrichedEdges (group : string * list RouteNode.t),
             (forEach_from (visit edges (sort group.2)) O
                (Safe 0, enrichedEdges) (sort group.2)).2)
      out groups
    = out ++ new
    ∧ Forall (λ enriched,
                ∃ group, group ∈ groups ∧ rides edges (sort group.2) enriched)
        new.
Proof.
  induction groups as [|group groups IH]; intros out; cbn [foldl].
  - exists []. by rewrite app_nil_r.
  - destruct (forEach_rides edges (sort group.2) (sort group.2) [] out eq_refl)
      as (new1 & Hrun & Hnew1).
    change (length (@nil RouteNode.t)) with O in Hrun.
    change (running []) with (Safe 0) in Hrun.
    rewrite Hrun.
    destruct (IH (out ++ new1)) as (new2 & -> & Hnew2).
    exists (new1 ++ new2). rewrite <- app_assoc. split; [done|].
    apply Forall_app. split.
    + eapply Forall_impl; [exact Hnew1|]. intros e He.
      exists group. split; [by apply elem_of_cons; left|done].
    + eapply Forall_impl; [exact Hnew2|]. intros e (g & Hg & He).
      exists g. split; [by apply elem_of_cons; right|done].
Qed.



End Passengers.


(** ** The calls of a run *)

Section Calls.
Import Text Py Agent Spec Facts.

Lemma select_edge_calls w st log :
  (runM (select_edge w st) log).2 = log
  ∨ (runM (select_edge w st) log).2 = log ++ ["select_edge"].
Proof.
  unfold select_edge. cbn.
  destruct (last_message st); cbn; [|by left].
  destruct (dict_get _ _ _); cbn; [|by left].
  destruct (llm_edge w); cbn; [|by right].
  destruct (loads w _); cbn; [|by right].
  destruct (subscript _ "highlight"); cbn; [|by right].
  destruct (subscript _ "reason"); cbn; by right.
Qed.

Lemma chart_type_selector_calls w st log :
  (runM (chart_type_selector w st) log).2 = log
  ∨ (runM (chart_type_selector w st) log).2 = log ++ ["chart_type_selector"].
Proof.
  unfold chart_type_selector. cbn.
  destruct (last_message st); cbn; [|by left].
  destruct (llm_chart w); cbn; by right.
Qed.

Lemma generate_analytic_calls w st log :
  (runM (generate_analytic w st) log).2 = log
  ∨ (runM (generate_analytic w st) log).2 = log ++ ["generate_analytic"].
Proof.
  unfold generate_analytic. cbn.
  destruct (first_message st); cbn; [|by left].
  destruct (output_format _); cbn; [|by left].
  destruct (llm_analytic w); cbn; [|by right].
  destruct (loads w _); cbn; [|by right].
  destruct (subscript _ "chart_data"); cbn; [|by right].
  destruct (subscript _ "reason"); cbn; by right.
Qed.

(** A selector that raised has not been followed by the generator. *)
Lemma chart_type_selector_silent w st log u log' :
  runM (chart_type_selector w st) log = (Ok u, log') →
  log' = log ++ ["chart_type_selector"].
Proof.
  unfold chart_type_selector. cbn.
  destruct (last_message st); cbn; [|done].
  destruct (llm_chart w); cbn; [|done].
  intros Hrun. by injection Hrun as _ <-.
Qed.

Lemma fallback_response_returns w st log :
  runM (fallback_response w st) log = (Ok (with_apology st), log).
Proof. reflexivity. Qed.

End Calls.

Section Runs.
Import Text Py Agent Spec Facts.

Local Opaque conditional_router py_strip fallback_message intent_analyzer
  get_graph_data get_bus_data select_edge chart_type_selector
  generate_analytic fallback_response.

Lemma run_highlight_eq w st k log :
  runM (run get_analytics_graph w (S (S k)) "get_graph_data" st) log =
    match runM (get_graph_data w st) log with
    | (Raise e, log1) => (Raise e, log1)
    | (Ok u, log1) =>
        match runM (select_edge w (apply_update st u)) log1 with
        | (Raise e, log2) => (Raise e, log2)
        | (Ok u2, log2) => (Ok (apply_update (apply_update st u) u2), log2)
        end
    end.
Proof.
  cbn [run]. cbn. rewrite runM_bind.
  destruct (runM (get_graph_data w st) log) as [[u|e] log1]; [|done].
  cbn. rewrite runM_bind.
  by destruct (runM (select_edge w _) log1) as [[u2|e] log2].
Qed.

Lemma run_analysis_eq w st k log :
  runM (run get_analytics_graph w (S (S (S k))) "get_bus_data" st) log =
    match runM (get_bus_data w st) log with
    | (Raise e, log1) => (Raise e, log1)
    | (Ok u, log1) =>
        let st1 := apply_update st u in
        match runM (chart_type_selector w st1) log1 with
        | (Raise e, log2) => (Raise e, log2)
        | (Ok u2, log2) =>
            let st2 := apply_update st1 u2 in
            match runM (generate_analytic w st2) log2 with
            | (Raise e, log3) => (Raise e, log3)
            | (Ok u3, log3) => (Ok (apply_update st2 u3), log3)
            end
        end
    end.
Proof.
  cbn [run]. cbn. rewrite runM_bind.
  destruct (runM (get_bus_data w st) log) as [[u|e] log1]; [|done].
  cbn. rewrite runM_bind.
  destruct (runM (chart_type_selector w _) log1) as [[u2|e] log2]; [|done].
  cbn. rewrite runM_bind.
  by destruct (runM (generate_analytic w _) log2) as [[u3|e] log3].
Qed.

Lemma run_fallback_eq w st k log :
  runM (run get_analytics_graph w (S k) "fallback_response" st) log =
    match runM (fallback_response w st) log with
    | (Raise e, log1) => (Raise e, log1)
    | (Ok u, log1) => (Ok (apply_update st u), log1)
    end.
Proof.
  cbn [run]. cbn. rewrite runM_bind.
  by destruct (runM (fallback_response w st) log) as [[u|e] log1].
Qed.

Lemma run_walk w st n log :
  (4 ≤ n)%nat →
  runM (run get_analytics_graph w n "intent_analyzer" st) log
  = runM (walk w st) log.
Proof.
  intros Hn. destruct n as [|[|[|[|k]]]]; try lia.
  rewrite run_intent_analyzer. unfold walk. rewrite runM_bind.
  destruct (runM (intent_analyzer w st) log) as [[u|e] log1]; [|done].
  cbv zeta. rewrite runM_bind. unfold lift at 1. cbn [runM].
  destruct (conditional_router _) as [next|e] eqn:Hroute; [|done].
  apply conditional_router_Ok in Hroute.
  rewrite bool_decide_eq_true_2 by (subst next; apply mapped_node_known).
  pose proof (mapped_node_known (intent_type (apply_update st u))) as Hknown.
  rewrite <- Hroute in Hknown. unfold known_nodes in Hknown.
  rewrite !elem_of_cons, elem_of_nil in Hknown.
  unfold path_of.
  destruct Hknown as [->|[->|[->|[]]]].
  - rewrite decide_True by done. rewrite run_highlight_eq, !runM_bind.
    destruct (runM (get_graph_data w _) log1) as [[u1|e] log2]; [|done].
    cbv zeta. rewrite runM_bind.
    by destruct (runM (select_edge w _) log2) as [[u2|e] log3].
  - rewrite decide_False by done. rewrite decide_True by done.
    rewrite run_analysis_eq, !runM_bind.
    destruct (runM (get_bus_data w _) log1) as [[u1|e] log2]; [|done].
    cbv zeta. rewrite runM_bind.
    destruct (runM (chart_type_selector w _) log2) as [[u2|e] log3]; [|done].
    cbv zeta. rewrite runM_bind.
    by destruct (runM (generate_analytic w _) log3) as [[u3|e] log4].
  - rewrite !decide_False by done. rewrite run_fallback_eq, runM_bind.
    by destruct (runM (fallback_response w _) log1) as [[u1|e] log2].
Qed.

(** X1.  The limit of steps plays no part in a request.  What [invoke]
    does with the graph under the limit of the library is the walk written
    out: the classifier, the dispatcher, then the nodes of the one path the
    dispatcher names, each once.  Every result and every error of a run is
    that of one of these nodes; none is the error of the limit. *)
Theorem invoke_is_the_walk w input log :
  runM (invoke get_analytics_graph w input) log
  = runM (walk w (apply_update no_update input)) log.
Proof.
  unfold invoke.
  change (entry_point get_analytics_graph) with "intent_analyzer".
  apply run_walk. unfold recursion_limit. lia.
Qed.

(** X2.  The calls of the hosted model that one request makes: the classifier
    first, and then nothing more, or the edge selector, or the chart type
    selector, or the chart type selector and after it the generator.  No
    request calls a model twice, none calls the models of both paths, and
    the generator never runs without the selector before it. *)
Theorem analyze_call_sequences w request :
  (Api.analyze w request).2
  ∈ [["intent_analyzer"];
     ["intent_analyzer"; "select_edge"];
     ["intent_analyzer"; "chart_type_selector"];
     ["intent_analyzer"; "chart_type_selector"; "generate_analytic"]].
Proof.
  rewrite analyze_unfold.
  destruct (intent_analyzer_calls w (Api.question request)) as [r ->].
  destruct r as [u|e]; [|by apply elem_of_cons; left].
  cbv zeta.
  destruct (conditional_router _) as [next|e]; [|by apply elem_of_cons; left].
  case_bool_decide as Hknown; [|by apply elem_of_cons; left].
  unfold known_nodes in Hknown. rewrite !elem_of_cons, elem_of_nil in Hknown.
  destruct Hknown as [->|[->|[->|[]]]].
  - rewrite run_highlight_eq.
    destruct (get_graph_data_returns w
                (apply_update (asking (Api.question request)) u)
                ["intent_analyzer"]) as [g ->].
    pose proof (select_edge_calls w
                  (apply_update (apply_update (asking (Api.question request)) u)
                     (with_graph_data g)) ["intent_analyzer"]) as Hcalls.
    destruct (runM (select_edge _ _) _) as [[u2|e] log2]; cbn in Hcalls;
      try destruct (Api.respond _); cbn;
      destruct Hcalls as [->| ->]; rewrite !elem_of_cons; auto.
  - rewrite run_analysis_eq.
    destruct (get_bus_data_returns w
                (apply_update (asking (Api.question request)) u)
                ["intent_analyzer"]) as (t & c & ->).
    cbv zeta.
    pose proof (chart_type_selector_calls w
                  (apply_update (apply_update (asking (Api.question request)) u)
                     (with_bus_data t c)) ["intent_analyzer"]) as Hcalls.
    destruct (runM (chart_type_selector _ _) _) as [[u2|e] log2] eqn:Hsel;
      cbn in Hcalls.
    2:{ cbn. destruct Hcalls as [->| ->]; rewrite !elem_of_cons; auto. }
    apply chart_type_selector_silent in Hsel. subst log2.
    pose proof (generate_analytic_calls w
                  (apply_update
                     (apply_update
                        (apply_update (asking (Api.question request)) u)
                        (with_bus_data t c)) u2)
                  (["intent_analyzer"] ++ ["chart_type_selector"])) as Hgen.
    destruct (runM (generate_analytic _ _) _) as [[u3|e] log3]; cbn in Hgen;
      try destruct (Api.respond _); cbn;
      destruct Hgen as [->| ->]; rewrite !elem_of_cons; auto.
  - rewrite run_fallback_eq.
    rewrite fallback_response_returns.
    destruct (Api.respond _); by apply elem_of_cons; left.
Qed.

End Runs.

Section Shapes.
Import Text Py Agent Spec Facts.


Lemma mapM_result_Forall2 {A B} (f : A → result B) l bs :
  mapM_result f l = Ok bs → Forall2 (λ a b, f a = Ok b) l bs.
Proof.
  revert bs. induction l as [|a l IH]; intros bs; cbn.
  - intros Hbs. injection Hbs as <-. constructor.
  - destruct (f a) as [b|] eqn:Hb; cbn; [|done].
    destruct (mapM_result f l) as [bs'|]; cbn; [|done].
    intros Hbs. injection Hbs as <-. constructor; [done|by apply IH].
Qed.

Lemma converts_mapM_result {A B} (f : A → result B) l bs :
  converts f l bs → mapM_result f l = Ok bs.
Proof.
  induction 1 as [|a b l bs Hab _ IH]; cbn; [done|]. by rewrite Hab, IH.
Qed.

Lemma first_failure_mapM_result {A B} (f : A → result B) l e :
  first_failure f l e → mapM_result f l = Raise e.
Proof.
  intros (before & a & after & bs & -> & Hbefore & Ha).
  induction Hbefore as [|a0 b0 l0 bs0 Hab _ IH]; cbn.
  - by rewrite Ha.
  - by rewrite Hab, IH.
Qed.

(** [get_graph_data], step by step. *)
Lemma get_graph_data_unfold w st log :
  runM (get_graph_data w st) log =
    (Ok (with_graph_data
           match graph_file w with
           | Raise e => error_record e
           | Ok raw =>
               match items raw "nodes" with
               | Raise e => error_record e
               | Ok rawNodes =>
                   match mapM_result graph_node rawNodes with
                   | Raise e => error_record e
                   | Ok nodes =>
                       match items raw "edges" with
                       | Raise e => error_record e
                       | Ok rawEdges =>
                           match mapM_result graph_edge rawEdges with
                           | Raise e => error_record e
                           | Ok edges => summary_of nodes edges
                           end
                       end
                   end
               end
           end), log).
Proof.
  unfold get_graph_data, lift, items. cbn.
  destruct (graph_file w) as [raw|]; cbn; [|done].
  destruct (dict_get raw "nodes" _) as [ns|]; cbn; [|done].
  destruct (iterate ns) as [rawNodes|]; cbn; [|done].
  destruct (mapM_result graph_node rawNodes) as [nodes|]; cbn; [|done].
  destruct (dict_get raw "edges" _) as [es|]; cbn; [|done].
  destruct (iterate es) as [rawEdges|]; cbn; [|done].
  by destruct (mapM_result graph_edge rawEdges) as [edges|].
Qed.

(** X3.  [get_graph_data] never raises and calls no model, and what it
    leaves in [graph_data] is all or nothing.  When the file cannot be
    read, when its [nodes] or [edges] cannot be gone through, or when a
    node or an edge cannot be converted, [graph_data] is [{error: str(e)}]
    for the error of that step alone (for a list, of its first item that
    fails), the nodes included that had been converted.  Only when every
    node and every edge converts is it the summary of them all, with
    counts that are the lengths of the two lists. *)
Theorem get_graph_data_all_or_nothing w st log :
  (∀ e, graph_file w = Raise e →
     runM (get_graph_data w st) log
     = (Ok (with_graph_data (error_record e)), log))
  ∧ (∀ raw e, graph_file w = Ok raw → items raw "nodes" = Raise e →
       runM (get_graph_data w st) log
       = (Ok (with_graph_data (error_record e)), log))
  ∧ (∀ raw rawNodes e,
       graph_file w = Ok raw → items raw "nodes" = Ok rawNodes →
       first_failure graph_node rawNodes e →
       runM (get_graph_data w st) log
       = (Ok (with_graph_data (error_record e)), log))
  ∧ (∀ raw rawNodes nodes e,
       graph_file w = Ok raw → items raw "nodes" = Ok rawNodes →
       converts graph_node rawNodes nodes →
       items raw "edges" = Raise e →
       runM (get_graph_data w st) log
       = (Ok (with_graph_data (error_record e)), log))
  ∧ (∀ raw rawNodes nodes rawEdges e,
       graph_file w = Ok raw → items raw "nodes" = Ok rawNodes →
       converts graph_node rawNodes nodes →
       items raw "edges" = Ok rawEdges →
       first_failure graph_edge rawEdges e →
       runM (get_graph_data w st) log
       = (Ok (with_graph_data (error_record e)), log))
  ∧ (∀ raw rawNodes nodes rawEdges edges,
       graph_file w = Ok raw → items raw "nodes" = Ok rawNodes →
       converts graph_node rawNodes nodes →
       items raw "edges" = Ok rawEdges →
       converts graph_edge rawEdges edges →
       runM (get_graph_data w st) log
       = (Ok (with_graph_data (summary_of nodes edges)), log)).
Proof.
  rewrite get_graph_data_unfold. repeat split.
  - by intros e ->.
  - by intros raw e -> ->.
  - intros raw rawNodes e -> -> Hfail.
    by rewrite (first_failure_mapM_result _ _ _ Hfail).
  - intros raw rawNodes nodes e -> -> Hnodes ->.
    by rewrite (converts_mapM_result _ _ _ Hnodes).
  - intros raw rawNodes nodes rawEdges e -> -> Hnodes -> Hfail.
    by rewrite (converts_mapM_result _ _ _ Hnodes),
         (first_failure_mapM_result _ _ _ Hfail).
  - intros raw rawNodes nodes rawEdges edges -> -> Hnodes -> Hedges.
    by rewrite (converts_mapM_result _ _ _ Hnodes),
         (converts_mapM_result _ _ _ Hedges).
Qed.

(** X3, witness: a file that cannot be read; and a file whose second node
    has no type, after a first that converts. *)
Lemma get_graph_data_all_or_nothing_witness :
  runM (get_graph_data silent (asking "가장 포화가 많은 노선은?")) []
  = (Ok (with_graph_data (error_record no_file)), [])
  ∧ runM (get_graph_data (world_of untyped_data)
            (asking "가장 포화가 많은 노선은?")) []
    = (Ok (with_graph_data (error_record (Exn KeyError "'type'"))), []).
Proof.
  split.
  - apply (proj1 (get_graph_data_all_or_nothing silent _ [])). reflexivity.
  - destruct (get_graph_data_all_or_nothing (world_of untyped_data)
                (asking "가장 포화가 많은 노선은?") [])
      as (_ & _ & Hnode & _).
    apply (Hnode (document untyped_data)
             (node_json <$> Frontend.RouteGraphData.nodes untyped_data)).
    + reflexivity.
    + reflexivity.
    + exists [node_json (stop "출근1호::1" "출근1호" "승차" 1)],
        (node_json (untyped "출근1호::2")), [],
        [node_summary (stop "출근1호::1" "출근1호" "승차" 1)].
      split; [reflexivity|]. split; [|reflexivity].
      constructor; [reflexivity|constructor].
Defined.

(** What [get_graph_data] leaves in the state is a dict. *)
Lemma get_graph_data_dict w st log :
  ∃ kv, runM (get_graph_data w st) log = (Ok (with_graph_data (JObj kv)), log).
Proof.
  unfold get_graph_data, lift. cbn.
  destruct (graph_file w) as [raw|]; cbn; [|by eexists].
  destruct (dict_get raw "nodes" _) as [ns|]; cbn; [|by eexists].
  destruct (iterate ns) as [ns'|]; cbn; [|by eexists].
  destruct (mapM_result graph_node ns'); cbn; [|by eexists].
  destruct (dict_get raw "edges" _) as [es|]; cbn; [|by eexists].
  destruct (iterate es) as [es'|]; cbn; [|by eexists].
  destruct (mapM_result graph_edge es'); cbn; by eexists.
Qed.

(** X4.  [get_bus_data] never raises and calls no model.  When both files load,
    both data sets go into the state as read; when either file fails, both
    are the empty list (the text [[]] in the source), the one that had
    loaded too. *)
Theorem get_bus_data_all_or_nothing w st log :
  (∀ t c, transport_file w = Ok t → commute_file w = Ok c →
     runM (get_bus_data w st) log = (Ok (with_bus_data t c), log))
  ∧ ((∃ e, transport_file w = Raise e) ∨ (∃ e, commute_file w = Raise e) →
     runM (get_bus_data w st) log = (Ok (with_bus_data (JArr []) (JArr [])), log)).
Proof.
  unfold get_bus_data, lift. cbn. split.
  - intros t c -> ->. done.
  - intros [[e ->]|[e ->]]; cbn; [done|].
    by destruct (transport_file w).
Qed.

(** X4, witness: both files read; and none. *)
Lemma get_bus_data_all_or_nothing_witness :
  runM (get_bus_data summary_world (asking "야간 수당 분석 결과 요약해줘")) []
  = (Ok (with_bus_data (JArr []) (JArr [])), [])
  ∧ runM (get_bus_data silent (asking "야간 수당 분석 결과 요약해줘")) []
    = (Ok (with_bus_data (JArr []) (JArr [])), []).
Proof.
  split.
  - apply (proj1 (get_bus_data_all_or_nothing summary_world _ [])); reflexivity.
  - apply (proj2 (get_bus_data_all_or_nothing silent _ [])).
    left. exists no_file. reflexivity.
Defined.


(** X5.  Valid JSON of the wrong shape is not taken for [fallback]: when the
    reply of the classifier decodes to anything but an object,
    [intent_analyzer] raises [AttributeError]; when it is an object whose
    [confidence] is a string, the log line raises [ValueError].  The model
    has been called once in both cases. *)
Theorem intent_analyzer_rejects_shapes w st text log :
  messages st ≠ [] →
  llm_intent w = Ok text →
  (∀ v, json_loads w (py_strip text) = Decoded v → not_an_object v →
     ∃ msg, runM (intent_analyzer w st) log
            = (Raise (Exn AttributeError msg), log ++ ["intent_analyzer"]))
  ∧ (∀ kv s, json_loads w (py_strip text) = Decoded (JObj kv) →
       assoc "confidence" kv = Some (JStr s) →
       ∃ msg, runM (intent_analyzer w st) log
              = (Raise (Exn ValueError msg), log ++ ["intent_analyzer"])).
Proof.
  intros Hne Hreply.
  destruct (last_message_Ok st Hne) as [m Hm].
  split.
  - intros v Hjson Hv. unfold intent_analyzer. cbn.
    rewrite Hm. cbn. rewrite Hreply. cbn. rewrite Hjson.
    destruct v; cbn; try done; by eexists.
  - intros kv s Hjson Hconf. unfold intent_analyzer. cbn.
    rewrite Hm. cbn. rewrite Hreply. cbn. rewrite Hjson. cbn.
    rewrite Hconf. cbn. by eexists.
Qed.

(** X5, witness: a reply that is a JSON list, and a confidence in words. *)
Lemma intent_analyzer_rejects_shapes_witness :
  (∃ msg, runM (intent_analyzer (classifier_world "[]" (JArr []))
                  (asking "가장 포화가 많은 노선은?")) []
          = (Raise (Exn AttributeError msg), ["intent_analyzer"]))
  ∧ (∃ msg, runM (intent_analyzer
                    (classifier_world worded_text (JObj worded_items))
                    (asking "가장 포화가 많은 노선은?")) []
            = (Raise (Exn ValueError msg), ["intent_analyzer"])).
Proof.
  split.
  - destruct (intent_analyzer_rejects_shapes (classifier_world "[]" (JArr []))
                (asking "가장 포화가 많은 노선은?") "[]" [])
      as [Hshape _]; [discriminate|reflexivity|].
    apply (Hshape (JArr [])); [vm_compute; reflexivity|exact I].
  - destruct (intent_analyzer_rejects_shapes
                (classifier_world worded_text (JObj worded_items))
                (asking "가장 포화가 많은 노선은?") worded_text [])
      as [_ Hconfidence]; [discriminate|reflexivity|].
    apply (Hconfidence worded_items "high"); vm_compute; reflexivity.
Defined.


(** X6.  [conditional_router] raises exactly when the state holds a list or a
    dict as [intent_type], and what it raises then is a [TypeError]. *)
Theorem conditional_router_raises_on_containers st :
  ((∃ e, conditional_router st = Raise e)
   ↔ (∃ v, intent_type st = Some v ∧ ¬ is_label v))
  ∧ (∀ e, conditional_router st = Raise e → exn_cls e = TypeError).
Proof.
  split; [split|].
  - intros [e He]. destruct (intent_type st) as [v|] eqn:Hv.
    + exists v. split; [done|]. intros Hlabel.
      rewrite conditional_router_label in He; [done|].
      intros v' Hv'. rewrite Hv in Hv'. by injection Hv' as <-.
    + rewrite conditional_router_label in He; [done|].
      intros v' Hv'. by rewrite Hv in Hv'.
  - intros (v & Hv & Hnot). unfold conditional_router. rewrite Hv. cbn.
    destruct v; cbn in *; try (exfalso; by apply Hnot); by eexists.
  - intros e. unfold conditional_router.
    destruct (default (JStr "fallback") (intent_type st)); cbn; try done;
      intros He; by injection He as <-.
Qed.

(** X6, witness: an intent that is a list. *)
Lemma conditional_router_raises_on_containers_witness :
  ∃ e, conditional_router (with_intent (JArr [])) = Raise e.
Proof.
  apply (proj2 (proj1 (conditional_router_raises_on_containers
                        (with_intent (JArr []))))).
  exists (JArr []). split; [reflexivity|]. intros Hlabel. exact Hlabel.
Defined.


Lemma select_edge_object w st text kv h r log :
  messages st ≠ [] →
  (∀ g, graph_data st = Some g → ∃ gkv, g = JObj gkv) →
  llm_edge w = Ok text →
  json_loads w text = Decoded (JObj kv) →
  assoc "highlight" kv = Some h →
  assoc "reason" kv = Some r →
  runM (select_edge w st) log
  = (Ok (with_highlight (response_message st text) h r), log ++ ["select_edge"]).
Proof.
  intros Hne Hgraph Hreply Hjson Hh Hr.
  destruct (last_message_Ok st Hne) as [m Hm].
  assert (∃ edges, dict_get (default (JObj []) (graph_data st)) "edges" (JArr [])
                   = Ok edges) as [edges Hedges].
  { destruct (graph_data st) as [g|]; cbn; [|by eexists].
    destruct (Hgraph g eq_refl) as [gkv ->]. by eexists. }
  unfold select_edge. cbn. rewrite Hm. cbn. rewrite Hedges. cbn.
  rewrite Hreply. cbn. unfold loads. rewrite Hjson. cbn.
  by rewrite Hh, Hr.
Qed.

(** X7.  [select_edge] takes the reply of the model as it is: a reply that
    decodes to anything but an object raises [TypeError], an object without
    [highlight] raises [KeyError] for that key, an object with [highlight]
    and without [reason] raises [KeyError] for [reason].  The model has
    been called once in each case. *)
Theorem select_edge_rejects_shapes w st text log :
  messages st ≠ [] →
  (∀ g, graph_data st = Some g → ∃ gkv, g = JObj gkv) →
  llm_edge w = Ok text →
  (∀ v, json_loads w text = Decoded v → not_an_object v →
     ∃ msg, runM (select_edge w st) log
            = (Raise (Exn TypeError msg), log ++ ["select_edge"]))
  ∧ (∀ kv, json_loads w text = Decoded (JObj kv) →
       assoc "highlight" kv = None →
       runM (select_edge w st) log
       = (Raise (Exn KeyError "'highlight'"), log ++ ["select_edge"]))
  ∧ (∀ kv h, json_loads w text = Decoded (JObj kv) →
       assoc "highlight" kv = Some h →
       assoc "reason" kv = None →
       runM (select_edge w st) log
       = (Raise (Exn KeyError "'reason'"), log ++ ["select_edge"])).
Proof.
  intros Hne Hgraph Hreply.
  destruct (last_message_Ok st Hne) as [m Hm].
  assert (∃ edges, dict_get (default (JObj []) (graph_data st)) "edges" (JArr [])
                   = Ok edges) as [edges Hedges].
  { destruct (graph_data st) as [g|]; cbn; [|by eexists].
    destruct (Hgraph g eq_refl) as [gkv ->]. by eexists. }
  split; [|split].
  - intros v Hjson Hv. unfold select_edge. cbn. rewrite Hm. cbn.
    rewrite Hedges. cbn. rewrite Hreply. cbn. unfold loads. rewrite Hjson.
    destruct v; cbn; try done; by eexists.
  - intros kv Hjson Hh. unfold select_edge. cbn. rewrite Hm. cbn.
    rewrite Hedges. cbn. rewrite Hreply. cbn. unfold loads. rewrite Hjson.
    cbn. by rewrite Hh.
  - intros kv h Hjson Hh Hr. unfold select_edge. cbn. rewrite Hm. cbn.
    rewrite Hedges. cbn. rewrite Hreply. cbn. unfold loads. rewrite Hjson.
    cbn. by rewrite Hh, Hr.
Qed.

(** X7, witness: a reply that is a JSON list, and one without an edge. *)
Lemma select_edge_rejects_shapes_witness :
  (∃ msg, runM (select_edge (selector_world "[]" (JArr [])) one_edge_state) []
          = (Raise (Exn TypeError msg), ["select_edge"]))
  ∧ runM (select_edge (selector_world reason_only_text (JObj reason_only_items))
            one_edge_state) []
    = (Raise (Exn KeyError "'highlight'"), ["select_edge"]).
Proof.
  split.
  - destruct (select_edge_rejects_shapes (selector_world "[]" (JArr []))
                one_edge_state "[]" [])
      as (Hshape & _ & _);
      [discriminate
      |intros g Hg; injection Hg as <-; eexists; reflexivity
      |reflexivity|].
    apply (Hshape (JArr [])); [vm_compute; reflexivity|exact I].
  - destruct (select_edge_rejects_shapes
                (selector_world reason_only_text (JObj reason_only_items))
                one_edge_state reason_only_text [])
      as (_ & Hedge & _);
      [discriminate
      |intros g Hg; injection Hg as <-; eexists; reflexivity
      |reflexivity|].
    apply (Hedge reason_only_items); vm_compute; reflexivity.
Defined.


Lemma analyze_classified w request intent :
  classified w intent →
  Api.analyze w request =
    let st := apply_update (asking (Api.question request)) (with_intent intent) in
    match conditional_router st with
    | Raise e => (Api.HTTPException 500 (exn_str e), ["intent_analyzer"])
    | Ok next =>
        if bool_decide (next ∈ known_nodes)
        then
          match runM (run get_analytics_graph w 24 next st) ["intent_analyzer"] with
          | (Raise e, log') => (Api.HTTPException 500 (exn_str e), log')
          | (Ok final, log') =>
              match Api.respond final with
              | Ok response_data => (Api.Returns response_data, log')
              | Raise e => (Api.HTTPException 500 (exn_str e), log')
              end
          end
        else (Api.HTTPException 500 ("'" +:+ next +:+ "'"), ["intent_analyzer"])
    end.
Proof.
  intros (text & kv & Hreply & Hjson & Hconf & Hintent).
  rewrite analyze_unfold.
  erewrite intent_analyzer_object; [|done..].
  by rewrite Hintent.
Qed.

(** X8.  The highlight path, end to end.  When the classifier says
    [find_highlight], with a confidence the log line can print (none, a
    float, a boolean, or an integer within the range of a float), and the
    selector answers with an object whose
    [highlight] is an object and whose [reason] is a string, [analyze]
    returns exactly that edge and that reason, with no chart fields, after
    two calls of the model; and it does so whatever the graph file holds,
    also when the file cannot be read. *)
Theorem analyze_find_highlight w request text kv h r :
  classified w (JStr "find_highlight") →
  llm_edge w = Ok text →
  json_loads w text = Decoded (JObj kv) →
  assoc "highlight" kv = Some (JObj h) →
  assoc "reason" kv = Some (JStr r) →
  Api.analyze w request
  = (Api.Returns (highlight_envelope h r), ["intent_analyzer"; "select_edge"]).
Proof.
  intros Hclass Hreply Hjson Hh Hr.
  rewrite (analyze_classified _ _ _ Hclass). cbv zeta.
  rewrite conditional_router_label; [|by intros ? [= <-]].
  cbn [mapped_node intent_type apply_update asking with_intent or_else].
  rewrite decide_True by done.
  rewrite bool_decide_eq_true_2
    by (unfold known_nodes; rewrite !elem_of_cons; tauto).
  rewrite run_highlight_eq.
  destruct (get_graph_data_dict w
              (apply_update (asking (Api.question request))
                 (with_intent (JStr "find_highlight")))
              ["intent_analyzer"]) as [g ->].
  erewrite select_edge_object; [|try done..].
  - reflexivity.
  - cbn. intros g' Hg. injection Hg as <-. by eexists.
Qed.

(** X8, witness: the model names an edge; the graph file is missing. *)
Lemma analyze_find_highlight_witness :
  Api.analyze highlight_world {| Api.question := "가장 포화가 많은 노선은?" |}
  = (Api.Returns
       (highlight_envelope (object_items phantom_edge) "가장 붐비는 구간입니다."),
     ["intent_analyzer"; "select_edge"]).
Proof.
  apply (analyze_find_highlight highlight_world _ phantom_text phantom_value).
  - exists (object_text [("intent", "find_highlight")]),
      (object_items [("intent", "find_highlight")]).
    repeat split; vm_compute; reflexivity.
  - reflexivity.
  - vm_compute. reflexivity.
  - vm_compute. reflexivity.
  - vm_compute. reflexivity.
Defined.


Local Opaque py_strip fallback_message.

(** X9.  The analysis path, end to end.  When the classifier says [analysis],
    with a confidence the log line can print (none, a float, a boolean, or
    an integer within the range of a float), the selector names one of the four chart types (white space around it
    is dropped) and the generator answers with an object whose [chart_data]
    is an object or null and whose [reason] is a string, [analyze] returns
    that chart type, that data and that reason, with no edge, after three
    calls of the model; the two data files play no part in it. *)
Theorem analyze_analysis w request reply text kv c d r :
  classified w (JStr "analysis") →
  llm_chart w = Ok reply →
  py_strip reply ∈ output_formats →
  llm_analytic w = Ok text →
  json_loads w text = Decoded (JObj kv) →
  assoc "chart_data" kv = Some c →
  Api.as_optional_dict (Some c) = Ok d →
  assoc "reason" kv = Some (JStr r) →
  Api.analyze w request
  = (Api.Returns (analysis_envelope (py_strip reply) d r),
     ["intent_analyzer"; "chart_type_selector"; "generate_analytic"]).
Proof.
  intros Hclass Hchart Hin Hreply Hjson Hc Hd Hr.
  rewrite (analyze_classified _ _ _ Hclass). cbv zeta.
  rewrite conditional_router_label; [|by intros ? [= <-]].
  cbn [mapped_node intent_type apply_update asking with_intent or_else].
  rewrite decide_False by done. rewrite decide_True by done.
  rewrite bool_decide_eq_true_2
    by (unfold known_nodes; rewrite !elem_of_cons; tauto).
  rewrite run_analysis_eq.
  destruct (get_bus_data_returns w
              (apply_update (asking (Api.question request))
                 (with_intent (JStr "analysis")))
              ["intent_analyzer"]) as (t & c0 & ->).
  cbv zeta. unfold chart_type_selector. cbn. rewrite Hchart. cbn.
  unfold output_format. rewrite (bool_decide_eq_true_2 _ Hin). cbn.
  rewrite Hreply. cbn. unfold loads. rewrite Hjson. cbn.
  rewrite Hc, Hr. cbn.
  unfold Api.respond. cbn. cbn in Hd. by rewrite Hd.
Qed.

(** X9, witness: the request for a summary. *)
Lemma analyze_analysis_witness :
  Api.analyze summary_world summary_request
  = (Api.Returns
       (analysis_envelope "text_summary" None "야간 수당은 노선마다 같습니다."),
     ["intent_analyzer"; "chart_type_selector"; "generate_analytic"]).
Proof.
  assert (py_strip "text_summary" = "text_summary") as Hstrip
    by (vm_compute; reflexivity).
  rewrite <- Hstrip at 1.
  apply (analyze_analysis summary_world summary_request "text_summary"
           summary_text
           [("chart_data", JNull); ("reason", JStr "야간 수당은 노선마다 같습니다.")]
           JNull None "야간 수당은 노선마다 같습니다.").
  - exists (object_text [("intent", "analysis")]),
      (object_items [("intent", "analysis")]).
    repeat split; vm_compute; reflexivity.
  - reflexivity.
  - rewrite Hstrip. unfold output_formats. rewrite !elem_of_cons. auto.
  - reflexivity.
  - vm_compute. reflexivity.
  - vm_compute. reflexivity.
  - vm_compute. reflexivity.
  - vm_compute. reflexivity.
Defined.


(** X10.  Every other label, end to end.  When the classifier names an intent
    that is neither [find_highlight] nor [analysis], with a confidence the
    log line can print (none, a float, a boolean, or an integer within the
    range of a float), [analyze] returns the
    fallback narrative under that very label (it is not rewritten to
    [fallback]), after the one call of the classifier. *)
Theorem analyze_other_label w request s :
  classified w (JStr s) →
  s ≠ "find_highlight" → s ≠ "analysis" →
  Api.analyze w request
  = (Api.Returns (fallback_envelope s), ["intent_analyzer"]).
Proof.
  intros Hclass Hfind Hanalysis.
  rewrite (analyze_classified _ _ _ Hclass). cbv zeta.
  rewrite conditional_router_label; [|by intros ? [= <-]].
  cbn [mapped_node intent_type apply_update asking with_intent or_else].
  rewrite !decide_False by done.
  rewrite bool_decide_eq_true_2
    by (unfold known_nodes; rewrite !elem_of_cons; tauto).
  rewrite run_fallback_eq, fallback_response_returns.
  reflexivity.
Qed.

(** X10, witness: a greeting. *)
Lemma analyze_other_label_witness :
  Api.analyze greeting_world {| Api.question := "안녕하세요" |}
  = (Api.Returns (fallback_envelope "greeting"), ["intent_analyzer"]).
Proof.
  apply (analyze_other_label greeting_world _ "greeting").
  - exists (object_text greeting_reply), (object_items greeting_reply).
    repeat split; vm_compute; reflexivity.
  - discriminate.
  - discriminate.
Defined.


(** What [intent_analyzer] does with a reply that is an object: the log
    line decides. *)
Lemma intent_analyzer_names w st text kv log :
  messages st ≠ [] →
  llm_intent w = Ok text →
  json_loads w (py_strip text) = Decoded (JObj kv) →
  runM (intent_analyzer w st) log =
    match format_2f (default (JFloat 0) (assoc "confidence" kv)) with
    | Ok _ =>
        (Ok (with_intent (default (JStr "fallback") (assoc "intent" kv))),
         log ++ ["intent_analyzer"])
    | Raise e => (Raise e, log ++ ["intent_analyzer"])
    end.
Proof.
  intros Hne Hreply Hjson.
  destruct (last_message_Ok st Hne) as [m Hm].
  unfold intent_analyzer. cbn.
  rewrite Hm. cbn. rewrite Hreply. cbn. rewrite Hjson. cbn.
  by destruct (format_2f _).
Qed.

(** X11.  An intent that is no string never gives an envelope.  When the
    object of the classifier holds a null, a number, a boolean, a list or
    an object as [intent], [analyze] raises the error of status 500 after
    the one call of the classifier, whatever else the object holds. *)
Theorem analyze_intent_not_a_string w request intent :
  names_intent w intent →
  (∀ s, intent ≠ JStr s) →
  ∃ detail,
    Api.analyze w request = (Api.HTTPException 500 detail, ["intent_analyzer"]).
Proof.
  intros (text & kv & Hreply & Hjson & Hintent) Hnot.
  rewrite analyze_unfold.
  erewrite intent_analyzer_names; [|done..].
  destruct (format_2f _); [|by eexists].
  rewrite Hintent. cbv zeta.
  destruct intent as [| | | |s| |]; try (by destruct (Hnot s));
    try (cbn; by eexists);
    (rewrite conditional_router_label; [|by intros ? [= <-]]);
    cbn [mapped_node intent_type apply_update asking with_intent or_else];
    (rewrite bool_decide_eq_true_2
       by (unfold known_nodes; rewrite !elem_of_cons; tauto));
    rewrite run_fallback_eq, fallback_response_returns; by eexists.
Qed.

(** X11, witness: the classifier answers with a null intent. *)
Lemma analyze_intent_not_a_string_witness :
  ∃ detail,
    Api.analyze (classifier_world null_intent_text (JObj null_intent_items))
      {| Api.question := "가장 포화가 많은 노선은?" |}
    = (Api.HTTPException 500 detail, ["intent_analyzer"]).
Proof.
  apply (analyze_intent_not_a_string _ _ JNull).
  - exists null_intent_text, null_intent_items.
    repeat split; vm_compute; reflexivity.
  - discriminate.
Defined.


End Shapes.

(** ** The panel and the endpoint *)

Section PanelSends.
Import Text Frontend Spec PanelFacts.

Lemma handleSend_guard fetch onHighlightEdge now later p :
  js_trim (input p) = EmptyString ∨ loading p = true →
  handleSend fetch onHighlightEdge now later p = (p, nothing_done).
Proof.
  intros [Hblank|Hloading]; unfold handleSend.
  - by rewrite Hblank.
  - rewrite Hloading. by rewrite orb_true_r.
Qed.

Lemma handleSend_ready p :
  ready p →
  negb (truthy (Some (js_trim (input p)))) || loading p = false.
Proof.
  intros [Hinput ->]. rewrite orb_false_r.
  destruct (js_trim (input p)); [done|reflexivity].
Qed.

Lemma not_ready p :
  ¬ ready p → js_trim (input p) = EmptyString ∨ loading p = true.
Proof.
  intros Hnot.
  destruct (decide (js_trim (input p) = EmptyString)) as [?|Hinput]; [by left|].
  right. destruct (loading p) eqn:Hl; [done|]. by destruct Hnot.
Qed.

Lemma handleSend_answers fetch onHighlightEdge now later p :
  ready p →
  ∃ answer,
    (handleSend fetch onHighlightEdge now later p).1 = answered now p answer
    ∧ Message.role answer = "assistant"
    ∧ sent (handleSend fetch onHighlightEdge now later p).2 = [input p]
    ∧ model_calls (handleSend fetch onHighlightEdge now later p).2
      = (fetch (input p)).2.
Proof.
  intros Hready. unfold handleSend, answered, user_message.
  rewrite (handleSend_ready p Hready).
  unfold sendMessage.
  destruct (fetch (input p)) as [[response|message] calls]; cbn.
  - destruct (ok response); cbn.
    + destruct (json response) as [body|message]; cbn;
        eexists; by rewrite <- app_assoc.
    + eexists; by rewrite <- app_assoc.
  - eexists; by rewrite <- app_assoc.
Qed.

(** X12.  What [handleSend] does.  When the input is blank or an answer is
    awaited, nothing happens.  Otherwise it sends the input once, as typed
    (not trimmed), and whatever becomes of the request, the panel ends with
    the message of the user and one message of the assistant appended, the
    input cleared and [loading] off. *)
Theorem handleSend_sends_once fetch onHighlightEdge now later p :
  (¬ ready p → handleSend fetch onHighlightEdge now later p = (p, nothing_done))
  ∧ (ready p →
     ∃ answer,
       (handleSend fetch onHighlightEdge now later p).1 = answered now p answer
       ∧ Message.role answer = "assistant"
       ∧ sent (handleSend fetch onHighlightEdge now later p).2 = [input p]
       ∧ model_calls (handleSend fetch onHighlightEdge now later p).2
         = (fetch (input p)).2).
Proof.
  split.
  - intros Hnot. apply handleSend_guard. by apply not_ready.
  - apply handleSend_answers.
Qed.

(** X12, witness: blanks are not sent; a greeting is, once. *)
Lemma handleSend_sends_once_witness :
  handleSend (backend prose_world) true 1700000000000 1700000000800 (typed "   ")
  = (typed "   ", nothing_done)
  ∧ ∃ answer,
      (handleSend (backend prose_world) true 1700000000000 1700000000800
         (typed "안녕하세요")).1
      = answered 1700000000000 (typed "안녕하세요") answer
      ∧ Message.role answer = "assistant"
      ∧ sent (handleSend (backend prose_world) true 1700000000000 1700000000800
                (typed "안녕하세요")).2 = ["안녕하세요"]
      ∧ model_calls
          (handleSend (backend prose_world) true 1700000000000 1700000000800
             (typed "안녕하세요")).2
        = (backend prose_world "안녕하세요").2.
Proof.
  split.
  - apply (proj1 (handleSend_sends_once (backend prose_world) true
                    1700000000000 1700000000800 (typed "   "))).
    intros [Hinput _]. apply Hinput. vm_compute. reflexivity.
  - apply (proj2 (handleSend_sends_once (backend prose_world) true
                    1700000000000 1700000000800 (typed "안녕하세요"))).
    split; [vm_compute; discriminate|reflexivity].
Defined.


(** X13.  A key press sends a question exactly when the key is Enter, the input
    is not blank and no answer is awaited. *)
Theorem handleKeyDown_sends fetch onHighlightEdge now later key p :
  sent (Screen.handleKeyDown fetch onHighlightEdge now later key p).2 ≠ []
  ↔ key = "Enter" ∧ ready p.
Proof.
  unfold Screen.handleKeyDown.
  destruct (String.eqb key "Enter") eqn:Hkey; cbn.
  - apply String.eqb_eq in Hkey as ->.
    destruct (decide (ready p)) as [Hready|Hnot].
    + destruct Hready as [Hinput Hloading]. rewrite Hloading. cbn.
      destruct (handleSend_answers fetch onHighlightEdge now later p
                  (conj Hinput Hloading)) as (answer & _ & _ & -> & _).
      split; [done|]. by intros _.
    + split; [|by intros [_ ?]]. intros Hsent. exfalso. apply Hsent.
      destruct (loading p); [done|]. cbn.
      rewrite handleSend_guard; [done|]. by apply not_ready.
  - apply String.eqb_neq in Hkey. split; [done|]. by intros [? _].
Qed.

(** X13, witness: Enter on a question. *)
Lemma handleKeyDown_sends_witness :
  sent (Screen.handleKeyDown (backend prose_world) true 1700000000000
          1700000000800 "Enter" (typed "안녕하세요")).2 ≠ [].
Proof.
  apply (proj2 (handleKeyDown_sends (backend prose_world) true 1700000000000
                  1700000000800 "Enter" (typed "안녕하세요"))).
  split; [reflexivity|]. split; [vm_compute; discriminate|reflexivity].
Defined.


(** The fields that decide how an envelope is drawn. *)
Lemma analyze_envelope_shape w request env calls :
  Api.analyze w request = (Api.Returns env, calls) →
  (Api.intent_type env = "find_highlight" ∧ Api.chart_type env = None)
  ∨ (Api.intent_type env = "analysis" ∧ Api.highlight_edge env = None
     ∧ ∃ t, Api.chart_type env = Some t ∧ t ∈ Agent.output_formats)
  ∨ (Api.intent_type env ≠ "find_highlight" ∧ Api.intent_type env ≠ "analysis"
     ∧ Api.highlight_edge env = None ∧ Api.chart_type env = None).
Proof.
  rewrite analyze_unfold.
  destruct (Agent.runM (Agent.intent_analyzer _ _) _) as [[u|e] log] eqn:Hclassify;
    [|done].
  apply intent_analyzer_returns in Hclassify as (intent & -> & ->).
  cbv zeta.
  destruct (Agent.conditional_router _) as [next|e] eqn:Hroute; [|done].
  apply conditional_router_Ok in Hroute. cbn in Hroute.
  case_bool_decide as Hknown; [|done]. clear Hknown.
  destruct (Agent.runM (Agent.run _ _ _ _ _) _) as [[final|e] log'] eqn:Hrun;
    [|done].
  destruct (Api.respond final) as [env'|e] eqn:Henv; [|done].
  intros Hret. injection Hret as -> ->.
  apply respond_Ok in Henv as (Hintent & Hedge & Hdata & Hresult & Htype).
  destruct intent as [| | | |s| |];
    try (subst next; rewrite run_fallback_response in Hrun;
         injection Hrun as <- <-; cbn in Hintent; discriminate Hintent).
  repeat case_decide; subst.
  - apply (highlight_path_returns _ _ 22) in Hrun as (Hi & Ht & _).
    rewrite Hi in Hintent. injection Hintent as Hintent.
    rewrite Ht in Htype. cbn in Htype. left. done.
  - apply (analysis_path_returns _ _ 21) in Hrun
      as (Hi & He & _ & reply & text & kv & c & r & Hchart & Ht & Hin & _).
    rewrite Hi in Hintent. injection Hintent as Hintent.
    rewrite He in Hedge. injection Hedge as Hedge.
    right. left. repeat split; try done.
    exists (Text.py_strip reply). split; [congruence|done].
  - rewrite run_fallback_response in Hrun. injection Hrun as <- <-.
    cbn in *. injection Hintent as Hintent. injection Hedge as Hedge.
    right. right. subst. done.
Qed.

Lemma handleSend_backend w onHighlightEdge now later p :
  ready p →
  handleSend (backend w) onHighlightEdge now later p =
    match Api.analyze w {| Api.question := input p |} with
    | (Api.Returns env, calls) =>
        (answered now p (answer_message later env),
         {| sent := [input p]; model_calls := calls;
            highlighted :=
              match Api.highlight_edge env with
              | Some edge =>
                  if String.eqb (Api.intent_type env) "find_highlight"
                     && onHighlightEdge
                  then [edge] else []
              | None => []
              end |})
    | (Api.HTTPException _ _, calls) =>
        (answered now p (failure_message later),
         {| sent := [input p]; model_calls := calls; highlighted := [] |})
    end.
Proof.
  intros Hready. unfold handleSend.
  rewrite (handleSend_ready p Hready).
  unfold sendMessage, backend, answered, answer_message, failure_message,
    user_message.
  destruct (Api.analyze w _) as [[env|status_code detail] calls]; cbn;
    by rewrite <- app_assoc.
Qed.

(** X14.  An error of the endpoint reaches the user as one fixed text.  When
    [analyze] raises, whatever the status and the detail, the panel shows
    the message that asks to check the backend server, carries no field of
    an envelope, and hands no edge to the graph. *)
Theorem handleSend_hides_error_detail w onHighlightEdge now later p
    status_code detail calls :
  ready p →
  Api.analyze w {| Api.question := input p |}
  = (Api.HTTPException status_code detail, calls) →
  handleSend (backend w) onHighlightEdge now later p
  = (answered now p (failure_message later),
     {| sent := [input p]; model_calls := calls; highlighted := [] |}).
Proof.
  intros Hready Hraise. by rewrite handleSend_backend, Hraise.
Qed.

(** X14, witness: the classifier call runs into its timeout. *)
Lemma handleSend_hides_error_detail_witness :
  handleSend (backend timeout_world) true 1700000000000 1700000000800
    (typed "가장 포화가 많은 노선은?")
  = (answered 1700000000000 (typed "가장 포화가 많은 노선은?")
       (failure_message 1700000000800),
     {| sent := ["가장 포화가 많은 노선은?"];
        model_calls := ["intent_analyzer"]; highlighted := [] |}).
Proof.
  apply (handleSend_hides_error_detail timeout_world true 1700000000000
           1700000000800 (typed "가장 포화가 많은 노선은?") 500
           "Request timed out.").
  - split; [vm_compute; discriminate|reflexivity].
  - vm_compute. reflexivity.
Defined.


(** X15.  What reaches [onHighlightEdge].  When [analyze] returns an envelope,
    the callback, if one was given, gets the [highlight_edge] of that
    envelope and nothing else; an envelope without an edge calls nothing.
    The test of [intent_type] in [handleSend] never holds an edge back,
    since only the highlight path sets one. *)
Theorem handleSend_highlights_envelope_edge w onHighlightEdge now later p
    env calls :
  ready p →
  Api.analyze w {| Api.question := input p |} = (Api.Returns env, calls) →
  highlighted (handleSend (backend w) onHighlightEdge now later p).2
  = if onHighlightEdge then option_list (Api.highlight_edge env) else [].
Proof.
  intros Hready Hreturn. rewrite handleSend_backend, Hreturn by done. cbn.
  destruct (analyze_envelope_shape _ _ _ _ Hreturn)
    as [[-> _]|[(_ & -> & _)|(_ & _ & -> & _)]]; [|by destruct onHighlightEdge..].
  cbn. by destruct (Api.highlight_edge env), onHighlightEdge.
Qed.

(** X15, witness: the edge the model named goes to the graph. *)
Lemma handleSend_highlights_envelope_edge_witness :
  highlighted
    (handleSend (backend Facts.highlight_world) true 1700000000000
       1700000000800 (typed "가장 포화가 많은 노선은?")).2
  = [object_items phantom_edge].
Proof.
  apply (handleSend_highlights_envelope_edge Facts.highlight_world true
           1700000000000 1700000000800 (typed "가장 포화가 많은 노선은?")
           (Facts.highlight_envelope (object_items phantom_edge)
              "가장 붐비는 구간입니다.")
           ["intent_analyzer"; "select_edge"]).
  - split; [vm_compute; discriminate|reflexivity].
  - vm_compute. reflexivity.
Defined.


(** X16.  Every answer is drawn with exactly one block.  After a send to the
    endpoint, the message of the user shows as one bubble, and the message
    of the assistant shows the highlight box, or one chart renderer, or the
    plain text: never none of them and never two. *)
Theorem backend_answer_is_drawn w onHighlightEdge now later p :
  ready p →
  ∃ answer,
    (handleSend (backend w) onHighlightEdge now later p).1
    = answered now p answer
    ∧ Screen.blocks (user_message now p) = [Screen.UserBubble]
    ∧ Screen.blocks answer
      ∈ [[Screen.HighlightBox]; [Screen.PlainText];
         [Screen.Chart Screen.TextWithLineChartRenderer];
         [Screen.Chart Screen.TextWithBarChartRenderer];
         [Screen.Chart Screen.TextWithTableRenderer];
         [Screen.Chart Screen.DetailTextRenderer]].
Proof.
  intros Hready. rewrite handleSend_backend by done.
  destruct (Api.analyze w _) as [[env|status_code detail] calls] eqn:Hrun.
  2:{ exists (failure_message later). split; [done|]. split; [done|].
      apply elem_of_cons. right. apply elem_of_cons. by left. }
  exists (answer_message later env). split; [done|]. split; [done|].
  destruct (analyze_envelope_shape _ _ _ _ Hrun)
    as [[Hintent Htype]|[(Hintent & Hedge & t & Htype & Ht)
                        |(Hfind & Hanalysis & Hedge & Htype)]].
  - unfold Screen.blocks, answer_message. cbn. rewrite Hintent, Htype. cbn.
    destruct (Api.highlight_edge env); cbn.
    + apply elem_of_cons. by left.
    + apply elem_of_cons. right. apply elem_of_cons. by left.
  - unfold Screen.blocks, answer_message. cbn.
    rewrite Hintent, Hedge, Htype.
    unfold Agent.output_formats in Ht.
    rewrite !elem_of_cons, elem_of_nil in Ht.
    destruct Ht as [->|[->|[->|[->|[]]]]]; cbn;
      rewrite !elem_of_cons; auto 10.
  - unfold Screen.blocks, answer_message. cbn. rewrite Hedge, Htype. cbn.
    rewrite !bool_decide_eq_false_2 by congruence. cbn.
    apply elem_of_cons. right. apply elem_of_cons. by left.
Qed.

(** X16, witness: the answer to the request for a summary. *)
Lemma backend_answer_is_drawn_witness :
  ∃ answer,
    (handleSend (backend summary_world) true 1700000000000 1700000000800
       (typed "야간 수당 분석 결과 요약해줘")).1
    = answered 1700000000000 (typed "야간 수당 분석 결과 요약해줘") answer
    ∧ Screen.blocks (user_message 1700000000000 (typed "야간 수당 분석 결과 요약해줘"))
      = [Screen.UserBubble]
    ∧ Screen.blocks answer
      ∈ [[Screen.HighlightBox]; [Screen.PlainText];
         [Screen.Chart Screen.TextWithLineChartRenderer];
         [Screen.Chart Screen.TextWithBarChartRenderer];
         [Screen.Chart Screen.TextWithTableRenderer];
         [Screen.Chart Screen.DetailTextRenderer]].
Proof.
  apply (backend_answer_is_drawn summary_world true 1700000000000
           1700000000800 (typed "야간 수당 분석 결과 요약해줘")).
  split; [vm_compute; discriminate|reflexivity].
Defined.


End PanelSends.

(** ** Every neighbouring pair of stops *)

Section Coverage.
Import Text Py Frontend Spec.

(** Every enriched edge rides between two stops of [nodes] that have a
    parent. *)
Lemma enriched_rides (sort : Sort) nodes edges enriched :
  enriched ∈ calculateCurrentPassengers sort nodes edges →
  ∃ route,
    route ≠ EmptyString
    ∧ rides edges (sort (stops_of route nodes)) enriched.
Proof.
  unfold calculateCurrentPassengers. cbv zeta. intros Hin.
  destruct (groups_ride sort edges (routeGroups nodes) []) as (new & Hnew & Hall).
  rewrite Hnew in Hin. cbn in Hin.
  rewrite Forall_forall in Hall.
  destruct (Hall _ Hin) as ([route stops] & Hgroup & Hrides).
  destruct (routeGroups_spec nodes) as (_ & Hgroups & _).
  destruct (Hgroups _ _ Hgroup) as [Hroute ->].
  by exists route.
Qed.

Lemma sorted_stop (sort : Sort) route nodes index stop :
  (∀ stops, sort stops ≡ₚ stops) →
  sort (stops_of route nodes) !! index = Some stop →
  stop ∈ nodes ∧ RouteNode.parentNode stop = Some route.
Proof.
  intros Hperm Hstop. apply list_elem_of_lookup_2 in Hstop.
  rewrite Hperm in Hstop.
  unfold stops_of in Hstop. by apply list_elem_of_filter in Hstop as [? ?].
Qed.

Lemma enriched_ends (sort : Sort) nodes edges enriched :
  (∀ stops, sort stops ≡ₚ stops) →
  enriched ∈ calculateCurrentPassengers sort nodes edges →
  ∃ route stop nextStop,
    route ≠ EmptyString
    ∧ stop ∈ nodes ∧ RouteNode.parentNode stop = Some route
    ∧ nextStop ∈ nodes ∧ RouteNode.parentNode nextStop = Some route
    ∧ RouteEdge.source (EnrichedEdge.edge enriched) = RouteNode.id stop
    ∧ RouteEdge.target (EnrichedEdge.edge enriched) = RouteNode.id nextStop.
Proof.
  intros Hperm Hin. apply enriched_rides in Hin as (route & Hroute & Hrides).
  destruct Hrides as (index & stop & nextStop & edge
                      & Hstop & Hnext & _ & Hsource & Htarget & Hedge & _).
  apply (sorted_stop sort) in Hstop as [? ?]; [|done].
  apply (sorted_stop sort) in Hnext as [? ?]; [|done].
  exists route, stop, nextStop. rewrite Hedge.
  by rewrite Hsource, Htarget.
Qed.

(** What one pass over the sorted stops of a route pushes: nothing that was
    pushed before is lost, and no pair of neighbours with an edge is left
    out. *)
Lemma forEach_complete edges s rest : ∀ done out,
  s = done ++ rest →
  ∀ index stop nextStop edge,
    (length done ≤ index)%nat →
    s !! index = Some stop →
    s !! S index = Some nextStop →
    find (connects stop nextStop) edges = Some edge →
    enrich edge (running (take (S index) s))
    ∈ (forEach_from (visit edges s) (length done) (running done, out) rest).2.
Proof.
  induction rest as [|node rest IH]; intros done out Hs index stop nextStop edge
    Hle Hstop Hnext Hfind.
  - subst s. rewrite app_nil_r in Hstop.
    apply lookup_lt_Some in Hstop. lia.
  - cbn [forEach_from].
    assert (s = (done ++ [node]) ++ rest) as Hs' by (by rewrite <- app_assoc).
    assert (s !! length done = Some node) as Hnode.
    { rewrite Hs. by rewrite lookup_app_r, Nat.sub_diag by lia. }
    assert (take (S (length done)) s = done ++ [node]) as Htake.
    { rewrite Hs', take_app_length'; [done|]. rewrite length_app. cbn. lia. }
    destruct (decide (index = length done)) as [->|Hne].
    + rewrite Hnode in Hstop. injection Hstop as <-.
      unfold visit at 2. rewrite <- running_snoc.
      assert ((length done <? length s - 1)%nat = true) as ->.
      { apply Nat.ltb_lt. apply lookup_lt_Some in Hnext. lia. }
      replace (length done + 1)%nat with (S (length done)) by lia.
      rewrite Hnext, Hfind, Htake.
      specialize (forEach_rides edges s rest (done ++ [node])
                    (out ++ [enrich edge (running (done ++ [node]))]) Hs')
        as (new & Hnew & _).
      rewrite length_app in Hnew. cbn [length] in Hnew.
      replace (length done + 1)%nat with (S (length done)) in Hnew by lia.
      rewrite Hnew. rewrite !elem_of_app, elem_of_cons. auto.
    + assert (∃ out', visit edges s (running done, out) (length done) node
                      = (running (done ++ [node]), out')) as [out' ->].
      { unfold visit. rewrite <- running_snoc.
        destruct (_ <? _)%nat; [|by eexists].
        destruct (s !! (length done + 1)%nat) as [nextNode|]; [|by eexists].
        destruct (find (connects node nextNode) edges); by eexists. }
      specialize (IH (done ++ [node]) out' Hs' index stop nextStop edge).
      rewrite length_app in IH. cbn [length] in IH.
      replace (length done + 1)%nat with (S (length done)) in IH by lia.
      apply IH; [lia|done..].
Qed.

Lemma groups_complete (sort : Sort) edges groups :
  ∀ out group index stop nextStop edge,
  group ∈ groups →
  sort group.2 !! index = Some stop →
  sort group.2 !! S index = Some nextStop →
  find (connects stop nextStop) edges = Some edge →
  enrich edge (running (take (S index) (sort group.2)))
  ∈ foldl (λ enrichedEdges (group : string * list RouteNode.t),
             (forEach_from (visit edges (sort group.2)) O
                (Safe 0, enrichedEdges) (sort group.2)).2)
      out groups.
Proof.
  induction groups as [|g groups IH];
    intros out group index stop nextStop edge Hgroup Hstop Hnext Hfind.
  - by apply elem_of_nil in Hgroup.
  - cbn [foldl]. apply elem_of_cons in Hgroup as [->|Hgroup].
    + destruct (groups_ride sort edges groups
                  (forEach_from (visit edges (sort g.2)) O
                     (Safe 0, out) (sort g.2)).2)
        as (new & -> & _).
      apply elem_of_app. left.
      apply (forEach_complete edges (sort g.2) (sort g.2) [] out eq_refl
               index stop nextStop);
        [cbn; lia|done..].
    + by eapply IH.
Qed.

(** X17.  No pair of neighbours is left out.  The sort is the engine's; of
    it the theorem takes that it keeps the stops.  For every route with a
    name, when two stops follow each other in the sorted stops of the route
    and some input edge goes from the first to the second, the result holds
    an enriched edge for the first such edge of the input.  Where the stops
    up to the first of the two have head counts (whole numbers, of sums
    within 2^53), it carries the passengers on board after that stop, and
    shows this number in decimal followed by 명. *)
Theorem calculateCurrentPassengers_complete sort nodes edges route index stop
    nextStop edge :
  (∀ stops, sort stops ≡ₚ stops) →
  route ≠ EmptyString →
  sort (stops_of route nodes) !! index = Some stop →
  sort (stops_of route nodes) !! S index = Some nextStop →
  find (connects stop nextStop) edges = Some edge →
  ∃ enriched,
    enriched ∈ calculateCurrentPassengers sort nodes edges
    ∧ EnrichedEdge.edge enriched = edge
    ∧ (head_counts (take (S index) (sort (stops_of route nodes))) →
       EnrichedEdge.currentPassengers enriched
       = Safe (on_board (take (S index) (sort (stops_of route nodes))))
       ∧ EnrichedEdge.label enriched
         = Some (show_Z (on_board (take (S index)
                                     (sort (stops_of route nodes))))
                 +:+ "명")).
Proof.
  intros Hperm Hroute Hstop Hnext Hfind.
  destruct (sorted_stop sort _ _ _ _ Hperm Hstop) as [Hin Hparent].
  destruct (routeGroups_spec nodes) as (_ & Hgroups & Hkeys).
  specialize (Hkeys _ _ Hin Hparent Hroute).
  apply list_elem_of_fmap in Hkeys as ([r ns] & Hr & Hgroup).
  cbn in Hr. subst r.
  destruct (Hgroups _ _ Hgroup) as [_ ->].
  exists (enrich edge (running (take (S index) (sort (stops_of route nodes))))).
  split.
  - unfold calculateCurrentPassengers. cbv zeta.
    by apply (groups_complete sort edges (routeGroups nodes) []
                (route, stops_of route nodes) index stop nextStop edge).
  - split; [done|]. intros Hcounts.
    destruct (enrich_head_counts edge _ Hcounts) as (text & Hc & Hl & -> & _).
    by split.
Qed.

(** X17, witness: the second edge of the first route. *)
Lemma calculateCurrentPassengers_complete_witness :
  ∃ enriched,
    enriched
    ∈ calculateCurrentPassengers (sort_by key_order) commute_nodes commute_edges
    ∧ EnrichedEdge.edge enriched = link "e2" "출근1호::2" "출근1호::3"
    ∧ (head_counts
         (take 2 (sort_by key_order (stops_of "출근1호" commute_nodes))) →
       EnrichedEdge.currentPassengers enriched
       = Safe (on_board
                 (take 2 (sort_by key_order (stops_of "출근1호" commute_nodes))))
       ∧ EnrichedEdge.label enriched
         = Some (show_Z
                   (on_board
                      (take 2 (sort_by key_order
                                 (stops_of "출근1호" commute_nodes))))
                 +:+ "명")).
Proof.
  apply (calculateCurrentPassengers_complete (sort_by key_order) commute_nodes
           commute_edges "출근1호" 1 (stop "출근1호::2" "출근1호" "승차" 3)
           (stop "출근1호::3" "출근1호" "하차" 8)
           (link "e2" "출근1호::2" "출근1호::3")).
  - apply sort_by_perm.
  - discriminate.
  - vm_compute. reflexivity.
  - vm_compute. reflexivity.
  - vm_compute. reflexivity.
Defined.

(** X18.  The enriched edges never dangle.  The sort is the engine's; of it
    the theorem takes that it keeps the stops.  Whatever the input, also
    with edges that name stops the data does not have, the edges that
    [calculateCurrentPassengers] returns pass [validateNodeEdges] against
    the same nodes. *)
Theorem calculateCurrentPassengers_validates sort nodes edges :
  (∀ stops, sort stops ≡ₚ stops) →
  validateNodeEdges
    {| RouteGraphData.nodes := nodes;
       RouteGraphData.edges :=
         EnrichedEdge.edge <$> calculateCurrentPassengers sort nodes edges |}
  = true.
Proof.
  intros Hperm.
  unfold validateNodeEdges. cbv zeta. cbn [RouteGraphData.nodes RouteGraphData.edges].
  apply all_edges_known_true. intros e He.
  apply list_elem_of_fmap in He as (enriched & -> & Hin).
  apply enriched_ends in Hin
    as (route & stop & nextStop & _ & Hs & _ & Hn & _ & -> & ->); [|done].
  rewrite !elem_of_node_ids. split; [by exists stop|by exists nextStop].
Qed.

(** X18, witness: the two morning routes, with an edge to a stop the data
    does not have. *)
Lemma calculateCurrentPassengers_validates_witness :
  validateNodeEdges
    {| RouteGraphData.nodes := commute_nodes;
       RouteGraphData.edges :=
         EnrichedEdge.edge
         <$> calculateCurrentPassengers (sort_by key_order) commute_nodes
               (link "e9" "출근1호::3" "출근1호::9" :: commute_edges) |}
  = true.
Proof.
  apply (calculateCurrentPassengers_validates (sort_by key_order)
           commute_nodes (link "e9" "출근1호::3" "출근1호::9" :: commute_edges)).
  apply sort_by_perm.
Defined.

End Coverage.
(** ** The route flow *)

Section RouteFlow.
Import Text Py Frontend Spec Flow FlowFacts.

Lemma map_set_keys k v m k' :
  k' ∈ (fst <$> map_set k v m) ↔ k' = k ∨ k' ∈ (fst <$> m).
Proof.
  induction m as [|[k0 v0] m IH]; cbn.
  - rewrite elem_of_cons, elem_of_nil. tauto.
  - destruct (String.eqb k0 k) eqn:Hk; cbn.
    + apply String.eqb_eq in Hk as ->. rewrite !elem_of_cons. tauto.
    + rewrite !elem_of_cons, IH. tauto.
Qed.

Lemma map_set_NoDup k v m :
  NoDup (fst <$> m) → NoDup (fst <$> map_set k v m).
Proof.
  induction m as [|[k0 v0] m IH]; cbn; intros Hm.
  - apply NoDup_singleton.
  - apply NoDup_cons in Hm as [Hk0 Hm].
    destruct (String.eqb k0 k) eqn:Hk; cbn.
    + apply String.eqb_eq in Hk as ->. by apply NoDup_cons.
    + apply String.eqb_neq in Hk. apply NoDup_cons. split; [|by apply IH].
      rewrite map_set_keys. intros [?|?]; congruence.
Qed.

Lemma routeNameMap_keys routeData :
  NoDup (fst <$> routeNameMap routeData)
  ∧ ∀ k, k ∈ (fst <$> routeNameMap routeData) ↔ k ∈ group_ids routeData.
Proof.
  unfold routeNameMap, group_ids.
  induction (groupNodes routeData) as [|node groups IH] using rev_ind.
  - cbn. split; [constructor|]. done.
  - rewrite foldl_app. cbn [foldl]. destruct IH as [Hdup Hkeys]. split.
    + by apply map_set_NoDup.
    + intros k. rewrite map_set_keys, Hkeys, fmap_app, elem_of_app. cbn.
      rewrite elem_of_cons, elem_of_nil. tauto.
Qed.

Lemma elem_of_stopNodes routeData n :
  n ∈ stopNodes routeData
  ↔ n ∈ RouteGraphData.nodes routeData ∧ is_group n = false.
Proof.
  unfold stopNodes. rewrite !list_elem_of_In, filter_In.
  destruct (is_group n); cbn; intuition congruence.
Qed.

Lemma elem_of_node_ids_stop routeData n :
  n ∈ stopNodes routeData → RouteNode.id n ∈ node_ids routeData.
Proof.
  intros Hn. unfold node_ids, initialNodes. rewrite !fmap_app, !elem_of_app.
  right. left. unfold stopNodesTransformed. rewrite <- list_fmap_compose.
  apply list_elem_of_fmap. by exists n.
Qed.

Lemma elem_of_node_ids_start routeData entry :
  entry ∈ routeNameMap routeData → "start-" +:+ entry.1 ∈ node_ids routeData.
Proof.
  intros Hn. unfold node_ids, initialNodes. rewrite !fmap_app, !elem_of_app.
  left. unfold startNodes. rewrite <- list_fmap_compose.
  apply list_elem_of_fmap. by exists entry.
Qed.

Lemma elem_of_node_ids_end routeData entry :
  entry ∈ routeNameMap routeData → "end-" +:+ entry.1 ∈ node_ids routeData.
Proof.
  intros Hn. unfold node_ids, initialNodes. rewrite !fmap_app, !elem_of_app.
  right. right. unfold endNodes. rewrite <- list_fmap_compose.
  apply list_elem_of_fmap. by exists entry.
Qed.

(** X19.  Every edge handed to React Flow ends in nodes handed to React Flow.
    The sort is the engine's; of it the theorem takes that it keeps the
    stops.  When no node with a parent is itself of type [group], each start edge,
    each edge between stops computed by [calculateCurrentPassengers] from
    the same data, and each end edge has a source and a target among the
    ids of the initial nodes. *)
Theorem initialEdges_closed sort routeData e :
  (∀ stops, sort stops ≡ₚ stops) →
  stops_are_no_groups (RouteGraphData.nodes routeData) →
  e ∈ initialEdges sort routeData
        (calculateCurrentPassengers sort (RouteGraphData.nodes routeData)
           (RouteGraphData.edges routeData)) →
  Edge.source e ∈ node_ids routeData ∧ Edge.target e ∈ node_ids routeData.
Proof.
  intros Hperm Hstops. unfold initialEdges. rewrite !elem_of_app.
  intros [He|[He|He]].
  - apply list_elem_of_omap in He as (entry & Hentry & He). cbn in He.
    destruct (find _ _) as [firstStop|] eqn:Hfind; [|done].
    cbn in He. injection He as <-. cbn.
    apply find_some in Hfind as [Hin _]. apply list_elem_of_In in Hin.
    split; [by apply elem_of_node_ids_start|by apply elem_of_node_ids_stop].
  - apply list_elem_of_fmap in He as (enriched & -> & Hin). cbn.
    apply enriched_ends in Hin
      as (route & stop & nextStop & Hroute & Hs & Hps & Hn & Hpn & -> & ->);
      [|done].
    split; apply elem_of_node_ids_stop, elem_of_stopNodes;
      (split; [done|]); apply Hstops; try done.
    + rewrite Hps. by destruct route.
    + rewrite Hpn. by destruct route.
  - apply list_elem_of_omap in He as (entry & Hentry & He). cbn in He.
    destruct (_ =? _)%nat; [done|].
    destruct (last _) as [lastStop|] eqn:Hlast; [|done].
    cbn in He. injection He as <-. cbn.
    split; [|by apply elem_of_node_ids_end].
    apply elem_of_node_ids_stop.
    apply last_Some in Hlast as [l' Hl'].
    assert (lastStop ∈ sort
              (List.filter (on_route entry.1) (stopNodes routeData))) as Hin.
    { rewrite Hl'. apply elem_of_app. right. by apply elem_of_cons; left. }
    rewrite Hperm in Hin.
    apply list_elem_of_In, filter_In in Hin as [Hin _].
    by apply list_elem_of_In.
Qed.

Lemma commute_stops_are_no_groups :
  stops_are_no_groups (RouteGraphData.nodes commute_data).
Proof.
  intros n Hn Hparent. cbn in Hn.
  repeat (apply elem_of_cons in Hn as [->|Hn];
          [first [reflexivity|discriminate Hparent]|]).
  by apply elem_of_nil in Hn.
Defined.

(** X19, witness: the edge from the start of the first route to the stop
    the data lists first for it. *)
Lemma initialEdges_closed_witness :
  "start-출근1호" ∈ node_ids commute_data
  ∧ "출근1호::2" ∈ node_ids commute_data.
Proof.
  apply (initialEdges_closed (sort_by key_order) commute_data
           (terminal_edge "edge-start-출근1호" "start-출근1호" "출근1호::2")).
  - apply sort_by_perm.
  - exact commute_stops_are_no_groups.
  - apply list_elem_of_In. vm_compute. left. reflexivity.
Defined.


Lemma find_is_Some {A} (f : A → bool) (l : list A) :
  is_Some (find f l) ↔ ∃ x, x ∈ l ∧ f x = true.
Proof.
  split.
  - intros [x Hx]. apply find_some in Hx as [Hin Hf].
    exists x. by rewrite list_elem_of_In.
  - intros (x & Hin & Hf). destruct (find f l) eqn:Hfind; [done|].
    apply list_elem_of_In in Hin.
    pose proof (find_none _ _ Hfind _ Hin). congruence.
Qed.

Lemma on_route_true routeId n :
  on_route routeId n = true ↔ RouteNode.parentNode n = Some routeId.
Proof. unfold on_route. by rewrite bool_decide_eq_true. Qed.

Lemma startNodes_ids routeData :
  Node.id <$> startNodes routeData
  = (λ k, "start-" +:+ k) <$> (fst <$> routeNameMap routeData).
Proof. unfold startNodes. by rewrite <- !list_fmap_compose. Qed.

Lemma endNodes_ids routeData :
  Node.id <$> endNodes routeData
  = (λ k, "end-" +:+ k) <$> (fst <$> routeNameMap routeData).
Proof. unfold endNodes. by rewrite <- !list_fmap_compose. Qed.

(** X20.  Terminals per route.  The sort is the engine's; of it the theorem
    takes that it keeps the stops.  The start and end nodes have pairwise distinct
    ids, also when the data repeats a group.  Every group of the data has
    its start node and its end node; it has a start edge exactly when some
    stop names it as parent, and an end edge on the same condition. *)
Theorem terminals_per_route sort routeData :
  (∀ stops, sort stops ≡ₚ stops) →
  NoDup (Node.id <$> startNodes routeData ++ endNodes routeData)
  ∧ ∀ routeId,
      routeId ∈ group_ids routeData →
      "start-" +:+ routeId ∈ (Node.id <$> startNodes routeData)
      ∧ "end-" +:+ routeId ∈ (Node.id <$> endNodes routeData)
      ∧ ((∃ e, e ∈ startEdges routeData ∧ Edge.source e = "start-" +:+ routeId)
         ↔ ∃ n, n ∈ stopNodes routeData ∧ RouteNode.parentNode n = Some routeId)
      ∧ ((∃ e, e ∈ endEdges sort routeData
                ∧ Edge.target e = "end-" +:+ routeId)
         ↔ ∃ n, n ∈ stopNodes routeData ∧ RouteNode.parentNode n = Some routeId).
Proof.
  intros Hperm.
  destruct (routeNameMap_keys routeData) as [Hdup Hkeys].
  split.
  - rewrite fmap_app, startNodes_ids, endNodes_ids.
    apply NoDup_app. split; [|split].
    + apply NoDup_fmap_2; [|done]. intros a b Hab. cbv [String.append] in Hab. congruence.
    + intros x Hstart Hend.
      apply list_elem_of_fmap in Hstart as (a & -> & _).
      apply list_elem_of_fmap in Hend as (b & Hb & _). cbv [String.append] in Hb. congruence.
    + apply NoDup_fmap_2; [|done]. intros a b Hab. cbv [String.append] in Hab. congruence.
  - intros routeId Hgroup. apply Hkeys in Hgroup.
    apply list_elem_of_fmap in Hgroup as (entry & -> & Hentry).
    split; [|split; [|split]].
    + rewrite startNodes_ids. by do 2 apply list_elem_of_fmap_2.
    + rewrite endNodes_ids. by do 2 apply list_elem_of_fmap_2.
    + split.
      * intros (e & He & Hsource).
        apply list_elem_of_omap in He as (entry' & Hentry' & He). cbn in He.
        destruct (find _ _) as [firstStop|] eqn:Hfind; [|done].
        cbn in He. injection He as <-. cbn in Hsource.
        cbv [String.append] in Hsource.
        assert (entry'.1 = entry.1) as Heq by congruence. rewrite Heq in Hfind.
        apply find_some in Hfind as [Hin Hroute].
        exists firstStop. split; [by apply list_elem_of_In|].
        by apply on_route_true.
      * intros (n & Hn & Hparent).
        destruct (find_is_Some (on_route entry.1) (stopNodes routeData))
          as [_ [firstStop Hfind]].
        { exists n. split; [done|]. by apply on_route_true. }
        eexists. split.
        -- apply list_elem_of_omap. exists entry. split; [done|].
           cbn. rewrite Hfind. reflexivity.
        -- reflexivity.
    + split.
      * intros (e & He & Htarget).
        apply list_elem_of_omap in He as (entry' & Hentry' & He). cbn in He.
        destruct (_ =? _)%nat; [done|].
        destruct (last _) as [lastStop|] eqn:Hlast; [|done].
        cbn in He. injection He as <-. cbn in Htarget.
        cbv [String.append] in Htarget.
        assert (entry'.1 = entry.1) as Heq by congruence. rewrite Heq in Hlast.
        apply last_Some in Hlast as [l' Hl'].
        assert (lastStop ∈ sort
                  (List.filter (on_route entry.1) (stopNodes routeData))) as Hin.
        { rewrite Hl'. apply elem_of_app. right. by apply elem_of_cons; left. }
        rewrite Hperm in Hin.
        apply list_elem_of_In, filter_In in Hin as [Hin Hroute].
        exists lastStop. split; [by apply list_elem_of_In|].
        by apply on_route_true.
      * intros (n & Hn & Hparent).
        assert (n ∈ sort
                  (List.filter (on_route entry.1) (stopNodes routeData))) as Hin.
        { rewrite Hperm. apply list_elem_of_In, filter_In.
          split; [by apply list_elem_of_In|by apply on_route_true]. }
        assert (length (List.filter (on_route entry.1) (stopNodes routeData)) ≠ 0%nat)
          as Hlen.
        { rewrite <- (Permutation_length (Hperm _)).
          intros Hnil. apply nil_length_inv in Hnil. rewrite Hnil in Hin.
          by apply elem_of_nil in Hin. }
        destruct (last (sort
                          (List.filter (on_route entry.1) (stopNodes routeData))))
          as [lastStop|] eqn:Hlast.
        2:{ apply last_None in Hlast. rewrite Hlast in Hin.
            by apply elem_of_nil in Hin. }
        eexists. split.
        -- apply list_elem_of_omap. exists entry. split; [done|].
           cbn. apply Nat.eqb_neq in Hlen. rewrite Hlen, Hlast. reflexivity.
        -- reflexivity.
Qed.

(** X20, witness: the first route of the commute data. *)
Lemma terminals_per_route_witness :
  "start-출근1호" ∈ (Node.id <$> startNodes commute_data)
  ∧ "end-출근1호" ∈ (Node.id <$> endNodes commute_data)
  ∧ ((∃ e, e ∈ startEdges commute_data ∧ Edge.source e = "start-출근1호")
     ↔ ∃ n, n ∈ stopNodes commute_data ∧ RouteNode.parentNode n = Some "출근1호")
  ∧ ((∃ e, e ∈ endEdges (sort_by key_order) commute_data
            ∧ Edge.target e = "end-출근1호")
     ↔ ∃ n, n ∈ stopNodes commute_data ∧ RouteNode.parentNode n = Some "출근1호").
Proof.
  apply (proj2 (terminals_per_route (sort_by key_order) commute_data
                  (sort_by_perm key_order)) "출근1호").
  apply list_elem_of_In. vm_compute. left. reflexivity.
Defined.


Lemma highlight_lookup h id eds i edge :
  assoc "id" h = Some id → js_truthy id = true →
  eds !! i = Some edge →
  ∃ edge',
    highlight (Some h) eds !! i = Some edge'
    ∧ Edge.id edge' = Edge.id edge
    ∧ Edge.animated edge' = (if is_hit id edge then true else Edge.animated edge)
    ∧ Edge.style edge'
      = (if is_hit id edge then Some highlight_style else Edge.style edge)
    ∧ Edge.className edge'
      = (if is_hit id edge then Some "highlighted-edge" else None).
Proof.
  intros Hid Htruthy Hedge. unfold highlight. rewrite Hid, Htruthy. cbn.
  rewrite list_lookup_fmap, Hedge. cbn. by eexists.
Qed.

Lemma highlight_keeps_style h eds i edge :
  eds !! i = Some edge →
  ∃ edge',
    highlight h eds !! i = Some edge'
    ∧ Edge.id edge' = Edge.id edge
    ∧ (Edge.style edge = Some highlight_style →
       Edge.style edge' = Some highlight_style)
    ∧ (Edge.animated edge = true → Edge.animated edge' = true).
Proof.
  intros Hedge. unfold highlight.
  destruct h as [h|]; [|by exists edge].
  destruct (assoc "id" h) as [id|]; [|by exists edge].
  destruct (js_truthy id); cbn; [|by exists edge].
  rewrite list_lookup_fmap, Hedge. cbn. eexists. split; [done|]. cbn.
  split; [done|]. by destruct (is_hit id edge).
Qed.

(** X21.  A highlight is never undone.  An edge that was highlighted keeps the
    highlight style and stays animated through every later update of the
    highlight; only the class [highlighted-edge] leaves it when another
    edge is picked. *)
Theorem highlight_is_never_undone h s later eds i edge :
  assoc "id" h = Some (JStr s) → s ≠ EmptyString →
  eds !! i = Some edge → Edge.id edge = s →
  ∃ edge',
    highlight later (highlight (Some h) eds) !! i = Some edge'
    ∧ Edge.id edge' = s
    ∧ Edge.style edge' = Some highlight_style
    ∧ Edge.animated edge' = true
    ∧ (∀ h' s', later = Some h' → assoc "id" h' = Some (JStr s') →
         s' ≠ EmptyString → s' ≠ s → Edge.className edge' = None).
Proof.
  intros Hid Hs Hedge Hhit.
  assert (js_truthy (JStr s) = true) as Htruthy by (by destruct s).
  destruct (highlight_lookup h (JStr s) eds i edge Hid Htruthy Hedge)
    as (edge1 & Hedge1 & Hid1 & Hanimated1 & Hstyle1 & _).
  assert (is_hit (JStr s) edge = true) as Hhit'
    by (cbn; by apply String.eqb_eq).
  rewrite Hhit' in Hanimated1, Hstyle1.
  destruct (highlight_keeps_style later _ i edge1 Hedge1)
    as (edge2 & Hedge2 & Hid2 & Hstyle2 & Hanimated2).
  exists edge2. split; [done|]. split; [congruence|].
  split; [auto|]. split; [auto|].
  intros h' s' -> Hid' Hs' Hne.
  assert (js_truthy (JStr s') = true) as Htruthy' by (by destruct s').
  destruct (highlight_lookup h' (JStr s') _ i edge1 Hid' Htruthy' Hedge1)
    as (edge2' & Hedge2' & _ & _ & _ & Hclass).
  rewrite Hedge2 in Hedge2'. injection Hedge2' as <-.
  rewrite Hclass. cbn. rewrite Hid1, Hhit.
  by rewrite (proj2 (String.eqb_neq s s')).
Qed.

(** X21, witness: the first edge between stops is picked, then the
    second. *)
Lemma highlight_is_never_undone_witness :
  ∃ edge',
    highlight (Some [("id", JStr "e2")])
      (highlight (Some [("id", JStr "e1")])
         (initialEdges (sort_by key_order) commute_data
            (calculateCurrentPassengers (sort_by key_order) commute_nodes
               commute_edges)))
    !! 2%nat = Some edge'
    ∧ Edge.id edge' = "e1"
    ∧ Edge.style edge' = Some highlight_style
    ∧ Edge.animated edge' = true
    ∧ (∀ h' s', Some [("id", JStr "e2")] = Some h' →
         assoc "id" h' = Some (JStr s') →
         s' ≠ EmptyString → s' ≠ "e1" → Edge.className edge' = None).
Proof.
  apply (highlight_is_never_undone [("id", JStr "e1")] "e1"
           (Some [("id", JStr "e2")]) _ 2
           {| Edge.id := "e1"; Edge.source := "출근1호::1";
              Edge.target := "출근1호::2"; Edge.type := "routeEdge";
              Edge.animated := true; Edge.currentPassengers := Safe 5;
              Edge.isStartEdge := false; Edge.style := None;
              Edge.className := None |}).
  - reflexivity.
  - discriminate.
  - vm_compute. reflexivity.
  - reflexivity.
Defined.


End RouteFlow.
